(** * RINEX observation decoder (pkg/rinex/obs.go): model and properties

    A shallow embedding of the observation decoder of package [rinex]:
    the header reader, the epoch reader [NextEpoch], the sticky error
    field, the two-stream synchroniser [sync], the statistics collector
    [Stat] and the comparison of observations, epochs and files
    [diffObs], [diffEpo] and [Diff].

    Conventions.
    - Go strings are byte strings; they are modelled by [string].  The
      source remarks that RINEX files are ASCII, so white space is the
      ASCII white space recognised by [strings.TrimSpace] and
      [strings.Fields].
    - A run-time abort of the Go program (slice bounds out of range, nil
      dereference, ...) is the outcome [Panic].
    - [float64] is the binary64 type [float] of the kernel.
    - [time.Time] is an instant on the integer time line; the zero value
      is [0]. *)

From Stdlib Require Import ZArith String Ascii List Floats Lia Bool Sorted.
From stdpp Require Import base option list gmap strings.

Local Open Scope string_scope.
Local Open Scope list_scope.

(** ** Outcomes of a Go computation *)

Inductive panic : Type :=
| SliceBounds      (* slice bounds out of range *)
| NilDeref         (* invalid memory address or nil pointer dereference *)
| MakesliceCap     (* makeslice: cap out of range *)
| BigErrNaN.       (* big.ErrNaN raised by big.NewFloat *)

Inductive exec (A : Type) : Type :=
| Ret (a : A)
| Panic (p : panic)
| OutOfFuel.

Arguments Ret {A} a.
Arguments Panic {A} p.
Arguments OutOfFuel {A}.

Definition bind {A B} (m : exec A) (k : A -> exec B) : exec B :=
  match m with
  | Ret a => k a
  | Panic p => Panic p
  | OutOfFuel => OutOfFuel
  end.

Notation "'let*' x ':=' m 'in' k" := (bind m (fun x => k))
  (at level 10, x name, m at level 100, k at level 200).

(** ** Strings *)

Definition len (s : string) : nat := String.length s.

(** [s[lo:hi]] *)
Definition slice (s : string) (lo hi : nat) : exec string :=
  if (lo <=? hi)%nat && (hi <=? len s)%nat
  then Ret (substring lo (hi - lo) s)
  else Panic SliceBounds.

(** [s[lo:]] *)
Definition slice_from (s : string) (lo : nat) : exec string :=
  slice s lo (len s).

(** [s[:hi]] *)
Definition slice_to (s : string) (hi : nat) : exec string :=
  slice s 0 hi.

(** ASCII white space: '\t', '\n', '\v', '\f', '\r', ' '. *)
Definition isSpace (c : ascii) : bool :=
  let n := nat_of_ascii c in
  ((9 <=? n)%nat && (n <=? 13)%nat) || (n =? 32)%nat.

Fixpoint trimLeft (s : string) : string :=
  match s with
  | String c r => if isSpace c then trimLeft r else s
  | EmptyString => EmptyString
  end.

Fixpoint trimRight (s : string) : string :=
  match s with
  | String c r =>
      match trimRight r with
      | EmptyString => if isSpace c then EmptyString else String c EmptyString
      | r' => String c r'
      end
  | EmptyString => EmptyString
  end.

(** [strings.TrimSpace] *)
Definition TrimSpace (s : string) : string := trimRight (trimLeft s).

(** [strings.Fields]: [cur] is the field being read, in reverse. *)
Fixpoint fields_go (s : string) (cur : list ascii) : list string :=
  let flush (k : list string) :=
    match cur with
    | [] => k
    | _ => string_of_list_ascii (rev cur) :: k
    end in
  match s with
  | EmptyString => flush []
  | String c r =>
      if isSpace c then flush (fields_go r []) else fields_go r (c :: cur)
  end.

Definition Fields (s : string) : list string := fields_go s [].

(** [strings.HasPrefix] *)
Definition HasPrefix (s p : string) : bool := String.prefix p s.

Definition isDigit (c : ascii) : bool :=
  let n := nat_of_ascii c in (48 <=? n)%nat && (n <=? 57)%nat.

Fixpoint digits (s : string) (acc : Z) : option Z :=
  match s with
  | EmptyString => Some acc
  | String c r =>
      if isDigit c
      then digits r (10 * acc + Z.of_nat (nat_of_ascii c - 48))%Z
      else None
  end.

(** [strconv.Atoi]: an optional sign and one or more decimal digits;
    a value outside the 64-bit [int] is a range error. *)
Definition Atoi (s : string) : option Z :=
  let unsigned (t : string) :=
    match t with
    | EmptyString => None
    | _ => digits t 0
    end in
  let r :=
    match s with
    | String "-" t => option_map Z.opp (unsigned t)
    | String "+" t => unsigned t
    | _ => unsigned s
    end in
  match r with
  | Some n =>
      if ((- 2 ^ 63 <=? n) && (n <? 2 ^ 63))%Z then Some n else None
  | None => None
  end.

(** [parseFlag] *)
Definition parseFlag (str : string) : option Z :=
  if String.eqb str " " then Some 0%Z else Atoi str.


(** ** Data model *)

(** [gnss.System].  The package that declares it is outside this file;
    the values are those the specification lists. *)
Inductive System : Type :=
| SysGPS | SysGLO | SysGAL | SysQZSS | SysBDS | SysIRNSS | SysSBAS | SysMIXED.

#[global] Instance System_eq_dec : EqDecision System.
Proof. solve_decision. Defined.

#[global] Instance System_countable : Countable System.
Proof.
  refine (inj_countable'
    (fun s => match s with
              | SysGPS => 0 | SysGLO => 1 | SysGAL => 2 | SysQZSS => 3
              | SysBDS => 4 | SysIRNSS => 5 | SysSBAS => 6 | SysMIXED => 7
              end)
    (fun n => match n with
              | 0 => SysGPS | 1 => SysGLO | 2 => SysGAL | 3 => SysQZSS
              | 4 => SysBDS | 5 => SysIRNSS | 6 => SysSBAS | _ => SysMIXED
              end) _).
  by intros [].
Defined.

(** Modelled from the spec: the table [sysPerAbbr] is declared in another
    file of the package.  The specification gives the one-character codes
    G/R/E/J/C/I/S for GPS/GLONASS/Galileo/QZSS/BeiDou/IRNSS/SBAS, and M
    for a mixed file. *)
Definition sysPerAbbr (abbr : string) : option System :=
  if String.eqb abbr "G" then Some SysGPS
  else if String.eqb abbr "R" then Some SysGLO
  else if String.eqb abbr "E" then Some SysGAL
  else if String.eqb abbr "J" then Some SysQZSS
  else if String.eqb abbr "C" then Some SysBDS
  else if String.eqb abbr "I" then Some SysIRNSS
  else if String.eqb abbr "S" then Some SysSBAS
  else if String.eqb abbr "M" then Some SysMIXED
  else None.

(** [time.Time]: an instant; [Equal] and [After] compare instants. *)
Definition time_Time : Type := Z.
Definition time_Equal (t u : time_Time) : bool := (t =? u)%Z.
Definition time_After (t u : time_Time) : bool := (u <? t)%Z.
Definition time_Sub (t u : time_Time) : Z := (t - u)%Z.

Definition int8 (z : Z) : Z := ((z + 128) mod 256 - 128)%Z.
Definition uint8 (z : Z) : Z := (z mod 256)%Z.

(** The errors of the package.  [EOF] is [io.EOF]; [ErrNoHeader] is
    declared outside this file; [ErrReader] is an error of the underlying
    [io.Reader] or of the scanner; the others stand for the
    [fmt.Errorf] values built at the places named. *)
Inductive error : Type :=
| EOF
| ErrNoHeader
| ErrReader (code : nat)
| ErrHeaderTooLong (maxLines : nat)
| ErrRinexVersion
| ErrHeaderSatSys (lineNum : nat)
| ErrApproxPosition
| ErrAntennaDeltas
| ErrObsTypesSatSys (lineNum : nat)
| ErrHeaderParse (key : string)
| ErrEpochLine (lineNum : nat)
| ErrEpochFlag (lineNum : nat)
| ErrNumSat (lineNum : nat)
| ErrSatLine (lineNum : nat) (cause : error)
| ErrSatSys (lineNum : nat)
| ErrSatNum (lineNum : nat)
| ErrObsRange (typ : string) (lineNum : nat)
| ErrObsValue (typ : string) (lineNum : nat)
| ErrLLI (typ : string) (lineNum : nat)
| ErrSNR (typ : string) (lineNum : nat)
| ErrScanner (cause : error)
| ErrStream2 (cause : error).

#[global] Instance error_eq_dec : EqDecision error.
Proof. solve_decision. Defined.

Record Coord : Type := { X : float; Y : float; Z_ : float }.

Record CoordNEU : Type := { N : float; E : float; Up : float }.

Record Obs : Type := { Val : float; LLI : Z; SNR : Z }.

Record PRN : Type := { Sys : System; Num : Z }.

Record SatObs : Type := { Prn : PRN; Obss : gmap string Obs }.

Record Epoch : Type :=
  { Time : time_Time; Flag : Z; NumSat : Z; ObsList : list SatObs }.

Record SyncEpochs : Type := { Epo1 : option Epoch; Epo2 : option Epoch }.

Record ObsStat : Type :=
  { NumEpochs : Z; Sampling : Z;
    StatTimeOfFirstObs : time_Time; StatTimeOfLastObs : time_Time }.

Record ObsHeader : Type :=
  { RINEXVersion : float;
    RINEXType : string;
    SatSystem : option System;
    Pgm : string;
    RunBy : string;
    Date : string;
    Comments : list string;
    MarkerName : string;
    MarkerNumber : string;
    MarkerType : string;
    Observer : string;
    Agency : string;
    ReceiverNumber : string;
    ReceiverType : string;
    ReceiverVersion : string;
    AntennaNumber : string;
    AntennaType : string;
    Position : Coord;
    AntennaDelta : CoordNEU;
    ObsTypes : gmap System (list string);
    SignalStrengthUnit : string;
    Interval : float;
    TimeOfFirstObs : time_Time;
    TimeOfLastObs : time_Time;
    LeapSeconds : Z;
    NSatellites : Z;
    labels : list string;
    warnings : list string }.

(** The assignments [hdr.F = v], one for each field the header loop sets. *)

Definition set_RINEXVersion (v : float) (h : ObsHeader) : ObsHeader :=
  {| RINEXVersion := v; RINEXType := RINEXType h; SatSystem := SatSystem h;
     Pgm := Pgm h; RunBy := RunBy h; Date := Date h; Comments := Comments h;
     MarkerName := MarkerName h; MarkerNumber := MarkerNumber h;
     MarkerType := MarkerType h; Observer := Observer h; Agency := Agency h;
     ReceiverNumber := ReceiverNumber h; ReceiverType := ReceiverType h;
     ReceiverVersion := ReceiverVersion h; AntennaNumber := AntennaNumber h;
     AntennaType := AntennaType h; Position := Position h;
     AntennaDelta := AntennaDelta h; ObsTypes := ObsTypes h;
     SignalStrengthUnit := SignalStrengthUnit h; Interval := Interval h;
     TimeOfFirstObs := TimeOfFirstObs h; TimeOfLastObs := TimeOfLastObs h;
     LeapSeconds := LeapSeconds h; NSatellites := NSatellites h;
     labels := labels h; warnings := warnings h |}.

Definition set_RINEXType (v : string) (h : ObsHeader) : ObsHeader :=
  {| RINEXVersion := RINEXVersion h; RINEXType := v;
     SatSystem := SatSystem h; Pgm := Pgm h; RunBy := RunBy h;
     Date := Date h; Comments := Comments h; MarkerName := MarkerName h;
     MarkerNumber := MarkerNumber h; MarkerType := MarkerType h;
     Observer := Observer h; Agency := Agency h;
     ReceiverNumber := ReceiverNumber h; ReceiverType := ReceiverType h;
     ReceiverVersion := ReceiverVersion h; AntennaNumber := AntennaNumber h;
     AntennaType := AntennaType h; Position := Position h;
     AntennaDelta := AntennaDelta h; ObsTypes := ObsTypes h;
     SignalStrengthUnit := SignalStrengthUnit h; Interval := Interval h;
     TimeOfFirstObs := TimeOfFirstObs h; TimeOfLastObs := TimeOfLastObs h;
     LeapSeconds := LeapSeconds h; NSatellites := NSatellites h;
     labels := labels h; warnings := warnings h |}.

Definition set_SatSystem (v : option System) (h : ObsHeader) : ObsHeader :=
  {| RINEXVersion := RINEXVersion h; RINEXType := RINEXType h;
     SatSystem := v; Pgm := Pgm h; RunBy := RunBy h; Date := Date h;
     Comments := Comments h; MarkerName := MarkerName h;
     MarkerNumber := MarkerNumber h; MarkerType := MarkerType h;
     Observer := Observer h; Agency := Agency h;
     ReceiverNumber := ReceiverNumber h; ReceiverType := ReceiverType h;
     ReceiverVersion := ReceiverVersion h; AntennaNumber := AntennaNumber h;
     AntennaType := AntennaType h; Position := Position h;
     AntennaDelta := AntennaDelta h; ObsTypes := ObsTypes h;
     SignalStrengthUnit := SignalStrengthUnit h; Interval := Interval h;
     TimeOfFirstObs := TimeOfFirstObs h; TimeOfLastObs := TimeOfLastObs h;
     LeapSeconds := LeapSeconds h; NSatellites := NSatellites h;
     labels := labels h; warnings := warnings h |}.

Definition set_Pgm (v : string) (h : ObsHeader) : ObsHeader :=
  {| RINEXVersion := RINEXVersion h; RINEXType := RINEXType h;
     SatSystem := SatSystem h; Pgm := v; RunBy := RunBy h; Date := Date h;
     Comments := Comments h; MarkerName := MarkerName h;
     MarkerNumber := MarkerNumber h; MarkerType := MarkerType h;
     Observer := Observer h; Agency := Agency h;
     ReceiverNumber := ReceiverNumber h; ReceiverType := ReceiverType h;
     ReceiverVersion := ReceiverVersion h; AntennaNumber := AntennaNumber h;
     AntennaType := AntennaType h; Position := Position h;
     AntennaDelta := AntennaDelta h; ObsTypes := ObsTypes h;
     SignalStrengthUnit := SignalStrengthUnit h; Interval := Interval h;
     TimeOfFirstObs := TimeOfFirstObs h; TimeOfLastObs := TimeOfLastObs h;
     LeapSeconds := LeapSeconds h; NSatellites := NSatellites h;
     labels := labels h; warnings := warnings h |}.

Definition set_RunBy (v : string) (h : ObsHeader) : ObsHeader :=
  {| RINEXVersion := RINEXVersion h; RINEXType := RINEXType h;
     SatSystem := SatSystem h; Pgm := Pgm h; RunBy := v; Date := Date h;
     Comments := Comments h; MarkerName := MarkerName h;
     MarkerNumber := MarkerNumber h; MarkerType := MarkerType h;
     Observer := Observer h; Agency := Agency h;
     ReceiverNumber := ReceiverNumber h; ReceiverType := ReceiverType h;
     ReceiverVersion := ReceiverVersion h; AntennaNumber := AntennaNumber h;
     AntennaType := AntennaType h; Position := Position h;
     AntennaDelta := AntennaDelta h; ObsTypes := ObsTypes h;
     SignalStrengthUnit := SignalStrengthUnit h; Interval := Interval h;
     TimeOfFirstObs := TimeOfFirstObs h; TimeOfLastObs := TimeOfLastObs h;
     LeapSeconds := LeapSeconds h; NSatellites := NSatellites h;
     labels := labels h; warnings := warnings h |}.

Definition set_Date (v : string) (h : ObsHeader) : ObsHeader :=
  {| RINEXVersion := RINEXVersion h; RINEXType := RINEXType h;
     SatSystem := SatSystem h; Pgm := Pgm h; RunBy := RunBy h; Date := v;
     Comments := Comments h; MarkerName := MarkerName h;
     MarkerNumber := MarkerNumber h; MarkerType := MarkerType h;
     Observer := Observer h; Agency := Agency h;
     ReceiverNumber := ReceiverNumber h; ReceiverType := ReceiverType h;
     ReceiverVersion := ReceiverVersion h; AntennaNumber := AntennaNumber h;
     AntennaType := AntennaType h; Position := Position h;
     AntennaDelta := AntennaDelta h; ObsTypes := ObsTypes h;
     SignalStrengthUnit := SignalStrengthUnit h; Interval := Interval h;
     TimeOfFirstObs := TimeOfFirstObs h; TimeOfLastObs := TimeOfLastObs h;
     LeapSeconds := LeapSeconds h; NSatellites := NSatellites h;
     labels := labels h; warnings := warnings h |}.

Definition set_Comments (v : list string) (h : ObsHeader) : ObsHeader :=
  {| RINEXVersion := RINEXVersion h; RINEXType := RINEXType h;
     SatSystem := SatSystem h; Pgm := Pgm h; RunBy := RunBy h;
     Date := Date h; Comments := v; MarkerName := MarkerName h;
     MarkerNumber := MarkerNumber h; MarkerType := MarkerType h;
     Observer := Observer h; Agency := Agency h;
     ReceiverNumber := ReceiverNumber h; ReceiverType := ReceiverType h;
     ReceiverVersion := ReceiverVersion h; AntennaNumber := AntennaNumber h;
     AntennaType := AntennaType h; Position := Position h;
     AntennaDelta := AntennaDelta h; ObsTypes := ObsTypes h;
     SignalStrengthUnit := SignalStrengthUnit h; Interval := Interval h;
     TimeOfFirstObs := TimeOfFirstObs h; TimeOfLastObs := TimeOfLastObs h;
     LeapSeconds := LeapSeconds h; NSatellites := NSatellites h;
     labels := labels h; warnings := warnings h |}.

Definition set_MarkerName (v : string) (h : ObsHeader) : ObsHeader :=
  {| RINEXVersion := RINEXVersion h; RINEXType := RINEXType h;
     SatSystem := SatSystem h; Pgm := Pgm h; RunBy := RunBy h;
     Date := Date h; Comments := Comments h; MarkerName := v;
     MarkerNumber := MarkerNumber h; MarkerType := MarkerType h;
     Observer := Observer h; Agency := Agency h;
     ReceiverNumber := ReceiverNumber h; ReceiverType := ReceiverType h;
     ReceiverVersion := ReceiverVersion h; AntennaNumber := AntennaNumber h;
     AntennaType := AntennaType h; Position := Position h;
     AntennaDelta := AntennaDelta h; ObsTypes := ObsTypes h;
     SignalStrengthUnit := SignalStrengthUnit h; Interval := Interval h;
     TimeOfFirstObs := TimeOfFirstObs h; TimeOfLastObs := TimeOfLastObs h;
     LeapSeconds := LeapSeconds h; NSatellites := NSatellites h;
     labels := labels h; warnings := warnings h |}.

Definition set_MarkerNumber (v : string) (h : ObsHeader) : ObsHeader :=
  {| RINEXVersion := RINEXVersion h; RINEXType := RINEXType h;
     SatSystem := SatSystem h; Pgm := Pgm h; RunBy := RunBy h;
     Date := Date h; Comments := Comments h; MarkerName := MarkerName h;
     MarkerNumber := v; MarkerType := MarkerType h; Observer := Observer h;
     Agency := Agency h; ReceiverNumber := ReceiverNumber h;
     ReceiverType := ReceiverType h; ReceiverVersion := ReceiverVersion h;
     AntennaNumber := AntennaNumber h; AntennaType := AntennaType h;
     Position := Position h; AntennaDelta := AntennaDelta h;
     ObsTypes := ObsTypes h; SignalStrengthUnit := SignalStrengthUnit h;
     Interval := Interval h; TimeOfFirstObs := TimeOfFirstObs h;
     TimeOfLastObs := TimeOfLastObs h; LeapSeconds := LeapSeconds h;
     NSatellites := NSatellites h; labels := labels h;
     warnings := warnings h |}.

Definition set_MarkerType (v : string) (h : ObsHeader) : ObsHeader :=
  {| RINEXVersion := RINEXVersion h; RINEXType := RINEXType h;
     SatSystem := SatSystem h; Pgm := Pgm h; RunBy := RunBy h;
     Date := Date h; Comments := Comments h; MarkerName := MarkerName h;
     MarkerNumber := MarkerNumber h; MarkerType := v; Observer := Observer h;
     Agency := Agency h; ReceiverNumber := ReceiverNumber h;
     ReceiverType := ReceiverType h; ReceiverVersion := ReceiverVersion h;
     AntennaNumber := AntennaNumber h; AntennaType := AntennaType h;
     Position := Position h; AntennaDelta := AntennaDelta h;
     ObsTypes := ObsTypes h; SignalStrengthUnit := SignalStrengthUnit h;
     Interval := Interval h; TimeOfFirstObs := TimeOfFirstObs h;
     TimeOfLastObs := TimeOfLastObs h; LeapSeconds := LeapSeconds h;
     NSatellites := NSatellites h; labels := labels h;
     warnings := warnings h |}.

Definition set_Observer (v : string) (h : ObsHeader) : ObsHeader :=
  {| RINEXVersion := RINEXVersion h; RINEXType := RINEXType h;
     SatSystem := SatSystem h; Pgm := Pgm h; RunBy := RunBy h;
     Date := Date h; Comments := Comments h; MarkerName := MarkerName h;
     MarkerNumber := MarkerNumber h; MarkerType := MarkerType h;
     Observer := v; Agency := Agency h; ReceiverNumber := ReceiverNumber h;
     ReceiverType := ReceiverType h; ReceiverVersion := ReceiverVersion h;
     AntennaNumber := AntennaNumber h; AntennaType := AntennaType h;
     Position := Position h; AntennaDelta := AntennaDelta h;
     ObsTypes := ObsTypes h; SignalStrengthUnit := SignalStrengthUnit h;
     Interval := Interval h; TimeOfFirstObs := TimeOfFirstObs h;
     TimeOfLastObs := TimeOfLastObs h; LeapSeconds := LeapSeconds h;
     NSatellites := NSatellites h; labels := labels h;
     warnings := warnings h |}.

Definition set_Agency (v : string) (h : ObsHeader) : ObsHeader :=
  {| RINEXVersion := RINEXVersion h; RINEXType := RINEXType h;
     SatSystem := SatSystem h; Pgm := Pgm h; RunBy := RunBy h;
     Date := Date h; Comments := Comments h; MarkerName := MarkerName h;
     MarkerNumber := MarkerNumber h; MarkerType := MarkerType h;
     Observer := Observer h; Agency := v; ReceiverNumber := ReceiverNumber h;
     ReceiverType := ReceiverType h; ReceiverVersion := ReceiverVersion h;
     AntennaNumber := AntennaNumber h; AntennaType := AntennaType h;
     Position := Position h; AntennaDelta := AntennaDelta h;
     ObsTypes := ObsTypes h; SignalStrengthUnit := SignalStrengthUnit h;
     Interval := Interval h; TimeOfFirstObs := TimeOfFirstObs h;
     TimeOfLastObs := TimeOfLastObs h; LeapSeconds := LeapSeconds h;
     NSatellites := NSatellites h; labels := labels h;
     warnings := warnings h |}.

Definition set_ReceiverNumber (v : string) (h : ObsHeader) : ObsHeader :=
  {| RINEXVersion := RINEXVersion h; RINEXType := RINEXType h;
     SatSystem := SatSystem h; Pgm := Pgm h; RunBy := RunBy h;
     Date := Date h; Comments := Comments h; MarkerName := MarkerName h;
     MarkerNumber := MarkerNumber h; MarkerType := MarkerType h;
     Observer := Observer h; Agency := Agency h; ReceiverNumber := v;
     ReceiverType := ReceiverType h; ReceiverVersion := ReceiverVersion h;
     AntennaNumber := AntennaNumber h; AntennaType := AntennaType h;
     Position := Position h; AntennaDelta := AntennaDelta h;
     ObsTypes := ObsTypes h; SignalStrengthUnit := SignalStrengthUnit h;
     Interval := Interval h; TimeOfFirstObs := TimeOfFirstObs h;
     TimeOfLastObs := TimeOfLastObs h; LeapSeconds := LeapSeconds h;
     NSatellites := NSatellites h; labels := labels h;
     warnings := warnings h |}.

Definition set_ReceiverType (v : string) (h : ObsHeader) : ObsHeader :=
  {| RINEXVersion := RINEXVersion h; RINEXType := RINEXType h;
     SatSystem := SatSystem h; Pgm := Pgm h; RunBy := RunBy h;
     Date := Date h; Comments := Comments h; MarkerName := MarkerName h;
     MarkerNumber := MarkerNumber h; MarkerType := MarkerType h;
     Observer := Observer h; Agency := Agency h;
     ReceiverNumber := ReceiverNumber h; ReceiverType := v;
     ReceiverVersion := ReceiverVersion h; AntennaNumber := AntennaNumber h;
     AntennaType := AntennaType h; Position := Position h;
     AntennaDelta := AntennaDelta h; ObsTypes := ObsTypes h;
     SignalStrengthUnit := SignalStrengthUnit h; Interval := Interval h;
     TimeOfFirstObs := TimeOfFirstObs h; TimeOfLastObs := TimeOfLastObs h;
     LeapSeconds := LeapSeconds h; NSatellites := NSatellites h;
     labels := labels h; warnings := warnings h |}.

Definition set_ReceiverVersion (v : string) (h : ObsHeader) : ObsHeader :=
  {| RINEXVersion := RINEXVersion h; RINEXType := RINEXType h;
     SatSystem := SatSystem h; Pgm := Pgm h; RunBy := RunBy h;
     Date := Date h; Comments := Comments h; MarkerName := MarkerName h;
     MarkerNumber := MarkerNumber h; MarkerType := MarkerType h;
     Observer := Observer h; Agency := Agency h;
     ReceiverNumber := ReceiverNumber h; ReceiverType := ReceiverType h;
     ReceiverVersion := v; AntennaNumber := AntennaNumber h;
     AntennaType := AntennaType h; Position := Position h;
     AntennaDelta := AntennaDelta h; ObsTypes := ObsTypes h;
     SignalStrengthUnit := SignalStrengthUnit h; Interval := Interval h;
     TimeOfFirstObs := TimeOfFirstObs h; TimeOfLastObs := TimeOfLastObs h;
     LeapSeconds := LeapSeconds h; NSatellites := NSatellites h;
     labels := labels h; warnings := warnings h |}.

Definition set_AntennaNumber (v : string) (h : ObsHeader) : ObsHeader :=
  {| RINEXVersion := RINEXVersion h; RINEXType := RINEXType h;
     SatSystem := SatSystem h; Pgm := Pgm h; RunBy := RunBy h;
     Date := Date h; Comments := Comments h; MarkerName := MarkerName h;
     MarkerNumber := MarkerNumber h; MarkerType := MarkerType h;
     Observer := Observer h; Agency := Agency h;
     ReceiverNumber := ReceiverNumber h; ReceiverType := ReceiverType h;
     ReceiverVersion := ReceiverVersion h; AntennaNumber := v;
     AntennaType := AntennaType h; Position := Position h;
     AntennaDelta := AntennaDelta h; ObsTypes := ObsTypes h;
     SignalStrengthUnit := SignalStrengthUnit h; Interval := Interval h;
     TimeOfFirstObs := TimeOfFirstObs h; TimeOfLastObs := TimeOfLastObs h;
     LeapSeconds := LeapSeconds h; NSatellites := NSatellites h;
     labels := labels h; warnings := warnings h |}.

Definition set_AntennaType (v : string) (h : ObsHeader) : ObsHeader :=
  {| RINEXVersion := RINEXVersion h; RINEXType := RINEXType h;
     SatSystem := SatSystem h; Pgm := Pgm h; RunBy := RunBy h;
     Date := Date h; Comments := Comments h; MarkerName := MarkerName h;
     MarkerNumber := MarkerNumber h; MarkerType := MarkerType h;
     Observer := Observer h; Agency := Agency h;
     ReceiverNumber := ReceiverNumber h; ReceiverType := ReceiverType h;
     ReceiverVersion := ReceiverVersion h; AntennaNumber := AntennaNumber h;
     AntennaType := v; Position := Position h;
     AntennaDelta := AntennaDelta h; ObsTypes := ObsTypes h;
     SignalStrengthUnit := SignalStrengthUnit h; Interval := Interval h;
     TimeOfFirstObs := TimeOfFirstObs h; TimeOfLastObs := TimeOfLastObs h;
     LeapSeconds := LeapSeconds h; NSatellites := NSatellites h;
     labels := labels h; warnings := warnings h |}.

Definition set_Position (v : Coord) (h : ObsHeader) : ObsHeader :=
  {| RINEXVersion := RINEXVersion h; RINEXType := RINEXType h;
     SatSystem := SatSystem h; Pgm := Pgm h; RunBy := RunBy h;
     Date := Date h; Comments := Comments h; MarkerName := MarkerName h;
     MarkerNumber := MarkerNumber h; MarkerType := MarkerType h;
     Observer := Observer h; Agency := Agency h;
     ReceiverNumber := ReceiverNumber h; ReceiverType := ReceiverType h;
     ReceiverVersion := ReceiverVersion h; AntennaNumber := AntennaNumber h;
     AntennaType := AntennaType h; Position := v;
     AntennaDelta := AntennaDelta h; ObsTypes := ObsTypes h;
     SignalStrengthUnit := SignalStrengthUnit h; Interval := Interval h;
     TimeOfFirstObs := TimeOfFirstObs h; TimeOfLastObs := TimeOfLastObs h;
     LeapSeconds := LeapSeconds h; NSatellites := NSatellites h;
     labels := labels h; warnings := warnings h |}.

Definition set_AntennaDelta (v : CoordNEU) (h : ObsHeader) : ObsHeader :=
  {| RINEXVersion := RINEXVersion h; RINEXType := RINEXType h;
     SatSystem := SatSystem h; Pgm := Pgm h; RunBy := RunBy h;
     Date := Date h; Comments := Comments h; MarkerName := MarkerName h;
     MarkerNumber := MarkerNumber h; MarkerType := MarkerType h;
     Observer := Observer h; Agency := Agency h;
     ReceiverNumber := ReceiverNumber h; ReceiverType := ReceiverType h;
     ReceiverVersion := ReceiverVersion h; AntennaNumber := AntennaNumber h;
     AntennaType := AntennaType h; Position := Position h; AntennaDelta := v;
     ObsTypes := ObsTypes h; SignalStrengthUnit := SignalStrengthUnit h;
     Interval := Interval h; TimeOfFirstObs := TimeOfFirstObs h;
     TimeOfLastObs := TimeOfLastObs h; LeapSeconds := LeapSeconds h;
     NSatellites := NSatellites h; labels := labels h;
     warnings := warnings h |}.

Definition set_ObsTypes (v : gmap System (list string)) (h : ObsHeader) : ObsHeader :=
  {| RINEXVersion := RINEXVersion h; RINEXType := RINEXType h;
     SatSystem := SatSystem h; Pgm := Pgm h; RunBy := RunBy h;
     Date := Date h; Comments := Comments h; MarkerName := MarkerName h;
     MarkerNumber := MarkerNumber h; MarkerType := MarkerType h;
     Observer := Observer h; Agency := Agency h;
     ReceiverNumber := ReceiverNumber h; ReceiverType := ReceiverType h;
     ReceiverVersion := ReceiverVersion h; AntennaNumber := AntennaNumber h;
     AntennaType := AntennaType h; Position := Position h;
     AntennaDelta := AntennaDelta h; ObsTypes := v;
     SignalStrengthUnit := SignalStrengthUnit h; Interval := Interval h;
     TimeOfFirstObs := TimeOfFirstObs h; TimeOfLastObs := TimeOfLastObs h;
     LeapSeconds := LeapSeconds h; NSatellites := NSatellites h;
     labels := labels h; warnings := warnings h |}.

Definition set_SignalStrengthUnit (v : string) (h : ObsHeader) : ObsHeader :=
  {| RINEXVersion := RINEXVersion h; RINEXType := RINEXType h;
     SatSystem := SatSystem h; Pgm := Pgm h; RunBy := RunBy h;
     Date := Date h; Comments := Comments h; MarkerName := MarkerName h;
     MarkerNumber := MarkerNumber h; MarkerType := MarkerType h;
     Observer := Observer h; Agency := Agency h;
     ReceiverNumber := ReceiverNumber h; ReceiverType := ReceiverType h;
     ReceiverVersion := ReceiverVersion h; AntennaNumber := AntennaNumber h;
     AntennaType := AntennaType h; Position := Position h;
     AntennaDelta := AntennaDelta h; ObsTypes := ObsTypes h;
     SignalStrengthUnit := v; Interval := Interval h;
     TimeOfFirstObs := TimeOfFirstObs h; TimeOfLastObs := TimeOfLastObs h;
     LeapSeconds := LeapSeconds h; NSatellites := NSatellites h;
     labels := labels h; warnings := warnings h |}.

Definition set_Interval (v : float) (h : ObsHeader) : ObsHeader :=
  {| RINEXVersion := RINEXVersion h; RINEXType := RINEXType h;
     SatSystem := SatSystem h; Pgm := Pgm h; RunBy := RunBy h;
     Date := Date h; Comments := Comments h; MarkerName := MarkerName h;
     MarkerNumber := MarkerNumber h; MarkerType := MarkerType h;
     Observer := Observer h; Agency := Agency h;
     ReceiverNumber := ReceiverNumber h; ReceiverType := ReceiverType h;
     ReceiverVersion := ReceiverVersion h; AntennaNumber := AntennaNumber h;
     AntennaType := AntennaType h; Position := Position h;
     AntennaDelta := AntennaDelta h; ObsTypes := ObsTypes h;
     SignalStrengthUnit := SignalStrengthUnit h; Interval := v;
     TimeOfFirstObs := TimeOfFirstObs h; TimeOfLastObs := TimeOfLastObs h;
     LeapSeconds := LeapSeconds h; NSatellites := NSatellites h;
     labels := labels h; warnings := warnings h |}.

Definition set_TimeOfFirstObs (v : time_Time) (h : ObsHeader) : ObsHeader :=
  {| RINEXVersion := RINEXVersion h; RINEXType := RINEXType h;
     SatSystem := SatSystem h; Pgm := Pgm h; RunBy := RunBy h;
     Date := Date h; Comments := Comments h; MarkerName := MarkerName h;
     MarkerNumber := MarkerNumber h; MarkerType := MarkerType h;
     Observer := Observer h; Agency := Agency h;
     ReceiverNumber := ReceiverNumber h; ReceiverType := ReceiverType h;
     ReceiverVersion := ReceiverVersion h; AntennaNumber := AntennaNumber h;
     AntennaType := AntennaType h; Position := Position h;
     AntennaDelta := AntennaDelta h; ObsTypes := ObsTypes h;
     SignalStrengthUnit := SignalStrengthUnit h; Interval := Interval h;
     TimeOfFirstObs := v; TimeOfLastObs := TimeOfLastObs h;
     LeapSeconds := LeapSeconds h; NSatellites := NSatellites h;
     labels := labels h; warnings := warnings h |}.

Definition set_TimeOfLastObs (v : time_Time) (h : ObsHeader) : ObsHeader :=
  {| RINEXVersion := RINEXVersion h; RINEXType := RINEXType h;
     SatSystem := SatSystem h; Pgm := Pgm h; RunBy := RunBy h;
     Date := Date h; Comments := Comments h; MarkerName := MarkerName h;
     MarkerNumber := MarkerNumber h; MarkerType := MarkerType h;
     Observer := Observer h; Agency := Agency h;
     ReceiverNumber := ReceiverNumber h; ReceiverType := ReceiverType h;
     ReceiverVersion := ReceiverVersion h; AntennaNumber := AntennaNumber h;
     AntennaType := AntennaType h; Position := Position h;
     AntennaDelta := AntennaDelta h; ObsTypes := ObsTypes h;
     SignalStrengthUnit := SignalStrengthUnit h; Interval := Interval h;
     TimeOfFirstObs := TimeOfFirstObs h; TimeOfLastObs := v;
     LeapSeconds := LeapSeconds h; NSatellites := NSatellites h;
     labels := labels h; warnings := warnings h |}.

Definition set_LeapSeconds (v : Z) (h : ObsHeader) : ObsHeader :=
  {| RINEXVersion := RINEXVersion h; RINEXType := RINEXType h;
     SatSystem := SatSystem h; Pgm := Pgm h; RunBy := RunBy h;
     Date := Date h; Comments := Comments h; MarkerName := MarkerName h;
     MarkerNumber := MarkerNumber h; MarkerType := MarkerType h;
     Observer := Observer h; Agency := Agency h;
     ReceiverNumber := ReceiverNumber h; ReceiverType := ReceiverType h;
     ReceiverVersion := ReceiverVersion h; AntennaNumber := AntennaNumber h;
     AntennaType := AntennaType h; Position := Position h;
     AntennaDelta := AntennaDelta h; ObsTypes := ObsTypes h;
     SignalStrengthUnit := SignalStrengthUnit h; Interval := Interval h;
     TimeOfFirstObs := TimeOfFirstObs h; TimeOfLastObs := TimeOfLastObs h;
     LeapSeconds := v; NSatellites := NSatellites h; labels := labels h;
     warnings := warnings h |}.

Definition set_NSatellites (v : Z) (h : ObsHeader) : ObsHeader :=
  {| RINEXVersion := RINEXVersion h; RINEXType := RINEXType h;
     SatSystem := SatSystem h; Pgm := Pgm h; RunBy := RunBy h;
     Date := Date h; Comments := Comments h; MarkerName := MarkerName h;
     MarkerNumber := MarkerNumber h; MarkerType := MarkerType h;
     Observer := Observer h; Agency := Agency h;
     ReceiverNumber := ReceiverNumber h; ReceiverType := ReceiverType h;
     ReceiverVersion := ReceiverVersion h; AntennaNumber := AntennaNumber h;
     AntennaType := AntennaType h; Position := Position h;
     AntennaDelta := AntennaDelta h; ObsTypes := ObsTypes h;
     SignalStrengthUnit := SignalStrengthUnit h; Interval := Interval h;
     TimeOfFirstObs := TimeOfFirstObs h; TimeOfLastObs := TimeOfLastObs h;
     LeapSeconds := LeapSeconds h; NSatellites := v; labels := labels h;
     warnings := warnings h |}.

Definition set_labels (v : list string) (h : ObsHeader) : ObsHeader :=
  {| RINEXVersion := RINEXVersion h; RINEXType := RINEXType h;
     SatSystem := SatSystem h; Pgm := Pgm h; RunBy := RunBy h;
     Date := Date h; Comments := Comments h; MarkerName := MarkerName h;
     MarkerNumber := MarkerNumber h; MarkerType := MarkerType h;
     Observer := Observer h; Agency := Agency h;
     ReceiverNumber := ReceiverNumber h; ReceiverType := ReceiverType h;
     ReceiverVersion := ReceiverVersion h; AntennaNumber := AntennaNumber h;
     AntennaType := AntennaType h; Position := Position h;
     AntennaDelta := AntennaDelta h; ObsTypes := ObsTypes h;
     SignalStrengthUnit := SignalStrengthUnit h; Interval := Interval h;
     TimeOfFirstObs := TimeOfFirstObs h; TimeOfLastObs := TimeOfLastObs h;
     LeapSeconds := LeapSeconds h; NSatellites := NSatellites h; labels := v;
     warnings := warnings h |}.

(** [bufio.Scanner] over the input: [pending] are the lines still to be
    delivered, [rdErr] is how the underlying reader ends ([None] for a
    clean end of input), [text] is the most recent token, and [scErr]
    the error the scanner has met so far. *)
Record Scanner : Type :=
  { pending : list string; rdErr : option error;
    text : string; scErr : option error }.

Definition NewScanner (lines : list string) (e : option error) : Scanner :=
  {| pending := lines; rdErr := e; text := ""; scErr := None |}.

(** The scanner after it has delivered [l], with [rest] still to come. *)
Definition scanned (l : string) (rest : list string) (s : Scanner) : Scanner :=
  {| pending := rest; rdErr := rdErr s; text := l; scErr := scErr s |}.

(** The scanner after it has found the input at its end. *)
Definition scanEnd (s : Scanner) : Scanner :=
  {| pending := []; rdErr := rdErr s; text := ""; scErr := rdErr s |}.

(** [sc.Scan()] *)
Definition Scan (s : Scanner) : bool * Scanner :=
  match pending s with
  | l :: rest => (true, scanned l rest s)
  | [] => (false, scanEnd s)
  end.

Record ObsDecoder : Type :=
  { Header : ObsHeader; sc : Scanner; epo : option Epoch;
    syncEpo : option Epoch; lineNum : nat; err : option error }.

Definition set_sc (s : Scanner) (d : ObsDecoder) : ObsDecoder :=
  {| Header := Header d; sc := s; epo := epo d; syncEpo := syncEpo d;
     lineNum := lineNum d; err := err d |}.

Definition set_lineNum (n : nat) (d : ObsDecoder) : ObsDecoder :=
  {| Header := Header d; sc := sc d; epo := epo d; syncEpo := syncEpo d;
     lineNum := n; err := err d |}.

Definition set_epo (e : option Epoch) (d : ObsDecoder) : ObsDecoder :=
  {| Header := Header d; sc := sc d; epo := e; syncEpo := syncEpo d;
     lineNum := lineNum d; err := err d |}.

Definition set_syncEpo (e : option Epoch) (d : ObsDecoder) : ObsDecoder :=
  {| Header := Header d; sc := sc d; epo := epo d; syncEpo := e;
     lineNum := lineNum d; err := err d |}.

Definition set_err (e : option error) (d : ObsDecoder) : ObsDecoder :=
  {| Header := Header d; sc := sc d; epo := epo d; syncEpo := syncEpo d;
     lineNum := lineNum d; err := e |}.

Definition set_Header (h : ObsHeader) (d : ObsDecoder) : ObsDecoder :=
  {| Header := h; sc := sc d; epo := epo d; syncEpo := syncEpo d;
     lineNum := lineNum d; err := err d |}.

(** The zero value of [ObsHeader], with the map that [readHeader] makes. *)
Definition emptyHeader : ObsHeader :=
  {| RINEXVersion := 0; RINEXType := ""; SatSystem := None;
     Pgm := ""; RunBy := ""; Date := ""; Comments := [];
     MarkerName := ""; MarkerNumber := ""; MarkerType := "";
     Observer := ""; Agency := "";
     ReceiverNumber := ""; ReceiverType := ""; ReceiverVersion := "";
     AntennaNumber := ""; AntennaType := "";
     Position := {| X := 0; Y := 0; Z_ := 0 |};
     AntennaDelta := {| N := 0; E := 0; Up := 0 |};
     ObsTypes := ∅;
     SignalStrengthUnit := ""; Interval := 0;
     TimeOfFirstObs := 0%Z; TimeOfLastObs := 0%Z;
     LeapSeconds := 0%Z; NSatellites := 0%Z;
     labels := []; warnings := [] |}.

(** ** The library functions the decoder calls

    [strconv.ParseFloat] and [time.Parse] belong to the Go library, and
    the layout constant [epochTimeFormat] is declared in another file of
    the package.  The decoder is modelled over any implementation of
    them; [None] is a returned error. *)
Class Runtime : Type :=
  { ParseFloat : string -> nat -> option float;
    epochTimeFormat : string;
    time_Parse : string -> string -> option time_Time }.

Section Decoder.

Context {RT : Runtime}.

(** ** Reading the header *)

(** What one turn of the header loop does: go on with the next line,
    leave the loop at END OF HEADER, or return with an error. *)
Inductive hdrStep : Type :=
| HdrNext (rememberMe : string) (hdr : ObsHeader)
| HdrEnd (hdr : ObsHeader)
| HdrFail (hdr : ObsHeader) (e : error).

Definition maxLines : nat := 800.

(** The assignments of the three tokens of APPROX POSITION XYZ; a token
    that does not parse leaves its field as it is. *)
Definition storePosition (x y z : string) (c : Coord) : Coord :=
  let c := match ParseFloat x 64 with
           | Some f => {| X := f; Y := Y c; Z_ := Z_ c |} | None => c end in
  let c := match ParseFloat y 64 with
           | Some f => {| X := X c; Y := f; Z_ := Z_ c |} | None => c end in
  match ParseFloat z 64 with
  | Some f => {| X := X c; Y := Y c; Z_ := f |} | None => c end.

(** The assignments of the three tokens of ANTENNA: DELTA H/E/N. *)
Definition storeAntennaDelta (e0 e1 e2 : string) (c : CoordNEU) : CoordNEU :=
  let c := match ParseFloat e0 64 with
           | Some f => {| N := N c; E := E c; Up := f |} | None => c end in
  let c := match ParseFloat e1 64 with
           | Some f => {| N := N c; E := f; Up := Up c |} | None => c end in
  match ParseFloat e2 64 with
  | Some f => {| N := f; E := E c; Up := Up c |} | None => c end.

(** The body of the loop of [readHeader] for a line of at least 60
    bytes, read as line number [lineNum]. *)
Definition headerLine (lineNum : nat) (line : string)
    (rememberMe : string) (hdr : ObsHeader) : exec hdrStep :=
  let* val := slice_to line 60 in
  let* rest := slice_from line 60 in
  let key := TrimSpace rest in
  let hdr := set_labels (labels hdr ++ [key]) hdr in
  if String.eqb key "RINEX VERSION / TYPE" then
    let* v := slice_to val 20 in
    match ParseFloat (TrimSpace v) 32 with
    | None => Ret (HdrFail hdr ErrRinexVersion)
    | Some f64 =>
        let hdr := set_RINEXVersion f64 hdr in
        let* t := slice val 20 21 in
        let hdr := set_RINEXType (TrimSpace t) hdr in
        let* s := slice val 40 41 in
        match sysPerAbbr (TrimSpace s) with
        | Some sys => Ret (HdrNext rememberMe (set_SatSystem (Some sys) hdr))
        | None => Ret (HdrFail hdr (ErrHeaderSatSys lineNum))
        end
    end
  else if String.eqb key "PGM / RUN BY / DATE" then
    let* a := slice_to val 20 in
    let* b := slice val 20 40 in
    let* c := slice_from val 40 in
    Ret (HdrNext rememberMe
           (set_Date (TrimSpace c) (set_RunBy (TrimSpace b) (set_Pgm (TrimSpace a) hdr))))
  else if String.eqb key "COMMENT" then
    Ret (HdrNext rememberMe (set_Comments (Comments hdr ++ [TrimSpace val]) hdr))
  else if String.eqb key "MARKER NAME" then
    Ret (HdrNext rememberMe (set_MarkerName (TrimSpace val) hdr))
  else if String.eqb key "MARKER NUMBER" then
    let* a := slice_to val 20 in
    Ret (HdrNext rememberMe (set_MarkerNumber (TrimSpace a) hdr))
  else if String.eqb key "MARKER TYPE" then
    let* a := slice val 20 40 in
    Ret (HdrNext rememberMe (set_MarkerType (TrimSpace a) hdr))
  else if String.eqb key "OBSERVER / AGENCY" then
    let* a := slice_to val 20 in
    let* b := slice_from val 20 in
    Ret (HdrNext rememberMe (set_Agency (TrimSpace b) (set_Observer (TrimSpace a) hdr)))
  else if String.eqb key "REC # / TYPE / VERS" then
    let* a := slice_to val 20 in
    let* b := slice val 20 40 in
    let* c := slice_from val 40 in
    Ret (HdrNext rememberMe
           (set_ReceiverVersion (TrimSpace c)
              (set_ReceiverType (TrimSpace b) (set_ReceiverNumber (TrimSpace a) hdr))))
  else if String.eqb key "ANT # / TYPE" then
    let* a := slice_to val 20 in
    let* b := slice val 20 40 in
    Ret (HdrNext rememberMe
           (set_AntennaType (TrimSpace b) (set_AntennaNumber (TrimSpace a) hdr)))
  else if String.eqb key "APPROX POSITION XYZ" then
    match Fields val with
    | [x; y; z] =>
        Ret (HdrNext rememberMe (set_Position (storePosition x y z (Position hdr)) hdr))
    | _ => Ret (HdrFail hdr ErrApproxPosition)
    end
  else if String.eqb key "ANTENNA: DELTA H/E/N" then
    match Fields val with
    | [e0; e1; e2] =>
        Ret (HdrNext rememberMe
               (set_AntennaDelta (storeAntennaDelta e0 e1 e2 (AntennaDelta hdr)) hdr))
    | _ => Ret (HdrFail hdr ErrAntennaDeltas)
    end
  else if String.eqb key "SYS / # / OBS TYPES" then
    let* sysStr := slice_to val 1 in
    let sr := if String.eqb sysStr " " then (rememberMe, rememberMe)
              else (sysStr, sysStr) in
    let sysStr := fst sr in
    let rememberMe := snd sr in
    match sysPerAbbr sysStr with
    | None => Ret (HdrFail hdr (ErrObsTypesSatSys lineNum))
    | Some sys =>
        let* cnt := slice val 3 6 in
        let* toks := slice_from val 7 in
        if negb (String.eqb (TrimSpace cnt) "") then
          Ret (HdrNext rememberMe
                 (set_ObsTypes (<[sys := Fields toks]> (ObsTypes hdr)) hdr))
        else
          Ret (HdrNext rememberMe
                 (set_ObsTypes
                    (<[sys := default [] (ObsTypes hdr !! sys) ++ Fields toks]>
                       (ObsTypes hdr)) hdr))
    end
  else if String.eqb key "SIGNAL STRENGTH UNIT" then
    let* a := slice_to val 20 in
    Ret (HdrNext rememberMe (set_SignalStrengthUnit (TrimSpace a) hdr))
  else if String.eqb key "INTERVAL" then
    match ParseFloat (TrimSpace val) 64 with
    | Some f64 => Ret (HdrNext rememberMe (set_Interval f64 hdr))
    | None => Ret (HdrNext rememberMe hdr)
    end
  else if String.eqb key "TIME OF FIRST OBS" then
    let* a := slice_to val 43 in
    match time_Parse epochTimeFormat (TrimSpace a) with
    | None => Ret (HdrFail hdr (ErrHeaderParse key))
    | Some t => Ret (HdrNext rememberMe (set_TimeOfFirstObs t hdr))
    end
  else if String.eqb key "TIME OF LAST OBS" then
    let* a := slice_to val 43 in
    match time_Parse epochTimeFormat (TrimSpace a) with
    | None => Ret (HdrFail hdr (ErrHeaderParse key))
    | Some t => Ret (HdrNext rememberMe (set_TimeOfLastObs t hdr))
    end
  else if String.eqb key "LEAP SECONDS" then
    let* a := slice_to val 6 in
    match Atoi (TrimSpace a) with
    | None => Ret (HdrFail hdr (ErrHeaderParse key))
    | Some i => Ret (HdrNext rememberMe (set_LeapSeconds i hdr))
    end
  else if String.eqb key "# OF SATELLITES" then
    let* a := slice_to val 6 in
    match Atoi (TrimSpace a) with
    | None => Ret (HdrFail hdr (ErrHeaderParse key))
    | Some i => Ret (HdrNext rememberMe (set_NSatellites i hdr))
    end
  else if String.eqb key "END OF HEADER" then
    Ret (HdrEnd hdr)
  else
    Ret (HdrNext rememberMe hdr).

(** The loop of [readHeader] over the lines [pend] the scanner still
    holds; the result is the header, the error and the decoder as the
    loop leaves it. *)
Fixpoint readHeader_loop (pend : list string) (dec : ObsDecoder)
    (rememberMe : string) (hdr : ObsHeader)
    : exec (ObsHeader * option error * ObsDecoder) :=
  match pend with
  | [] =>
      let dec := set_sc (scanEnd (sc dec)) dec in
      Ret (hdr, scErr (sc dec), dec)
  | line :: rest =>
      let dec := set_lineNum (S (lineNum dec)) (set_sc (scanned line rest (sc dec)) dec) in
      if (maxLines <? lineNum dec)%nat then
        Ret (hdr, Some (ErrHeaderTooLong maxLines), dec)
      else if (len line <? 60)%nat then
        readHeader_loop rest dec rememberMe hdr
      else
        let* st := headerLine (lineNum dec) line rememberMe hdr in
        match st with
        | HdrNext rememberMe hdr => readHeader_loop rest dec rememberMe hdr
        | HdrEnd hdr => Ret (hdr, scErr (sc dec), dec)
        | HdrFail hdr e => Ret (hdr, Some e, dec)
        end
  end.

Definition readHeader (dec : ObsDecoder) : exec (ObsHeader * option error * ObsDecoder) :=
  readHeader_loop (pending (sc dec)) dec "" emptyHeader.

(** [NewObsDecoder(r)]: the reader [r] delivers [lines] and then ends
    with [rerr]. *)
Definition NewObsDecoder (lines : list string) (rerr : option error)
    : exec (ObsDecoder * option error) :=
  let dec := {| Header := emptyHeader; sc := NewScanner lines rerr; epo := None;
                syncEpo := None; lineNum := 0; err := None |} in
  let* r := readHeader dec in
  match r with
  | (hdr, e, dec) =>
      let dec := set_err e (set_Header hdr dec) in
      Ret (dec, err dec)
  end.

(** [dec.Err()] *)
Definition Err (dec : ObsDecoder) : option error :=
  match err dec with
  | Some EOF => None
  | e => e
  end.

(** [dec.setErr(err)]: records the first error met. *)
Definition setErr (e : error) (dec : ObsDecoder) : ObsDecoder :=
  match err dec with
  | None | Some EOF => set_err (Some e) dec
  | Some _ => dec
  end.

(** ** Reading an epoch *)

Definition newPRN (sys : System) (num : Z) : option PRN :=
  if ((num <? 1) || (60 <? num))%Z then None
  else Some {| Sys := sys; Num := num |}.

(** The loop over the observation types of one satellite line. *)
Fixpoint obsLoop (typs : list string) (line : string) (lineNum : nat)
    (col : nat) (obsPerTyp : gmap string Obs) : exec (error + gmap string Obs) :=
  match typs with
  | [] => Ret (inr obsPerTyp)
  | typ :: typs =>
      if (len line <? col + 14)%nat then Ret (inl (ErrObsRange typ lineNum))
      else
        let* f := slice line col (col + 14) in
        let obsStr := TrimSpace f in
        match (if String.eqb obsStr "" then Some 0%float else ParseFloat obsStr 64) with
        | None => Ret (inl (ErrObsValue typ lineNum))
        | Some val =>
            let col := (col + 14)%nat in
            if (len line <? col + 1)%nat then
              Ret (inr (<[typ := {| Val := val; LLI := 0; SNR := 0 |}]> obsPerTyp))
            else
              let col := S col in
              let* f := slice line (col - 1) col in
              match parseFlag f with
              | None => Ret (inl (ErrLLI typ lineNum))
              | Some lli =>
                  if (len line <? col + 1)%nat then
                    Ret (inr (<[typ := {| Val := val; LLI := int8 lli; SNR := 0 |}]> obsPerTyp))
                  else
                    let col := S col in
                    let* f := slice line (col - 1) col in
                    match parseFlag f with
                    | None => Ret (inl (ErrSNR typ lineNum))
                    | Some snr =>
                        obsLoop typs line lineNum col
                          (<[typ := {| Val := val; LLI := int8 lli; SNR := int8 snr |}]> obsPerTyp)
                    end
              end
        end
  end.

(** [dec.epo.ObsList = append(dec.epo.ObsList, so)] *)
Definition appendObs (so : SatObs) (dec : ObsDecoder) : exec ObsDecoder :=
  match epo dec with
  | None => Panic NilDeref
  | Some e =>
      Ret (set_epo (Some {| Time := Time e; Flag := Flag e; NumSat := NumSat e;
                            ObsList := ObsList e ++ [so] |}) dec)
  end.

(** The loop over the satellite lines of an epoch, with [n] turns left;
    the boolean is what [NextEpoch] returns. *)
Fixpoint satLoop (n : nat) (dec : ObsDecoder) : exec (bool * ObsDecoder) :=
  match n with
  | O => Ret (true, dec)
  | S n =>
      let dec := set_lineNum (S (lineNum dec)) (set_sc (snd (Scan (sc dec))) dec) in
      match scErr (sc dec) with
      | Some e => Ret (false, setErr (ErrSatLine (lineNum dec) e) dec)
      | None =>
          let line := text (sc dec) in
          let* c := slice_to line 1 in
          match sysPerAbbr c with
          | None => Ret (false, setErr (ErrSatSys (lineNum dec)) dec)
          | Some sys =>
              let* ns := slice line 1 3 in
              match Atoi ns with
              | None => Ret (false, setErr (ErrSatNum (lineNum dec)) dec)
              | Some snum =>
                  match newPRN sys (int8 snum) with
                  | None => Ret (false, setErr (ErrSatNum (lineNum dec)) dec)
                  | Some prn =>
                      let* r := slice_from line 3 in
                      if String.eqb (TrimSpace r) "" then satLoop n dec
                      else
                        let* o := obsLoop (default [] (ObsTypes (Header dec) !! sys))
                                    line (lineNum dec) 3 ∅ in
                        match o with
                        | inl e => Ret (false, setErr e dec)
                        | inr obsPerTyp =>
                            let* dec := appendObs {| Prn := prn; Obss := obsPerTyp |} dec in
                            satLoop n dec
                        end
                  end
              end
          end
      end
  end.

(** The loop of [NextEpoch] over the lines [pend] the scanner holds. *)
Fixpoint NextEpoch_loop (pend : list string) (dec : ObsDecoder)
    : exec (bool * ObsDecoder) :=
  match pend with
  | [] =>
      let dec := set_sc (scanEnd (sc dec)) dec in
      match scErr (sc dec) with
      | Some e => Ret (false, setErr (ErrScanner e) dec)
      | None => Ret (false, dec)
      end
  | line :: rest =>
      let dec := set_lineNum (S (lineNum dec)) (set_sc (scanned line rest (sc dec)) dec) in
      if (len line <? 1)%nat then NextEpoch_loop rest dec
      else if negb (HasPrefix line "> ") then NextEpoch_loop rest dec
      else
        let* ts := slice line 2 29 in
        match time_Parse epochTimeFormat ts with
        | None => Ret (false, setErr (ErrEpochLine (lineNum dec)) dec)
        | Some epTime =>
            let* fs := slice line 31 32 in
            match Atoi fs with
            | None => Ret (false, setErr (ErrEpochFlag (lineNum dec)) dec)
            | Some epochFlag =>
                let* ns := slice line 32 35 in
                match Atoi (TrimSpace ns) with
                | None => Ret (false, setErr (ErrNumSat (lineNum dec)) dec)
                | Some numSat =>
                    if (numSat <? 0)%Z then Panic MakesliceCap
                    else
                      let dec :=
                        set_epo (Some {| Time := epTime; Flag := int8 epochFlag;
                                         NumSat := uint8 numSat; ObsList := [] |}) dec in
                      satLoop (Z.to_nat numSat) dec
                end
            end
        end
  end.

(** [dec.NextEpoch()] *)
Definition NextEpoch (dec : ObsDecoder) : exec (bool * ObsDecoder) :=
  NextEpoch_loop (pending (sc dec)) dec.

(** [dec.Epoch()] *)
Definition Epoch_ (dec : ObsDecoder) : option Epoch := epo dec.

(** [dec.SyncEpoch()] *)
Definition SyncEpoch (dec : ObsDecoder) : SyncEpochs :=
  {| Epo1 := epo dec; Epo2 := syncEpo dec |}.

End Decoder.

(** ** Synchronising two decoders *)

Section Sync.

Context {RT : Runtime}.

(** Reading a field through an [*Epoch] that may be nil. *)
Definition deref (e : option Epoch) : exec Epoch :=
  match e with
  | Some e => Ret e
  | None => Panic NilDeref
  end.

(** How the inner loop of [sync] ends. *)
Inductive innerEnd : Type :=
| InnerFound      (* equal times: [sync] returns true *)
| InnerBreak      (* the second stream is ahead: next epoch of the first *)
| InnerDone.      (* [dec2.NextEpoch()] returned false *)

(** The inner loop of [sync]: [for dec2.NextEpoch() { ... }]. *)
Fixpoint sync_inner (fuel : nat) (dec2 : ObsDecoder) (epoF1 epoF2 : option Epoch)
    : exec (innerEnd * ObsDecoder * option Epoch) :=
  match fuel with
  | O => OutOfFuel
  | S fuel =>
      let* r := NextEpoch dec2 in
      match r with
      | (false, dec2) => Ret (InnerDone, dec2, epoF2)
      | (true, dec2) =>
          let epoF2 := Epoch_ dec2 in
          let* e2 := deref epoF2 in
          let* e1 := deref epoF1 in
          if time_Equal (Time e2) (Time e1) then Ret (InnerFound, dec2, epoF2)
          else if time_After (Time e2) (Time e1) then Ret (InnerBreak, dec2, epoF2)
          else sync_inner fuel dec2 epoF1 epoF2
      end
  end.

(** The code of [sync] after its outer loop. *)
Definition sync_end (dec dec2 : ObsDecoder) : bool * ObsDecoder * ObsDecoder :=
  match Err dec2 with
  | Some e => (false, setErr (ErrStream2 e) dec, dec2)
  | None => (false, dec, dec2)
  end.

(** What the outer loop does once [epoF1] is read and the test on a
    non-nil [epoF2] is to be made. *)
Inductive outerTest : Type :=
| TestFound | TestContinue | TestInner.

Definition sync_test (epoF1 epoF2 : option Epoch) : exec outerTest :=
  match epoF2 with
  | None => Ret TestInner
  | Some e2 =>
      let* e1 := deref epoF1 in
      if time_Equal (Time e1) (Time e2) then Ret TestFound
      else if time_After (Time e2) (Time e1) then Ret TestContinue
      else Ret TestInner
  end.

(** The outer loop of [sync]: [for dec.NextEpoch() { ... }]. *)
Fixpoint sync_loop (fuel : nat) (dec dec2 : ObsDecoder) (epoF2 : option Epoch)
    : exec (bool * ObsDecoder * ObsDecoder) :=
  match fuel with
  | O => OutOfFuel
  | S fuel =>
      let* r := NextEpoch dec in
      match r with
      | (false, dec) => Ret (sync_end dec dec2)
      | (true, dec) =>
          let epoF1 := Epoch_ dec in
          let* t := sync_test epoF1 epoF2 in
          match t with
          | TestFound => Ret (true, set_syncEpo epoF2 dec, dec2)
          | TestContinue => sync_loop fuel dec dec2 epoF2
          | TestInner =>
              let* i := sync_inner (S (length (pending (sc dec2)))) dec2 epoF1 epoF2 in
              match i with
              | (InnerFound, dec2, epoF2) => Ret (true, set_syncEpo epoF2 dec, dec2)
              | (_, dec2, epoF2) => sync_loop fuel dec dec2 epoF2
              end
          end
      end
  end.

(** [dec.sync(dec2)].  Every turn of a loop takes at least one line from
    its scanner, so the fuel given here is never used up
    (lemma [sync_terminates]). *)
Definition sync (dec dec2 : ObsDecoder) : exec (bool * ObsDecoder * ObsDecoder) :=
  sync_loop (S (length (pending (sc dec)))) dec dec2 None.

(** The loop of [Diff]: [for dec.sync(dec2) { syncEpo := dec.SyncEpoch() ... }],
    with the pairs it hands to the comparison. *)
Fixpoint Diff_loop (fuel : nat) (dec dec2 : ObsDecoder)
    : exec (list SyncEpochs * ObsDecoder * ObsDecoder) :=
  match fuel with
  | O => OutOfFuel
  | S fuel =>
      let* r := sync dec dec2 in
      match r with
      | (false, dec, dec2) => Ret ([], dec, dec2)
      | (true, dec, dec2) =>
          let syncEpo := SyncEpoch dec in
          let* k := Diff_loop fuel dec dec2 in
          match k with
          | (l, dec, dec2) => Ret (syncEpo :: l, dec, dec2)
          end
      end
  end.

(** All pairs [sync] yields for two decoders. *)
Definition syncAll (dec dec2 : ObsDecoder)
    : exec (list SyncEpochs * ObsDecoder * ObsDecoder) :=
  Diff_loop (S (length (pending (sc dec)))) dec dec2.

(** ** Statistics *)

Definition zeroStat : ObsStat :=
  {| NumEpochs := 0; Sampling := 0; StatTimeOfFirstObs := 0%Z; StatTimeOfLastObs := 0%Z |}.

Record statVars : Type :=
  { numOfEpochs : Z; intervals : list Z; epoPrev : option Epoch; stat : ObsStat }.

(** The loop of [Stat]: [for dec.NextEpoch() { ... }]. *)
Fixpoint Stat_loop (fuel : nat) (dec : ObsDecoder) (v : statVars)
    : exec (ObsDecoder * statVars) :=
  match fuel with
  | O => OutOfFuel
  | S fuel =>
      let* r := NextEpoch dec in
      match r with
      | (false, dec) => Ret (dec, v)
      | (true, dec) =>
          let numOfEpochs := (numOfEpochs v + 1)%Z in
          let epo := Epoch_ dec in
          let* e := deref epo in
          let stat :=
            if (numOfEpochs =? 1)%Z
            then {| NumEpochs := NumEpochs (stat v); Sampling := Sampling (stat v);
                    StatTimeOfFirstObs := Time e;
                    StatTimeOfLastObs := StatTimeOfLastObs (stat v) |}
            else stat v in
          let intervals :=
            match epoPrev v with
            | Some p =>
                if (length (intervals v) <=? 10)%nat
                then intervals v ++ [time_Sub (Time e) (Time p)]
                else intervals v
            | None => intervals v
            end in
          Stat_loop fuel dec
            {| numOfEpochs := numOfEpochs; intervals := intervals;
               epoPrev := epo; stat := stat |}
      end
  end.

(** [f.Stat()].  [file] is what [os.Open(f.Path)] gives: an error, or a
    file delivering [lines] and ending with [rerr]. *)
Definition Stat (file : error + (list string * option error))
    : exec (ObsStat * option error) :=
  match file with
  | inl e => Ret (zeroStat, Some e)
  | inr (lines, rerr) =>
      let* r := NewObsDecoder lines rerr in
      match r with
      | (dec, Some e) => Ret (zeroStat, Some e)
      | (dec, None) =>
          let* l := Stat_loop (S (length (pending (sc dec)))) dec
                      {| numOfEpochs := 0; intervals := []; epoPrev := None;
                         stat := zeroStat |} in
          match l with
          | (dec, v) =>
              match Err dec with
              | Some e => Ret (stat v, Some e)
              | None =>
                  let* p := deref (epoPrev v) in
                  Ret ({| NumEpochs := numOfEpochs v; Sampling := Sampling (stat v);
                          StatTimeOfFirstObs := StatTimeOfFirstObs (stat v);
                          StatTimeOfLastObs := Time p |}, None)
              end
          end
      end
  end.

End Sync.

(** ** Comparing observations *)

(** [getDecimal]: the decimal part of a float.  [big.NewFloat] holds the
    value exactly and panics on NaN; [Int] truncates towards zero and is
    nil for an infinity, which [SetInt] then dereferences; the difference
    of a finite [m * 2^e] and its integer part is [±(m mod 2^-e) * 2^e],
    exact in [big.Float] and in [float64]. *)
Definition getDecimal (f : float) : exec float :=
  match Prim2SF f with
  | S754_nan => Panic BigErrNaN
  | S754_infinity _ => Panic NilDeref
  | S754_zero s => Ret f
  | S754_finite s m e =>
      if (0 <=? e)%Z then Ret 0%float
      else
        let r := (Z.pos m mod 2 ^ (- e))%Z in
        match r with
        | Z.pos r => Ret (SF2Prim (S754_finite s r e))
        | _ => Ret 0%float
        end
  end.

(** The float [m * 2^e] for a signed mantissa [m]. *)
Definition signedFloat (m e : Z) : float :=
  match m with
  | Z0 => 0%float
  | Zpos r => SF2Prim (S754_finite false r e)
  | Zneg r => SF2Prim (S754_finite true r e)
  end.

(** [deltaPhase := 0.005], the binary64 number nearest to it. *)
Definition deltaPhase : float := 0x1.47ae147ae147bp-8%float.
Definition checkSNR : bool := false.

(** The test [math.Abs(val1-val2) > deltaPhase]. *)
Definition exceeds (val1 val2 : float) : bool :=
  (deltaPhase <? abs (val1 - val2))%float.

(** What [diffObs] prints for one key of [obs1.Obss]: the line of a
    difference, which starts with [k[:1]] and [k], or the line of a key
    that [obs2] lacks. *)
Inductive report : Type :=
| Differs (k1 k : string) (val1 : float) (o1 : Obs) (val2 : float) (o2 : Obs)
| KeyMissing (k : string).

(** The [fmt.Printf] of a difference; its argument [k[:1]] is evaluated
    first. *)
Definition printDiffers (k : string) (val1 : float) (o1 : Obs)
    (val2 : float) (o2 : Obs) : exec (list report) :=
  let* k1 := slice_to k 1 in
  Ret [Differs k1 k val1 o1 val2 o2].

(** The body of the loop of [diffObs] for the key [k] with value [o1]. *)
Definition diffObs_key (obs2 : SatObs) (k : string) (o1 : Obs) : exec (list report) :=
  match Obss obs2 !! k with
  | Some o2 =>
      let* val1 := if HasPrefix k "L" then getDecimal (Val o1) else Ret (Val o1) in
      let* val2 := if HasPrefix k "L" then getDecimal (Val o2) else Ret (Val o2) in
      if negb (LLI o1 =? LLI o2)%Z || exceeds val1 val2 then
        printDiffers k val1 o1 val2 o2
      else if checkSNR && negb (SNR o1 =? SNR o2)%Z then
        printDiffers k val1 o1 val2 o2
      else Ret []
  | None => Ret [KeyMissing k]
  end.

(** [diffObs]: the lines printed, the keys of [obs1.Obss] taken in the
    order of [map_to_list] (Go leaves the order of a map range open). *)
Definition diffObs (obs1 obs2 : SatObs) : exec (list report) :=
  foldr (fun kv acc =>
           let* l := diffObs_key obs2 (fst kv) (snd kv) in
           let* r := acc in
           Ret (l ++ r))
        (Ret []) (map_to_list (Obss obs1)).

(** ** Reading a header line by its columns *)

(** The value field [line[:60]] and the label of a header line. *)
Definition lineVal (line : string) : string := substring 0 60 line.





(** The decoder after its scanner has delivered the lines [ls], with
    [rest] still to come. *)
Fixpoint scanLines (ls rest : list string) (dec : ObsDecoder) : ObsDecoder :=
  match ls with
  | [] => dec
  | l :: ls =>
      scanLines ls rest
        (set_lineNum (S (lineNum dec)) (set_sc (scanned l (ls ++ rest) (sc dec)) dec))
  end.


(** ** The lines of an epoch *)

(** A satellite line that is blank from column 3 on. *)
Definition blankAfter3 (line : string) : bool :=
  String.eqb (TrimSpace (substring 3 (len line - 3) line)) "".

(** The satellite count an epoch line declares in columns [32:35). *)
Definition declaredNumSat (line : string) : option Z :=
  match slice line 32 35 with
  | Ret ns => Atoi (TrimSpace ns)
  | _ => None
  end.

(** A line the loop of [NextEpoch] passes over. *)
Definition notEpochLine (line : string) : Prop :=
  len line = 0 \/ HasPrefix line "> " = false.

(** How a call of [NextEpoch] treats the error field: it leaves it as it
    is, or it returns false and fills a field that held no error. *)
Definition errKept (dec dec' : ObsDecoder) (b : bool) : Prop :=
  err dec' = err dec \/
  (b = false /\ (err dec = None \/ err dec = Some EOF) /\ exists e, err dec' = Some e).

(** ** Streams of epochs *)

(** The decoder yields the epochs [es], one for each call of
    [NextEpoch], and then reports the end of the input with no error
    recorded. *)
Inductive Yields {RT : Runtime} : ObsDecoder -> list Epoch -> Prop :=
| Yields_end (dec dec' : ObsDecoder) :
    NextEpoch dec = Ret (false, dec') -> err dec' = None -> Yields dec []
| Yields_next (dec dec' : ObsDecoder) (e : Epoch) (es : list Epoch) :
    NextEpoch dec = Ret (true, dec') -> epo dec' = Some e -> Yields dec' es ->
    Yields dec (e :: es).


(** [NextEpoch] run on a decoder whose [syncEpo] field holds [x]. *)
Definition withSync (x : option Epoch) (r : exec (bool * ObsDecoder))
    : exec (bool * ObsDecoder) :=
  let* p := r in Ret (fst p, set_syncEpo x (snd p)).


(** Two epochs of equal time. *)
Definition sameTime (e1 e2 : Epoch) : bool := time_Equal (Time e2) (Time e1).


(** The pairs of equal time of two lists of epochs: each epoch of the
    first list with the epoch of the second list that has its time. *)
Definition joinEpochs (es1 es2 : list Epoch) : list (Epoch * Epoch) :=
  flat_map (fun e1 => match List.find (sameTime e1) es2 with
                      | Some e2 => [(e1, e2)]
                      | None => []
                      end) es1.


(** Strictly ascending times. *)
Definition ascending (es : list Epoch) : Prop := StronglySorted Z.lt (map Time es).


(** The epoch [sync] holds in [epoF2], as a list. *)
Definition olist (f : option Epoch) : list Epoch :=
  match f with Some e => [e] | None => [] end.


(** The pair [dec.SyncEpoch()] gives after a successful [sync]. *)
Definition syncPair (p : Epoch * Epoch) : SyncEpochs :=
  {| Epo1 := Some (fst p); Epo2 := Some (snd p) |}.


(** [epoF2] is behind the epoch [e1] of the first stream. *)
Definition staleFor (f : option Epoch) (e1 : Epoch) : Prop :=
  forall x, f = Some x -> (Time x < Time e1)%Z.


(** What a call of [sync] gives when the pairs still to come are [J]:
    false when there is none, otherwise the first pair, with decoders
    that yield the rest. *)
Definition sync_post {RT : Runtime} (r : exec (bool * ObsDecoder * ObsDecoder))
    (n : nat) (J : list (Epoch * Epoch)) : Prop :=
  match J with
  | [] => exists d d2, r = Ret (false, d, d2) /\ err d = None /\ err d2 = None
  | (a, b) :: rest =>
      exists d d2 es1' es2',
        r = Ret (true, d, d2) /\ epo d = Some a /\ syncEpo d = Some b /\
        Yields d es1' /\ Yields d2 es2' /\ ascending es1' /\ ascending es2' /\
        (length es1' < n)%nat /\ joinEpochs es1' es2' = rest
  end.


(** ** What the readers leave behind *)



(** What [NextEpoch] leaves in a record of [ObsList] under the header
    [hdr]: a satellite number from 1 to 60, observations for the first
    types the header declares for the system of the record, and
    indicators that are digits. *)
Definition wellRead (hdr : ObsHeader) (so : SatObs) : Prop :=
  (1 <= Num (Prn so) <= 60)%Z /\
  (exists j : nat,
     (j <= length (default [] (ObsTypes hdr !! Sys (Prn so))))%nat /\
     forall k : string,
       is_Some (Obss so !! k) <->
       In k (firstn j (default [] (ObsTypes hdr !! Sys (Prn so))))) /\
  (forall (k : string) (o : Obs),
     Obss so !! k = Some o -> (0 <= LLI o <= 9)%Z /\ (0 <= SNR o <= 9)%Z).

(** ** Comparing epochs and files *)

(** A float that is neither NaN nor an infinity. *)
Definition finiteVal (f : float) : bool :=
  match Prim2SF f with
  | S754_nan | S754_infinity _ => false
  | _ => true
  end.

(** [Options]: the satellite systems to use, one letter each (GRE...). *)
Record Options : Type := { SatSys : string }.

(** [obs.Prn == prn] compares the two fields. *)
#[global] Instance PRN_eq_dec : EqDecision PRN.
Proof. solve_decision. Defined.

(** [getObsByPRN]; [None] is the error it returns. *)
Fixpoint getObsByPRN (obslist : list SatObs) (prn : PRN) : option SatObs :=
  match obslist with
  | [] => None
  | obs :: obslist =>
      if bool_decide (Prn obs = prn) then Some obs else getObsByPRN obslist prn
  end.

(** What [diffEpo] prints: the error of [getObsByPRN], or a line of
    [diffObs] for the satellite [prn] at [epoTime]. *)
Inductive diffLine : Type :=
| NoObservations (prn : PRN)
| ObsLine (epoTime : time_Time) (prn : PRN) (r : report).

(** What [Diff] returns: the error of [os.Open] wrapped, the error of
    [NewObsDecoder] as it is, or the error of the first decoder wrapped. *)
Inductive diffError : Type :=
| DiffOpen (cause : error)
| DiffHeader (e : error)
| DiffRead (cause : error).

Section Diff.

Context {RT : Runtime}.

(** [gnss.System.Abbr], declared outside this file. *)
Variable Abbr : System -> string.

(** The inner loop of [diffEpo]: whether [Abbr] of the system is
    [string(useSys)] for a character [useSys] of [opts.SatSys].  The
    characters are ASCII letters, each a string of one byte. *)
Definition printSys (opts : Options) (sys : System) : bool :=
  existsb (fun useSys => String.eqb (Abbr sys) (String useSys EmptyString))
    (list_ascii_of_string (SatSys opts)).

(** The loop of [diffEpo] over [epo1.ObsList]; [epo2] is read when a
    satellite of a selected system is met. *)
Fixpoint diffEpo_loop (obslist : list SatObs) (epo2 : option Epoch)
    (epoTime : time_Time) (opts : Options) : exec (list diffLine) :=
  match obslist with
  | [] => Ret []
  | obs :: obslist =>
      if negb (printSys opts (Sys (Prn obs))) then
        diffEpo_loop obslist epo2 epoTime opts
      else
        let* e2 := deref epo2 in
        match getObsByPRN (ObsList e2) (Prn obs) with
        | None =>
            let* k := diffEpo_loop obslist epo2 epoTime opts in
            Ret (NoObservations (Prn obs) :: k)
        | Some obs2 =>
            let* l := diffObs obs obs2 in
            let* k := diffEpo_loop obslist epo2 epoTime opts in
            Ret (map (ObsLine epoTime (Prn obs)) l ++ k)
        end
  end.

(** [diffEpo]: the lines it prints (the string it returns is always
    empty). *)
Definition diffEpo (epochs : SyncEpochs) (opts : Options) : exec (list diffLine) :=
  let* e1 := deref (Epo1 epochs) in
  diffEpo_loop (ObsList e1) (Epo2 epochs) (Time e1) opts.

(** The loop of [Diff], [for dec.sync(dec2) { ... diffEpo(syncEpo, f.Opts) ... }],
    with the lines printed. *)
Fixpoint Diff_lines (fuel : nat) (opts : Options) (dec dec2 : ObsDecoder)
    : exec (list diffLine * ObsDecoder * ObsDecoder) :=
  match fuel with
  | O => OutOfFuel
  | S fuel =>
      let* r := sync dec dec2 in
      match r with
      | (false, dec, dec2) => Ret ([], dec, dec2)
      | (true, dec, dec2) =>
          let syncEpo := SyncEpoch dec in
          let* l := diffEpo syncEpo opts in
          let* k := Diff_lines fuel opts dec dec2 in
          match k with
          | (ls, dec, dec2) => Ret (l ++ ls, dec, dec2)
          end
      end
  end.

(** [f.Diff(obsFil2)], with [opts] for [f.Opts]; [file1] and [file2] are
    what [os.Open] gives for the two paths.  The result is the lines
    printed and the error returned. *)
Definition Diff (opts : Options) (file1 file2 : error + (list string * option error))
    : exec (list diffLine * option diffError) :=
  match file1 with
  | inl e => Ret ([], Some (DiffOpen e))
  | inr (lines, rerr) =>
      let* r := NewObsDecoder lines rerr in
      match r with
      | (dec, Some e) => Ret ([], Some (DiffHeader e))
      | (dec, None) =>
          match file2 with
          | inl e => Ret ([], Some (DiffOpen e))
          | inr (lines2, rerr2) =>
              let* r2 := NewObsDecoder lines2 rerr2 in
              match r2 with
              | (dec2, Some e) => Ret ([], Some (DiffHeader e))
              | (dec2, None) =>
                  let* k := Diff_lines (S (length (pending (sc dec)))) opts dec dec2 in
                  match k with
                  | (ls, dec, dec2) =>
                      match Err dec with
                      | Some e => Ret (ls, Some (DiffRead e))
                      | None => Ret (ls, None)
                      end
                  end
              end
          end
      end
  end.

End Diff.



(** ** A runtime and inputs to run the model on

    The theorems hold for every [Runtime].  To run the decoder on
    concrete lines a runtime is needed; this one reads timestamps as the
    specification describes them and plain decimal literals. *)
Module Sample.

Definition isLeap (y : Z) : bool :=
  ((y mod 4 =? 0) && (negb (y mod 100 =? 0) || (y mod 400 =? 0)))%Z.

Definition daysIn (y m : Z) : Z :=
  (if m =? 2 then (if isLeap y then 29 else 28)
   else if (m =? 4) || (m =? 6) || (m =? 9) || (m =? 11) then 30 else 31)%Z.

(** Days from 0001-01-01 to the given civil date. *)
Definition daysFromCivil (y m d : Z) : Z :=
  (let y' := if m <=? 2 then y - 1 else y in
   let era := y' / 400 in
   let yoe := y' - era * 400 in
   let mp := (m + 9) mod 12 in
   let doy := (153 * mp + 2) / 5 + d - 1 in
   let doe := yoe * 365 + yoe / 4 - yoe / 100 + doy in
   era * 146097 + doe - 306)%Z.

Definition splitDot (s : string) : string * string :=
  match index 0 "." s with
  | Some i => (substring 0 i s, substring (S i) (len s - S i) s)
  | None => (s, "")
  end.

Definition seconds (s : string) : option Z :=
  let p := splitDot s in
  match digits (fst p) 0, digits (snd p) 0 with
  | Some a, Some b =>
      if ((0 <? len (fst p)) && (len (snd p) =? 7))%nat && (a <? 60)%Z
      then Some (a * 10000000 + b)%Z else None
  | _, _ => None
  end.

(** Modelled from the spec: [epochTimeFormat] is declared in another
    file of the package.  The specification describes the timestamp as
    year, month, day, hour, minute and seconds with a fraction, in fixed
    columns separated by blanks, as in [2018 11 06 19 00  0.0000000].
    The value is read by its blank-separated fields; the result is the
    instant in units of 100 ns counted from 0001-01-01T00:00:00. *)
Definition sampleTimeParse (layout value : string) : option time_Time :=
  match Fields value with
  | [y; mo; d; h; mi; s] =>
      match Atoi y, Atoi mo, Atoi d, Atoi h, Atoi mi, seconds s with
      | Some y, Some mo, Some d, Some h, Some mi, Some s =>
          if ((1 <=? y) && (y <=? 9999) && (1 <=? mo) && (mo <=? 12) &&
              (1 <=? d) && (d <=? daysIn y mo) && (0 <=? h) && (h <? 24) &&
              (0 <=? mi) && (mi <? 60))%Z
          then Some ((((daysFromCivil y mo d * 24 + h) * 60 + mi) * 60) * 10000000 + s)%Z
          else None
      | _, _, _, _, _, _ => None
      end
  | _ => None
  end.

Definition floatOfZ (z : Z) : float :=
  PrimFloat.of_uint63 (Uint63.of_Z z).

(** A plain decimal literal of at most 15 digits, read as binary64: the
    quotient of the two exactly represented integers is the correctly
    rounded value.  Other literals are refused. *)
Definition sampleParseFloat (s : string) (bitSize : nat) : option float :=
  let neg := HasPrefix s "-" in
  let body := if neg || HasPrefix s "+" then substring 1 (len s - 1) s else s in
  let p := splitDot body in
  match digits (fst p) 0, digits (snd p) 0 with
  | Some a, Some b =>
      if ((0 <? len (fst p) + len (snd p)) && (len (fst p) + len (snd p) <=? 15)
          && (bitSize =? 64))%nat
      then
        let m := floatOfZ (a * 10 ^ Z.of_nat (len (snd p)) + b)%Z in
        let q := (m / floatOfZ (10 ^ Z.of_nat (len (snd p))))%float in
        Some (if neg then (- q)%float else q)
      else None
  | _, _ => None
  end.

(** Modelled from the spec: the layout is the one of the epoch line the
    specification shows. *)
#[global] Instance runtime : Runtime :=
  {| ParseFloat := sampleParseFloat;
     epochTimeFormat := "2006  1  2 15  4  5.0000000";
     time_Parse := sampleTimeParse |}.

(** The decoder before its header is read. *)
Definition newDecoder (lines : list string) : ObsDecoder :=
  {| Header := emptyHeader; sc := NewScanner lines None; epo := None;
     syncEpo := None; lineNum := 0; err := None |}.



Definition endOfHeader : string :=
  "                                                            END OF HEADER".

(** A header that declares two observation types for GPS. *)
Definition header2 : list string :=
  ["G    2 C1C L1C                                              SYS / # / OBS TYPES";
   endOfHeader].

(** An epoch of two satellites; the line of the second is blank after
    its number. *)
Definition epochBlank : list string :=
  ["> 2018 11 06 19 00  0.0000000  0  2";
   "G01  20832393.682   109474991.854 8";
   "G02"].

(** An epoch line with a malformed flag, then a well-formed epoch. *)
Definition epochBadFlag : list string :=
  ["> 2018 11 06 19 00  0.0000000  x  0";
   "> 2018 11 06 19 00 30.0000000  0  0"].

(** An epoch line cut short, and an epoch that declares two satellites
    and is followed by one line, or by an empty line. *)
Definition epochShort : list string := ["> 2018 11 06"].
Definition epochTruncated : list string :=
  ["> 2018 11 06 19 00  0.0000000  0  2";
   "G01  20832393.682   109474991.854 8"].
Definition epochEmptyLine : list string :=
  ["> 2018 11 06 19 00  0.0000000  0  1"; ""].

Definition markerLine : string :=
  "WTZR                                                        MARKER NAME".


(** Two streams of epochs without satellites, at 19:00:00, 19:00:30,
    19:01:00 and at 19:00:30, 19:00:45, 19:01:00. *)
Definition stream1 : list string :=
  [endOfHeader;
   "> 2018 11 06 19 00  0.0000000  0  0";
   "> 2018 11 06 19 00 30.0000000  0  0";
   "> 2018 11 06 19 01  0.0000000  0  0"].
Definition stream2 : list string :=
  [endOfHeader;
   "> 2018 11 06 19 00 30.0000000  0  0";
   "> 2018 11 06 19 00 45.0000000  0  0";
   "> 2018 11 06 19 01  0.0000000  0  0"].
Definition epochAt (t : time_Time) : Epoch :=
  {| Time := t; Flag := 0; NumSat := 0; ObsList := [] |}.
Definition epochs1 : list Epoch :=
  [epochAt 636771276000000000%Z; epochAt 636771276300000000%Z;
   epochAt 636771276600000000%Z].
Definition epochs2 : list Epoch :=
  [epochAt 636771276300000000%Z; epochAt 636771276450000000%Z;
   epochAt 636771276600000000%Z].

(** The decoder [NewObsDecoder] returns for the given lines. *)
Definition decoderOf (lines : list string) : exec ObsDecoder :=
  let* r := NewObsDecoder lines None in
  Ret (fst r).

(** Observations to compare: phase values and a code value. *)
Definition obsOf (v : float) (lli : Z) : Obs := {| Val := v; LLI := lli; SNR := 0 |}.

(** The observation a value field holds. *)
Definition obsRead (field : string) : Obs :=
  obsOf (default 0%float (sampleParseFloat field 64)) 0.
Definition satOf (l : list (string * Obs)) : SatObs :=
  {| Prn := {| Sys := SysGPS; Num := 1 |}; Obss := list_to_map l |}.

End Sample.

(** ** Inputs for the comparison *)

Module Inputs.

(** Modelled from the spec: [Abbr] is declared with [gnss.System]; the
    specification gives the one-character codes of [sysPerAbbr]. *)
Definition Abbr (sys : System) : string :=
  match sys with
  | SysGPS => "G" | SysGLO => "R" | SysGAL => "E" | SysQZSS => "J"
  | SysBDS => "C" | SysIRNSS => "I" | SysSBAS => "S" | SysMIXED => "M"
  end.

(** A file of one epoch: GPS satellite 1 with a code and a phase value,
    satellite 2 without observations. *)
Definition file1 : list string := Sample.header2 ++ Sample.epochBlank.

(** The same for satellites 1 and 3, with another signal strength for
    the phase of satellite 1. *)
Definition file2 : list string :=
  Sample.header2 ++
  ["> 2018 11 06 19 00  0.0000000  0  2";
   "G01  20832393.682   109474991.854 6";
   "G03  20832393.682   109474991.854 8"].

(** A stream whose only epoch line has a malformed flag. *)
Definition badStream : list string :=
  [Sample.endOfHeader; "> 2018 11 06 19 00  0.0000000  x  0"].

(** Lines that are no epoch lines, and an epoch without satellites. *)
Definition noise : list string := [""; "no epoch line"].
Definition epochLine : string := "> 2018 11 06 19 00  0.0000000  0  0".


Definition useGPS : Options := {| SatSys := "G" |}.

(** Records to compare: the second has another signal strength and one
    key more, the third lacks the phase. *)
Definition sat1 : SatObs :=
  Sample.satOf [("C1C", Sample.obsOf 1.5 0); ("L1C", Sample.obsOf 2.25 1)].
Definition sat2 : SatObs :=
  Sample.satOf [("C1C", {| Val := 1.5; LLI := 0; SNR := 7 |});
                ("L1C", {| Val := 2.25; LLI := 1; SNR := 3 |});
                ("D1C", Sample.obsOf 0.5 0)].
Definition sat3 : SatObs := Sample.satOf [("C1C", Sample.obsOf 1.5 0)].

End Inputs.

(** * Properties *)

(** ** Strings and slices *)

Example Fields_ex : Fields "  0.0083   0.0000  0.0000  " = ["0.0083"; "0.0000"; "0.0000"].
Proof. reflexivity. Qed.

Example TrimSpace_ex : TrimSpace "   31 " = "31" /\ TrimSpace "   " = "".
Proof. split; reflexivity. Qed.

Example Atoi_ex :
  Atoi "31" = Some 31%Z /\ Atoi "-7" = Some (-7)%Z /\ Atoi "" = None /\
  Atoi "+" = None /\ Atoi "3 " = None.
Proof. repeat split; reflexivity. Qed.

(** A substring that fits in its string has the length asked for. *)
Lemma len_substring (s : string) (n m : nat) :
  (n + m <= len s)%nat -> len (substring n m s) = m.
Proof.
  unfold len. revert n m.
  induction s as [|c s IH]; intros n m H; cbn [String.length] in H.
  - assert (n = 0 /\ m = 0)%nat as [-> ->] by lia. reflexivity.
  - destruct n as [|n]; cbn [substring].
    + destruct m as [|m]; [reflexivity|].
      cbn [String.length]. f_equal. apply IH. lia.
    + apply IH. lia.
Qed.

(** A slice within the bounds of its string. *)
Lemma slice_ok (s : string) (lo hi : nat) :
  (lo <= hi)%nat -> (hi <= len s)%nat ->
  slice s lo hi = Ret (substring lo (hi - lo) s).
Proof.
  intros H1 H2. unfold slice.
  destruct (Nat.leb_spec lo hi); [|lia].
  destruct (Nat.leb_spec hi (len s)); [|lia]. reflexivity.
Qed.

(** A slice that ends beyond its string aborts. *)
Lemma slice_panics (s : string) (lo hi : nat) :
  (len s < hi)%nat -> slice s lo hi = Panic SliceBounds.
Proof.
  intros H. unfold slice.
  destruct (Nat.leb_spec hi (len s)); [lia|].
  by rewrite andb_false_r.
Qed.

Lemma len_lineVal (line : string) :
  (60 <= len line)%nat -> len (lineVal line) = 60.
Proof. intros H. apply len_substring. lia. Qed.

(** A slice that returns was within bounds. *)
Lemma slice_inv (s : string) (lo hi : nat) (r : string) :
  slice s lo hi = Ret r ->
  (lo <= hi)%nat /\ (hi <= len s)%nat /\ r = substring lo (hi - lo) s.
Proof.
  unfold slice. destruct (Nat.leb_spec lo hi), (Nat.leb_spec hi (len s));
    cbn; intros Hr; inversion Hr; auto.
Qed.

(** A sequence that returns: both parts returned. *)
Lemma bind_Ret {A B} (m : exec A) (k : A -> exec B) (b : B) :
  bind m k = Ret b -> exists a, m = Ret a /\ k a = Ret b.
Proof. destruct m; cbn; intros H; try discriminate. eauto. Qed.

Ltac inv_bind H :=
  let a := fresh "a" in
  let E := fresh "E" in
  apply bind_Ret in H; destruct H as (a & E & H).

(** ** The header loop *)

Section HeaderFacts.

Context {RT : Runtime}.

(** The first two steps of [headerLine] on a line of 60 bytes or more. *)
Lemma headerLine_split (lineNum : nat) (line rememberMe : string) (hdr : ObsHeader) :
  (60 <= len line)%nat ->
  slice_to line 60 = Ret (lineVal line) /\
  slice_from line 60 = Ret (substring 60 (len line - 60) line).
Proof.
  intros H. unfold slice_to, slice_from, lineVal.
  rewrite !slice_ok by lia. by rewrite Nat.sub_0_r.
Qed.









End HeaderFacts.




(** ** Reading epochs *)

Section EpochFacts.

Context {RT : Runtime}.

(** [setErr] leaves a recorded error, or fills an empty field. *)
Lemma err_setErr (e : error) (dec : ObsDecoder) :
  err (setErr e dec) = err dec \/
  ((err dec = None \/ err dec = Some EOF) /\ err (setErr e dec) = Some e).
Proof.
  unfold setErr. destruct (err dec) as [[]|] eqn:E; cbn; rewrite ?E; auto.
Qed.

Lemma errKept_setErr (e : error) (d dec : ObsDecoder) :
  err d = err dec -> errKept dec (setErr e d) false.
Proof.
  intros H. unfold errKept. rewrite <- H.
  destruct (err_setErr e d) as [|[? ?]]; eauto 6.
Qed.

Lemma errKept_eq (d dec dec' : ObsDecoder) (b : bool) :
  err d = err dec -> errKept d dec' b -> errKept dec dec' b.
Proof. unfold errKept. by intros ->. Qed.

(** Appending a record does not touch the error field. *)
Lemma appendObs_err (so : SatObs) (d d' : ObsDecoder) :
  appendObs so d = Ret d' -> err d' = err d.
Proof.
  unfold appendObs. destruct (epo d); intros H; inversion H. reflexivity.
Qed.

(** The satellite loop, when it ends well: it has taken [n] lines and
    appended one record for each line that is not blank after column 3. *)
Lemma satLoop_true (n : nat) (dec dec' : ObsDecoder) (e : Epoch) :
  satLoop n dec = Ret (true, dec') ->
  epo dec = Some e ->
  exists (sats : list string) (e' : Epoch),
    pending (sc dec) = sats ++ pending (sc dec') /\
    length sats = n /\
    epo dec' = Some e' /\
    Time e' = Time e /\ Flag e' = Flag e /\ NumSat e' = NumSat e /\
    length (ObsList e') =
      (length (ObsList e) + length (List.filter (fun l => negb (blankAfter3 l)) sats))%nat.
Proof.
  revert dec e. induction n as [|n IH]; intros dec e H He.
  - cbn in H. inversion H; subst. exists [], e. cbn. repeat split; auto; lia.
  - cbn [satLoop] in H.
    destruct (pending (sc dec)) as [|l rest] eqn:Hp.
    + unfold Scan in H. rewrite Hp in H. cbn in H.
      destruct (rdErr (sc dec)); cbn in H; discriminate.
    + unfold Scan in H. rewrite Hp in H.
      cbn [snd sc set_sc set_lineNum scanned scErr text] in H.
      destruct (scErr (sc dec)) eqn:Hse; [discriminate|].
      apply bind_Ret in H as (c & Ec & H).
      destruct (sysPerAbbr c) as [sys|]; [|discriminate].
      apply bind_Ret in H as (ns & Ens & H).
      destruct (Atoi ns) as [snum|]; [|discriminate].
      destruct (newPRN sys (int8 snum)) as [prn|]; [|discriminate].
      apply bind_Ret in H as (r & Er & H).
      apply slice_inv in Er as (_ & _ & ->).
      fold (blankAfter3 l) in H.
      destruct (blankAfter3 l) eqn:Hb.
      * apply IH with (e := e) in H; [|exact He].
        destruct H as (sats & e' & H1 & H2 & H3 & H4 & H5 & H6 & H7).
        cbn in H1. exists (l :: sats), e'. cbn [List.filter]. rewrite Hb. cbn.
        repeat split; auto. by rewrite H1.
      * apply bind_Ret in H as (o & Eo & H).
        destruct o as [er|obsPerTyp]; [discriminate|].
        apply bind_Ret in H as (d1 & Ed & H).
        unfold appendObs in Ed. cbn [epo set_lineNum set_sc] in Ed.
        rewrite He in Ed. inversion Ed; subst d1; clear Ed.
        eapply IH in H; [|reflexivity].
        destruct H as (sats & e' & H1 & H2 & H3 & H4 & H5 & H6 & H7).
        cbn in H1. exists (l :: sats), e'. cbn [List.filter]. rewrite Hb. cbn.
        cbn in H4, H5, H6, H7. rewrite length_app in H7. cbn in H7.
        repeat split; auto; try lia. by rewrite H1.
Qed.

(** A successful [NextEpoch]: the lines passed over, the epoch line, its
    satellite lines, and what the epoch holds. *)
Lemma NextEpoch_loop_true (pend : list string) (dec dec' : ObsDecoder) :
  NextEpoch_loop pend dec = Ret (true, dec') ->
  exists (pre : list string) (line : string) (sats : list string) (n : Z) (e : Epoch),
    pend = pre ++ line :: sats ++ pending (sc dec') /\
    Forall notEpochLine pre /\
    HasPrefix line "> " = true /\
    declaredNumSat line = Some n /\ (0 <= n)%Z /\
    epo dec' = Some e /\
    NumSat e = uint8 n /\
    length sats = Z.to_nat n /\
    length (ObsList e) = length (List.filter (fun l => negb (blankAfter3 l)) sats).
Proof.
  revert dec. induction pend as [|line rest IH]; intros dec H; cbn [NextEpoch_loop] in H.
  - destruct (scErr _); discriminate.
  - destruct (Nat.ltb_spec (len line) 1) as [Hl|Hl].
    { apply IH in H as (pre & l & sats & n & e & -> & Hpre & Hrest).
      exists (line :: pre), l, sats, n, e. split; [reflexivity|].
      split; [|exact Hrest]. constructor; [left; lia|done]. }
    destruct (HasPrefix line "> ") eqn:Hpx; cbn [negb] in H.
    2:{ apply IH in H as (pre & l & sats & n & e & -> & Hpre & Hrest).
      exists (line :: pre), l, sats, n, e. split; [reflexivity|].
      split; [|exact Hrest]. constructor; [by right|done]. }
    apply bind_Ret in H as (ts & Ets & H).
    destruct (time_Parse _ _) as [epTime|]; [|discriminate].
    apply bind_Ret in H as (fs & Efs & H).
    destruct (Atoi fs) as [epochFlag|]; [|discriminate].
    apply bind_Ret in H as (ns & Ens & H).
    destruct (Atoi (TrimSpace ns)) as [numSat|] eqn:Hn; [|discriminate].
    destruct (Z.ltb_spec numSat 0); [discriminate|].
    eapply satLoop_true in H; [|reflexivity].
    destruct H as (sats & e' & H1 & H2 & H3 & H4 & H5 & H6 & H7).
    cbn in H1, H4, H5, H6, H7.
    exists [], line, sats, numSat, e'. cbn [app]. rewrite H1.
    unfold declaredNumSat. rewrite Ens.
    repeat split; auto.
Qed.

(** The satellite loop keeps a recorded error. *)
Lemma satLoop_err (n : nat) (dec dec' : ObsDecoder) (b : bool) :
  satLoop n dec = Ret (b, dec') -> errKept dec dec' b.
Proof.
  revert dec. induction n as [|n IH]; intros dec H; cbn [satLoop] in H.
  - inversion H; subst. by left.
  - repeat first
      [ discriminate
      | match type of H with
        | Ret _ = Ret _ => inversion H; subst; clear H; by apply errKept_setErr
        | satLoop _ _ = _ =>
            apply IH in H; refine (errKept_eq _ _ _ _ _ H);
            first [ reflexivity
                  | erewrite appendObs_err by eassumption; reflexivity ]
        | bind _ _ = _ => inv_bind H
        | match ?x with _ => _ end = _ => destruct x eqn:?
        end ].
Qed.

(** The loop of [NextEpoch] keeps a recorded error. *)
Lemma NextEpoch_loop_err (pend : list string) (dec dec' : ObsDecoder) (b : bool) :
  NextEpoch_loop pend dec = Ret (b, dec') -> errKept dec dec' b.
Proof.
  revert dec. induction pend as [|line rest IH]; intros dec H; cbn [NextEpoch_loop] in H.
  - destruct (scErr _); inversion H; subst; clear H.
    + by apply errKept_setErr.
    + by left.
  - repeat first
      [ discriminate
      | match type of H with
        | Ret _ = Ret _ => inversion H; subst; clear H; by apply errKept_setErr
        | NextEpoch_loop _ _ = _ => apply IH in H; exact H
        | satLoop _ _ = _ => apply satLoop_err in H; exact H
        | bind _ _ = _ => inv_bind H
        | match ?x with _ => _ end = _ => destruct x eqn:?
        end ].
Qed.


(** C3, as the code has it.  A call of [NextEpoch] never overwrites an
    error already recorded, and a call that records one returns false. *)
Theorem NextEpoch_error_sticky (dec dec' : ObsDecoder) (b : bool) :
  NextEpoch dec = Ret (b, dec') ->
  (forall e, err dec = Some e -> e <> EOF ->
     err dec' = Some e /\ forall e', err (setErr e' dec') = Some e) /\
  (err dec' <> err dec -> b = false).
Proof.
  intros H. apply NextEpoch_loop_err in H. split.
  - intros e He Hne.
    assert (err dec' = Some e) as He'.
    { destruct H as [->|(_ & [Hn|Hn] & _)]; [done|congruence|congruence]. }
    split; [done|]. intros e'. unfold setErr. rewrite He'.
    destruct e; try done.
  - intros Hd. destruct H as [?|(? & _)]; [contradiction|done].
Qed.

End EpochFacts.



(** C3, counterexample.  The first call meets a malformed epoch flag,
    records the error and returns false; the next call returns true with
    a further epoch. *)
Lemma NextEpoch_after_error_counterexample :
  exists (dec dec1 dec2 : ObsDecoder) (e : error),
    Sample.decoderOf (Sample.endOfHeader :: Sample.epochBadFlag) = Ret dec /\
    NextEpoch dec = Ret (false, dec1) /\
    err dec1 = Some e /\
    NextEpoch dec1 = Ret (true, dec2).
Proof.
  eexists _, _, _, _.
  split; [vm_compute; reflexivity|].
  split; [vm_compute; reflexivity|].
  split; [reflexivity|].
  vm_compute. reflexivity.
Defined.

Lemma NextEpoch_error_sticky_witness :
  exists (dec dec1 dec2 : ObsDecoder),
    Sample.decoderOf (Sample.endOfHeader :: Sample.epochBadFlag) = Ret dec /\
    NextEpoch dec = Ret (false, dec1) /\
    NextEpoch dec1 = Ret (true, dec2) /\
    err dec1 = Some (ErrEpochFlag 2) /\
    err dec2 = Some (ErrEpochFlag 2).
Proof.
  let d := eval vm_compute in (Sample.decoderOf (Sample.endOfHeader :: Sample.epochBadFlag)) in
  lazymatch d with
  | Ret ?dec =>
      let r1 := eval vm_compute in (NextEpoch dec) in
      lazymatch r1 with
      | Ret (_, ?dec1) =>
          let r2 := eval vm_compute in (NextEpoch dec1) in
          lazymatch r2 with
          | Ret (_, ?dec2) =>
              exists dec, dec1, dec2;
              split; [vm_compute; reflexivity|];
              split; [vm_compute; reflexivity|];
              assert (H : NextEpoch dec1 = Ret (true, dec2)) by (vm_compute; reflexivity);
              split; [exact H|];
              split; [reflexivity|];
              exact (proj1 (proj1 (NextEpoch_error_sticky dec1 dec2 true H)
                              (ErrEpochFlag 2) eq_refl ltac:(discriminate)))
          end
      end
  end.
Defined.

(** ** Missing and overlong headers *)

Section HeaderEnd.

Context {RT : Runtime}.


Lemma lineNum_scanLines (ls rest : list string) (dec : ObsDecoder) :
  lineNum (scanLines ls rest dec) = (lineNum dec + length ls)%nat.
Proof.
  revert dec. induction ls as [|l ls IH]; intros dec; cbn; [lia|].
  rewrite IH. cbn. lia.
Qed.

Lemma epo_scanLines (ls rest : list string) (dec : ObsDecoder) :
  epo (scanLines ls rest dec) = epo dec.
Proof.
  revert dec. induction ls as [|l ls IH]; intros dec; cbn; [done|].
  by rewrite IH.
Qed.


(** No error the header loop builds is [ErrNoHeader]. *)
Lemma headerLine_fail (ln : nat) (line r : string) (hdr hdr' : ObsHeader) (e : error) :
  headerLine ln line r hdr = Ret (HdrFail hdr' e) -> e <> ErrNoHeader.
Proof.
  unfold headerLine. intros H.
  repeat first
    [ discriminate
    | match type of H with
      | Ret (HdrFail _ _) = Ret _ => inversion H; subst; clear H; discriminate
      | Ret _ = Ret _ => discriminate
      | bind _ _ = _ => inv_bind H
      | match ?x with _ => _ end = _ => destruct x eqn:?
      end ].
Qed.

Lemma readHeader_loop_no_ErrNoHeader (pend : list string) :
  forall (dec dec' : ObsDecoder) (r : string) (hdr hdr' : ObsHeader) (e : option error),
    rdErr (sc dec) <> Some ErrNoHeader -> scErr (sc dec) <> Some ErrNoHeader ->
    readHeader_loop pend dec r hdr = Ret (hdr', e, dec') ->
    e <> Some ErrNoHeader.
Proof.
  induction pend as [|line rest IH]; intros dec dec' r hdr hdr' e Hr Hs H;
    cbn [readHeader_loop] in H.
  - inversion H; subst. exact Hr.
  - cbn [lineNum set_lineNum] in H.
    destruct (maxLines <? S (lineNum dec))%nat; [inversion H; discriminate|].
    destruct (len line <? 60)%nat; [by eapply IH in H|].
    apply bind_Ret in H as (st & Est & H). destruct st as [r1 h1|h1|h1 e1].
    + by eapply IH in H.
    + inversion H; subst. exact Hs.
    + inversion H; subst. apply headerLine_fail in Est. congruence.
Qed.

(** [NewObsDecoder] never returns [ErrNoHeader], unless the reader itself
    ends with it. *)
Lemma NewObsDecoder_no_ErrNoHeader (lines : list string) (rerr : option error)
    (dec : ObsDecoder) (e : option error) :
  rerr <> Some ErrNoHeader ->
  NewObsDecoder lines rerr = Ret (dec, e) -> e <> Some ErrNoHeader.
Proof.
  intros Hr H. unfold NewObsDecoder, readHeader in H.
  apply bind_Ret in H as (res & Eres & H).
  destruct res as [[hdr e'] d]. inversion H; subst; clear H. cbn.
  eapply readHeader_loop_no_ErrNoHeader in Eres; [done|done|]. cbn. discriminate.
Qed.

(** Whenever the header is read without error and the first call of
    [NextEpoch] ends the input, [Stat] aborts. *)
Lemma Stat_no_epoch (lines : list string) (rerr : option error) (dec dec' : ObsDecoder) :
  NewObsDecoder lines rerr = Ret (dec, None) ->
  NextEpoch dec = Ret (false, dec') ->
  Err dec' = None ->
  Stat (inr (lines, rerr)) = Panic NilDeref.
Proof.
  intros H1 H2 H3. unfold Stat. rewrite H1. cbn [bind Stat_loop].
  rewrite H2. cbn [bind]. rewrite H3. reflexivity.
Qed.
(** C2 at an empty stream and at a header that is not terminated: the
    constructor returns no error, and so not [ErrNoHeader]. *)
Theorem NewObsDecoder_without_header :
  (exists dec, NewObsDecoder [] None = Ret (dec, None) /\ Header dec = emptyHeader) /\
  (exists dec, NewObsDecoder [Sample.markerLine; Sample.markerLine] None = Ret (dec, None) /\
               pending (sc dec) = []).
Proof.
  split; eexists; (split; [vm_compute; reflexivity|reflexivity]).
Qed.

(** C10 at a file that holds a complete header and no epoch, and at an
    empty file: [Stat] dereferences the nil [epoPrev]. *)
Theorem Stat_header_only :
  Stat (inr ([Sample.endOfHeader], None)) = Panic NilDeref /\
  Stat (inr ([], None)) = Panic NilDeref.
Proof. split; vm_compute; reflexivity. Qed.

(** An epoch line that begins with "> " and is shorter than 29 bytes
    aborts the call: [line[2:29]] is out of range. *)
Lemma NextEpoch_short_line (dec : ObsDecoder) (line : string) (rest : list string) :
  pending (sc dec) = line :: rest ->
  HasPrefix line "> " = true ->
  (len line < 29)%nat ->
  NextEpoch dec = Panic SliceBounds.
Proof.
  intros Hp Hpx Hl. unfold NextEpoch. rewrite Hp. cbn [NextEpoch_loop].
  rewrite Hpx. cbn [negb].
  destruct (Nat.ltb_spec (len line) 1) as [H1|H1].
  - destruct line as [|c line]; [discriminate|]. cbn in H1. lia.
  - rewrite slice_panics by lia. reflexivity.
Qed.

End HeaderEnd.



(** C9 at an epoch line cut short, at an epoch whose satellite lines end
    early, and at an empty line in place of a satellite line: the call
    aborts on a slice out of range. *)
Theorem NextEpoch_out_of_range :
  (exists dec, Sample.decoderOf (Sample.endOfHeader :: Sample.epochShort) = Ret dec /\
               NextEpoch dec = Panic SliceBounds) /\
  (exists dec, Sample.decoderOf (Sample.header2 ++ Sample.epochTruncated) = Ret dec /\
               NextEpoch dec = Panic SliceBounds) /\
  (exists dec, Sample.decoderOf (Sample.header2 ++ Sample.epochEmptyLine) = Ret dec /\
               NextEpoch dec = Panic SliceBounds).
Proof.
  repeat split; eexists; (split; [vm_compute; reflexivity|vm_compute; reflexivity]).
Qed.

(** An epoch line that declares a negative count aborts the call:
    [make([]SatObs, 0, numSat)] has a negative capacity. *)
Example NextEpoch_negative_count :
  exists dec,
    Sample.decoderOf [Sample.endOfHeader; "> 2018 11 06 19 00  0.0000000  0 -1"] = Ret dec /\
    NextEpoch dec = Panic MakesliceCap.
Proof. eexists; (split; [vm_compute; reflexivity|vm_compute; reflexivity]). Qed.

(** ** Comparing observations *)

Example getDecimal_ex :
  getDecimal 2.75 = Ret 0.75%float /\ getDecimal (-2.75) = Ret (-0.75)%float /\
  getDecimal 0.375 = Ret 0.375%float /\ getDecimal 109474991.875 = Ret 0.875%float /\
  getDecimal 4 = Ret 0%float /\ getDecimal infinity = Panic NilDeref /\
  getDecimal nan = Panic BigErrNaN.
Proof. repeat split; vm_compute; reflexivity. Qed.

(** [getDecimal] is [x - trunc(x)] with the sign of [x]: for the float
    [m * 2^e] with a signed mantissa [m] and [e < 0], the integer part is
    the quotient of [m] by [2^-e] truncated towards zero, and the decimal
    part is the remainder of that division, [Z.rem], times [2^e]. *)
Lemma getDecimal_rem (f : float) (s : bool) (m : positive) (e : Z) :
  Prim2SF f = S754_finite s m e -> (e < 0)%Z ->
  getDecimal f =
    Ret (signedFloat (Z.rem (if s then Z.neg m else Z.pos m) (2 ^ (- e))) e).
Proof.
  intros Hf He. unfold getDecimal. rewrite Hf.
  destruct (Z.leb_spec 0 e); [lia|].
  assert (Hd : (0 < 2 ^ (- e))%Z) by (apply Z.pow_pos_nonneg; lia).
  assert (Hr : Z.rem (Z.pos m) (2 ^ (- e)) = (Z.pos m mod 2 ^ (- e))%Z)
    by (apply Z.rem_mod_nonneg; lia).
  pose proof (Z.mod_pos_bound (Z.pos m) (2 ^ (- e)) Hd) as Hb.
  destruct s.
  - change (Z.neg m) with (- Z.pos m)%Z. rewrite Z.rem_opp_l by lia. rewrite Hr.
    destruct (Z.pos m mod 2 ^ (- e))%Z as [|r|r]; [reflexivity|reflexivity|lia].
  - rewrite Hr.
    destruct (Z.pos m mod 2 ^ (- e))%Z as [|r|r]; [reflexivity|reflexivity|lia].
Qed.

(** Two records of the same satellite: the phase L1C differs by whole
    cycles and 0.002 and is not reported; L2W differs by 0.01 in its
    decimal part and is reported; the code C1C differs by 0.004 and is
    not reported; S1C is missing in the second record. *)
Example diffObs_ex :
  exists val1 val2 : float,
    diffObs
      (Sample.satOf [("L1C", Sample.obsRead "109474991.854");
                     ("L2W", Sample.obsRead "85305196.500");
                     ("C1C", Sample.obsRead "20832393.682");
                     ("S1C", Sample.obsRead "49.500")])
      (Sample.satOf [("L1C", Sample.obsRead "109474887.856");
                     ("L2W", Sample.obsRead "85305200.510");
                     ("C1C", Sample.obsRead "20832393.686")]) =
    Ret [KeyMissing "S1C";
         Differs "L" "L2W" val1 (Sample.obsRead "85305196.500")
           val2 (Sample.obsRead "85305200.510")] /\
    val1 = 0.5%float /\ (0.509765625 <? val2)%float = true /\
    (val2 <? 0.51025390625)%float = true.
Proof. eexists _, _. split; [vm_compute; reflexivity|]. repeat split. Qed.

(** The lines [diffObs] prints are those its loop body prints for the
    keys of [obs1.Obss]. *)
Lemma diffObs_reports (obs1 obs2 : SatObs) (l : list report) :
  diffObs obs1 obs2 = Ret l ->
  forall rep : report,
    rep ∈ l <->
    exists (k : string) (o1 : Obs) (lk : list report),
      Obss obs1 !! k = Some o1 /\ diffObs_key obs2 k o1 = Ret lk /\ rep ∈ lk.
Proof.
  unfold diffObs. intros H rep.
  assert (G : forall kvs l,
    foldr (fun kv acc => let* l := diffObs_key obs2 (fst kv) (snd kv) in
                         let* r := acc in Ret (l ++ r)) (Ret []) kvs = Ret l ->
    (rep ∈ l <-> exists k o1 lk, (k, o1) ∈ kvs /\ diffObs_key obs2 k o1 = Ret lk /\ rep ∈ lk)).
  { clear. induction kvs as [|[k o] kvs IH]; intros l H; cbn in H.
    - inversion H; subst. split; [intros Hin; by apply elem_of_nil in Hin|].
      intros (k & o1 & lk & Hin & _). by apply elem_of_nil in Hin.
    - apply bind_Ret in H as (lk & Ek & H). apply bind_Ret in H as (r & Er & H).
      inversion H; subst; clear H. specialize (IH _ Er).
      rewrite elem_of_app, IH. split.
      + intros [Hin|(k' & o' & lk' & Hin & Hd & Hr)].
        * exists k, o, lk. split; [left|done].
        * exists k', o', lk'. split; [by right|done].
      + intros (k' & o' & lk' & Hin & Hd & Hr).
        apply elem_of_cons in Hin as [Heq|Hin].
        * inversion Heq; subst. rewrite Ek in Hd. inversion Hd; subst. by left.
        * right. eauto 6. }
  rewrite (G _ _ H). split; intros (k & o1 & lk & Hin & Hrest).
  - exists k, o1, lk. split; [|done]. by apply elem_of_map_to_list in Hin.
  - exists k, o1, lk. split; [|done]. by apply elem_of_map_to_list.
Qed.





(** ** Synchronising two streams *)

(** Epochs of another time at the front of a list do not change what
    the search for a partner finds. *)
Lemma find_skip_ne (e1 : Epoch) (skip L : list Epoch) :
  Forall (fun x => Time x <> Time e1) skip ->
  List.find (sameTime e1) (skip ++ L) = List.find (sameTime e1) L.
Proof.
  induction 1 as [|x skip Hx _ IH]; [done|]. cbn.
  unfold sameTime at 1, time_Equal. destruct (Z.eqb_spec (Time x) (Time e1)); [done|].
  exact IH.
Qed.

Lemma find_none_ne (e1 : Epoch) (L : list Epoch) :
  Forall (fun x => Time x <> Time e1) L -> List.find (sameTime e1) L = None.
Proof.
  intros H. rewrite <- (app_nil_r L). by rewrite find_skip_ne.
Qed.

(** ... nor the pairs of two lists. *)
Lemma join_skip (es1 skip L : list Epoch) :
  Forall (fun a => Forall (fun x => Time x <> Time a) skip) es1 ->
  joinEpochs es1 (skip ++ L) = joinEpochs es1 L.
Proof.
  induction 1 as [|a es1 Ha _ IH]; [done|].
  unfold joinEpochs in *. cbn. rewrite find_skip_ne by done. by rewrite IH.
Qed.

Lemma ascending_cons (e : Epoch) (es : list Epoch) :
  ascending (e :: es) -> ascending es /\ Forall (fun x => (Time e < Time x)%Z) es.
Proof.
  unfold ascending. cbn. intros H. apply StronglySorted_inv in H as [H1 H2].
  split; [done|]. by rewrite List.Forall_map in H2.
Qed.

Lemma ascending_app (l1 l2 : list Epoch) :
  ascending (l1 ++ l2) -> ascending l2.
Proof.
  induction l1 as [|a l1 IH]; [done|]. cbn. intros H.
  apply ascending_cons in H as [H _]. auto.
Qed.

Lemma ascending_app_lt (l1 l2 : list Epoch) :
  ascending (l1 ++ l2) ->
  Forall (fun x => Forall (fun y => (Time x < Time y)%Z) l2) l1.
Proof.
  induction l1 as [|a l1 IH]; [constructor|]. cbn. intros H.
  apply ascending_cons in H as [H1 H2]. constructor; [|auto].
  apply Forall_app in H2 as [_ H2]. done.
Qed.

Section SyncFacts.

Context {RT : Runtime}.

(** [NextEpoch] does not read [syncEpo] and hands it on unchanged. *)
Lemma setErr_syncEpo (x : option Epoch) (e : error) (d : ObsDecoder) :
  setErr e (set_syncEpo x d) = set_syncEpo x (setErr e d).
Proof. unfold setErr. cbn. destruct (err d) as [[]|]; reflexivity. Qed.

Ltac sync_fin :=
  unfold setErr; cbn;
  repeat match goal with |- context [err ?d] => destruct (err d) as [[]|] end;
  reflexivity.

Lemma satLoop_syncEpo (x : option Epoch) (n : nat) (d : ObsDecoder) :
  satLoop n (set_syncEpo x d) = withSync x (satLoop n d).
Proof.
  revert d. induction n as [|n IH]; intros d; [reflexivity|].
  cbn [satLoop]. cbn [sc set_syncEpo set_sc set_lineNum lineNum Header].
  change (set_lineNum (S (lineNum d)) (set_sc (Scan (sc d)).2 (set_syncEpo x d)))
    with (set_syncEpo x (set_lineNum (S (lineNum d)) (set_sc (Scan (sc d)).2 d))).
  set (d1 := set_lineNum (S (lineNum d)) (set_sc (Scan (sc d)).2 d)).
  destruct (scErr (Scan (sc d)).2); [sync_fin|].
  destruct (slice_to _ 1) as [c| |]; cbn [bind]; try reflexivity.
  destruct (sysPerAbbr c); [|sync_fin].
  destruct (slice _ 1 3) as [ns| |]; cbn [bind]; try reflexivity.
  destruct (Atoi ns); [|sync_fin].
  destruct (newPRN _ _); [|sync_fin].
  destruct (slice_from _ 3) as [r| |]; cbn [bind]; try reflexivity.
  destruct (String.eqb _ _); [apply IH|].
  destruct (obsLoop _ _ _ _ _) as [[er|o]| |]; cbn [bind]; try reflexivity.
  - cbn. by rewrite setErr_syncEpo.
  - unfold appendObs. cbn [epo set_syncEpo]. subst d1. cbn [epo set_lineNum set_sc].
    destruct (epo d); cbn [bind]; [|reflexivity].
    match goal with
    | |- satLoop n ?a = withSync x (satLoop n ?b) =>
        change a with (set_syncEpo x b); apply IH
    end.
Qed.

Lemma NextEpoch_loop_syncEpo (x : option Epoch) (pend : list string) (d : ObsDecoder) :
  NextEpoch_loop pend (set_syncEpo x d) = withSync x (NextEpoch_loop pend d).
Proof.
  revert d. induction pend as [|line rest IH]; intros d; cbn [NextEpoch_loop].
  - cbn [sc set_syncEpo set_sc scErr scanEnd].
    destruct (rdErr (sc d)); [sync_fin|reflexivity].
  - cbn [sc set_syncEpo set_sc set_lineNum lineNum].
    change (set_lineNum (S (lineNum d)) (set_sc (scanned line rest (sc d)) (set_syncEpo x d)))
      with (set_syncEpo x (set_lineNum (S (lineNum d)) (set_sc (scanned line rest (sc d)) d))).
    destruct (len line <? 1)%nat; [apply IH|].
    destruct (negb _); [apply IH|].
    destruct (slice _ 2 29) as [ts| |]; cbn [bind]; try reflexivity.
    destruct (time_Parse _ _); [|sync_fin].
    destruct (slice _ 31 32) as [fs| |]; cbn [bind]; try reflexivity.
    destruct (Atoi fs); [|sync_fin].
    destruct (slice _ 32 35) as [ns| |]; cbn [bind]; try reflexivity.
    destruct (Atoi (TrimSpace ns)); [|sync_fin].
    destruct (_ <? 0)%Z; [reflexivity|].
    match goal with
    | |- satLoop ?n ?a = withSync x (satLoop ?n ?b) =>
        change a with (set_syncEpo x b); apply satLoop_syncEpo
    end.
Qed.

Lemma NextEpoch_syncEpo (x : option Epoch) (d : ObsDecoder) :
  NextEpoch (set_syncEpo x d) = withSync x (NextEpoch d).
Proof. apply NextEpoch_loop_syncEpo. Qed.


Lemma setErr_not_None (e : error) (d : ObsDecoder) : err (setErr e d) <> None.
Proof.
  unfold setErr. destruct (err d) as [[]|] eqn:E; cbn; rewrite ?E; discriminate.
Qed.

(** The satellite loop returns false only with an error recorded. *)
Lemma satLoop_false (n : nat) (dec dec' : ObsDecoder) :
  satLoop n dec = Ret (false, dec') -> err dec' <> None.
Proof.
  revert dec. induction n as [|n IH]; intros dec H; cbn [satLoop] in H;
    [discriminate|].
  repeat first
    [ discriminate
    | match type of H with
      | Ret (false, setErr ?e ?d) = Ret _ =>
          inversion H; subst; clear H; apply setErr_not_None
      | satLoop _ _ = _ => by apply IH in H
      | bind _ _ = _ => inv_bind H
      | match ?x with _ => _ end = _ => destruct x eqn:?
      end ].
Qed.

(** Once [NextEpoch] has returned false with no error recorded, the
    input is used up. *)
Lemma NextEpoch_loop_false (pend : list string) (dec dec' : ObsDecoder) :
  NextEpoch_loop pend dec = Ret (false, dec') -> err dec' = None ->
  pending (sc dec') = [] /\ rdErr (sc dec') = None /\ scErr (sc dec') = None.
Proof.
  revert dec. induction pend as [|line rest IH]; intros dec H He;
    cbn [NextEpoch_loop] in H.
  - cbn [sc set_sc scErr scanEnd] in H.
    destruct (rdErr (sc dec)) eqn:Hr.
    + inversion H; subst. by apply setErr_not_None in He.
    + inversion H; subst. cbn. by rewrite Hr.
  - repeat first
      [ discriminate
      | match type of H with
        | Ret (false, setErr ?e ?d) = Ret _ =>
            inversion H; subst; clear H; by apply setErr_not_None in He
        | NextEpoch_loop _ _ = _ => by apply IH in H
        | satLoop _ _ = _ => by apply satLoop_false in H
        | bind _ _ = _ => inv_bind H
        | match ?x with _ => _ end = _ => destruct x eqn:?
        end ].
Qed.

(** ... and every later call returns false and changes nothing but the
    token of the scanner. *)
Lemma NextEpoch_done (dec dec' : ObsDecoder) :
  NextEpoch dec = Ret (false, dec') -> err dec' = None ->
  exists dec'', NextEpoch dec' = Ret (false, dec'') /\ err dec'' = None /\
                epo dec'' = epo dec' /\ syncEpo dec'' = syncEpo dec'.
Proof.
  intros H He. apply NextEpoch_loop_false in H as (Hp & Hr & Hs); [|done].
  unfold NextEpoch. rewrite Hp. cbn [NextEpoch_loop sc set_sc scErr scanEnd].
  rewrite Hr. eexists. split; [reflexivity|]. cbn. done.
Qed.

Lemma Yields_done (dec dec' : ObsDecoder) :
  NextEpoch dec = Ret (false, dec') -> err dec' = None -> Yields dec' [].
Proof.
  intros H He. destruct (NextEpoch_done _ _ H He) as (d & Hd & Hde & _).
  by apply (Yields_end dec' d).
Qed.

(** A decoder that yields epochs holds no error. *)
Lemma Yields_err (dec : ObsDecoder) (es : list Epoch) :
  Yields dec es -> err dec = None.
Proof.
  induction 1 as [dec dec' H He|dec dec' e es H He _ IH];
    unfold NextEpoch in H; apply NextEpoch_loop_err in H;
    destruct H as [H|(Hb & _ & e' & He')]; congruence.
Qed.

(** A successful [NextEpoch] takes at least one line. *)
Lemma NextEpoch_loop_shorter (pend : list string) (dec dec' : ObsDecoder) :
  NextEpoch_loop pend dec = Ret (true, dec') ->
  (length (pending (sc dec')) < length pend)%nat.
Proof.
  intros H. apply NextEpoch_loop_true in H as (pre & l & sats & n & e & -> & _).
  rewrite !length_app. cbn. rewrite length_app. lia.
Qed.

(** Each epoch yielded takes at least one line. *)
Lemma Yields_length (dec : ObsDecoder) (es : list Epoch) :
  Yields dec es -> (length es <= length (pending (sc dec)))%nat.
Proof.
  induction 1 as [dec dec' H He|dec dec' e es H He _ IH]; cbn; [lia|].
  unfold NextEpoch in H. apply NextEpoch_loop_shorter in H. lia.
Qed.

(** What a decoder yields does not depend on its [syncEpo]. *)
Lemma Yields_syncEpo (x : option Epoch) (dec : ObsDecoder) (es : list Epoch) :
  Yields dec es -> Yields (set_syncEpo x dec) es.
Proof.
  induction 1 as [dec dec' H He|dec dec' e es H He _ IH].
  - apply (Yields_end _ (set_syncEpo x dec')); [|done].
    rewrite NextEpoch_syncEpo, H. reflexivity.
  - apply (Yields_next _ (set_syncEpo x dec')); [|done|done].
    rewrite NextEpoch_syncEpo, H. reflexivity.
Qed.

Lemma Yields_inv_nil (dec : ObsDecoder) :
  Yields dec [] ->
  exists dec', NextEpoch dec = Ret (false, dec') /\ err dec' = None.
Proof. inversion 1; eauto. Qed.

Lemma Yields_inv_cons (dec : ObsDecoder) (e : Epoch) (es : list Epoch) :
  Yields dec (e :: es) ->
  exists dec', NextEpoch dec = Ret (true, dec') /\ epo dec' = Some e /\ Yields dec' es.
Proof. inversion 1; eauto. Qed.

(** The loops of the decoder proper are structural: they never run out
    of fuel. *)
Lemma slice_fuel (s : string) (lo hi : nat) : slice s lo hi <> OutOfFuel.
Proof. unfold slice. destruct (_ && _); discriminate. Qed.

Lemma bind_fuel {A B} (m : exec A) (k : A -> exec B) :
  m <> OutOfFuel -> (forall a, k a <> OutOfFuel) -> bind m k <> OutOfFuel.
Proof. destruct m; cbn; auto; discriminate. Qed.

Lemma obsLoop_fuel (typs : list string) (line : string) (ln col : nat)
    (m : gmap string Obs) : obsLoop typs line ln col m <> OutOfFuel.
Proof.
  revert col m. induction typs as [|typ typs IH]; intros col m; cbn [obsLoop];
    [discriminate|].
  repeat first
    [ discriminate
    | apply IH
    | apply bind_fuel; [apply slice_fuel|intros ?]
    | match goal with
      | |- (if ?c then _ else _) <> _ => destruct c
      | |- match ?x with _ => _ end <> _ => destruct x
      end ].
Qed.

Lemma satLoop_fuel (n : nat) (dec : ObsDecoder) : satLoop n dec <> OutOfFuel.
Proof.
  revert dec. induction n as [|n IH]; intros dec; cbn [satLoop]; [discriminate|].
  repeat first
    [ discriminate
    | apply IH
    | apply bind_fuel;
        [first [apply slice_fuel | apply obsLoop_fuel
               | unfold appendObs; destruct (epo _); discriminate]
        |intros ?]
    | match goal with
      | |- (if ?c then _ else _) <> _ => destruct c
      | |- match ?x with _ => _ end <> _ => destruct x
      end ].
Qed.

Lemma NextEpoch_fuel (dec : ObsDecoder) : NextEpoch dec <> OutOfFuel.
Proof.
  unfold NextEpoch. generalize (pending (sc dec)). intros pend. revert dec.
  induction pend as [|line rest IH]; intros dec; cbn [NextEpoch_loop].
  - destruct (scErr _); discriminate.
  - repeat first
      [ discriminate
      | apply IH
      | apply satLoop_fuel
      | apply bind_fuel; [apply slice_fuel|intros ?]
      | match goal with
        | |- (if ?c then _ else _) <> _ => destruct c
        | |- match ?x with _ => _ end <> _ => destruct x
        end ].
Qed.

Lemma deref_fuel (e : option Epoch) : deref e <> OutOfFuel.
Proof. destruct e; discriminate. Qed.

(** The inner and the outer loop of [sync] have fuel enough: each turn
    follows a successful [NextEpoch], which shortens the input. *)
Lemma sync_inner_fuel (fuel : nat) :
  forall (dec2 : ObsDecoder) (epoF1 epoF2 : option Epoch),
    (length (pending (sc dec2)) < fuel)%nat ->
    sync_inner fuel dec2 epoF1 epoF2 <> OutOfFuel.
Proof.
  induction fuel as [|fuel IH]; intros dec2 epoF1 epoF2 Hf; [lia|].
  cbn [sync_inner]. pose proof (NextEpoch_fuel dec2) as Hn.
  destruct (NextEpoch dec2) as [[[] d]| |] eqn:E; cbn [bind];
    [|discriminate|discriminate|contradiction].
  unfold NextEpoch in E. apply NextEpoch_loop_shorter in E.
  apply bind_fuel; [apply deref_fuel|intros e2].
  apply bind_fuel; [apply deref_fuel|intros e1].
  destruct (time_Equal _ _); [discriminate|].
  destruct (time_After _ _); [discriminate|].
  apply IH. lia.
Qed.

Lemma sync_loop_fuel (fuel : nat) :
  forall (dec dec2 : ObsDecoder) (epoF2 : option Epoch),
    (length (pending (sc dec)) < fuel)%nat ->
    sync_loop fuel dec dec2 epoF2 <> OutOfFuel.
Proof.
  induction fuel as [|fuel IH]; intros dec dec2 epoF2 Hf; [lia|].
  cbn [sync_loop]. pose proof (NextEpoch_fuel dec) as Hn.
  destruct (NextEpoch dec) as [[[] d]| |] eqn:E; cbn [bind];
    [|discriminate|discriminate|contradiction].
  unfold NextEpoch in E. apply NextEpoch_loop_shorter in E.
  apply bind_fuel.
  { unfold sync_test. destruct epoF2; [|discriminate].
    apply bind_fuel; [apply deref_fuel|intros e1].
    destruct (time_Equal _ _); [discriminate|].
    destruct (time_After _ _); discriminate. }
  intros [| |]; [discriminate|apply IH; lia|].
  apply bind_fuel; [apply sync_inner_fuel; lia|].
  intros [[[] d2] f2]; [discriminate|apply IH; lia|apply IH; lia].
Qed.

(** [sync] returns or aborts: the fuel of its loops is never used up. *)
Lemma sync_terminates (dec dec2 : ObsDecoder) : sync dec dec2 <> OutOfFuel.
Proof. apply sync_loop_fuel. lia. Qed.

(** The loop of [Stat] has fuel enough. *)
Lemma Stat_loop_fuel (fuel : nat) :
  forall (dec : ObsDecoder) (v : statVars),
    (length (pending (sc dec)) < fuel)%nat -> Stat_loop fuel dec v <> OutOfFuel.
Proof.
  induction fuel as [|fuel IH]; intros dec v Hf; [lia|].
  cbn [Stat_loop]. pose proof (NextEpoch_fuel dec) as Hn.
  destruct (NextEpoch dec) as [[[] d]| |] eqn:E; cbn [bind];
    [|discriminate|discriminate|contradiction].
  unfold NextEpoch in E. apply NextEpoch_loop_shorter in E.
  apply bind_fuel; [apply deref_fuel|intros e]. apply IH. lia.
Qed.

(** [sync_post] with a weaker bound. *)
Lemma sync_post_mono r (n m : nat) J :
  (n <= m)%nat -> sync_post r n J -> sync_post r m J.
Proof.
  unfold sync_post. destruct J as [|[a b] rest]; [done|].
  intros Hnm (d & d2 & es1' & es2' & H1 & H2 & H3 & H4 & H5 & H6 & H7 & H8 & H9).
  exists d, d2, es1', es2'. repeat split; auto. lia.
Qed.

(** The inner loop of [sync]: it passes over the epochs of the second
    stream that are behind [e1] and stops at the first that is not, or
    at the end of the stream. *)
Lemma sync_inner_spec (es2 : list Epoch) :
  forall (fuel : nat) (dec2 : ObsDecoder) (e1 : Epoch) (f2 : option Epoch),
    Yields dec2 es2 -> ascending es2 -> (length es2 < fuel)%nat ->
    staleFor f2 e1 ->
    exists (skip rest : list Epoch) (d2' : ObsDecoder) (f2' : option Epoch),
      es2 = skip ++ rest /\
      Forall (fun x => (Time x < Time e1)%Z) skip /\
      Yields d2' (tl rest) /\
      match rest with
      | [] =>
          sync_inner fuel dec2 (Some e1) f2 = Ret (InnerDone, d2', f2') /\
          staleFor f2' e1
      | e2 :: _ =>
          (Time e1 <= Time e2)%Z /\
          sync_inner fuel dec2 (Some e1) f2 =
            Ret (if (Time e2 =? Time e1)%Z then InnerFound else InnerBreak,
                 d2', Some e2)
      end.
Proof.
  induction es2 as [|e2 r IH]; intros fuel dec2 e1 f2 HY Hasc Hfuel Hst.
  - apply Yields_inv_nil in HY as (d' & Hn & He).
    destruct fuel as [|fuel]; [cbn in Hfuel; lia|].
    exists [], [], d', f2. split; [done|]. split; [constructor|].
    split; [by apply (Yields_done dec2)|].
    cbn [sync_inner]. rewrite Hn. cbn [bind]. split; [reflexivity|exact Hst].
  - apply Yields_inv_cons in HY as (d' & Hn & He & HY').
    destruct fuel as [|fuel]; [cbn in Hfuel; lia|]. cbn [length] in Hfuel.
    apply ascending_cons in Hasc as [Hasc Hlt].
    cbn [sync_inner]. rewrite Hn. cbn [bind]. unfold Epoch_. rewrite He.
    cbn [deref bind]. unfold time_Equal, time_After.
    destruct (Time e2 =? Time e1)%Z eqn:Heq.
    + apply Z.eqb_eq in Heq as Heq'.
      exists [], (e2 :: r), d', (Some e2). cbn [tl app].
      split; [done|]. split; [constructor|]. split; [done|].
      split; [lia|]. by rewrite Heq.
    + apply Z.eqb_neq in Heq as Hne.
      destruct (Z.ltb_spec (Time e1) (Time e2)) as [Hgt|Hle].
      * exists [], (e2 :: r), d', (Some e2). cbn [tl app].
        split; [done|]. split; [constructor|]. split; [done|].
        split; [lia|]. by rewrite Heq.
      * destruct (IH fuel d' e1 (Some e2) HY' Hasc ltac:(lia))
          as (skip & rest & d2' & f2' & Hes & Hskip & HYr & Hres).
        { intros x [= <-]. lia. }
        exists (e2 :: skip), rest, d2', f2'.
        split; [by rewrite Hes|]. split; [constructor; [lia|done]|].
        split; [done|]. exact Hres.
Qed.


(** The pairs of two ascending lists, by the first epoch of the first
    list: with a partner in the second list, ... *)
Lemma joinEpochs_cons_found (e1 e2 : Epoch) (r1 skip r : list Epoch) :
  Time e2 = Time e1 ->
  Forall (fun x => (Time x < Time e1)%Z) skip ->
  Forall (fun x => (Time e1 < Time x)%Z) r1 ->
  joinEpochs (e1 :: r1) (skip ++ e2 :: r) = (e1, e2) :: joinEpochs r1 r.
Proof.
  intros Heq Hskip Hr1. unfold joinEpochs at 1. cbn [flat_map].
  rewrite find_skip_ne by (eapply Forall_impl; [exact Hskip|cbn; intros; lia]).
  cbn [List.find]. unfold sameTime at 1, time_Equal. rewrite Heq, Z.eqb_refl.
  cbn [app]. f_equal. fold (joinEpochs r1 (skip ++ e2 :: r)).
  change (skip ++ e2 :: r) with (skip ++ [e2] ++ r). rewrite app_assoc.
  apply join_skip. eapply Forall_impl; [exact Hr1|].
  cbn. intros a Ha. apply Forall_app. split.
  - eapply Forall_impl; [exact Hskip|cbn; intros; lia].
  - repeat constructor. lia.
Qed.

(** ... and without one. *)
Lemma joinEpochs_cons_none (e1 : Epoch) (r1 skip L : list Epoch) :
  Forall (fun x => (Time x < Time e1)%Z) skip ->
  Forall (fun x => (Time e1 < Time x)%Z) L ->
  Forall (fun x => (Time e1 < Time x)%Z) r1 ->
  joinEpochs (e1 :: r1) (skip ++ L) = joinEpochs r1 L.
Proof.
  intros Hskip HL Hr1. unfold joinEpochs at 1. cbn [flat_map].
  rewrite find_skip_ne by (eapply Forall_impl; [exact Hskip|cbn; intros; lia]).
  rewrite find_none_ne by (eapply Forall_impl; [exact HL|cbn; intros; lia]).
  cbn [app]. fold (joinEpochs r1 (skip ++ L)).
  apply join_skip. eapply Forall_impl; [exact Hr1|].
  cbn. intros a Ha. eapply Forall_impl; [exact Hskip|cbn; intros; lia].
Qed.

(** The outer loop of [sync] is a merge of the first stream with
    [epoF2] followed by the second stream. *)
Lemma sync_loop_spec (es1 : list Epoch) :
  forall (fuel : nat) (dec dec2 : ObsDecoder) (es2 : list Epoch) (f2 : option Epoch),
    Yields dec es1 -> Yields dec2 es2 ->
    ascending es1 -> ascending (olist f2 ++ es2) ->
    (length es1 < fuel)%nat ->
    sync_post (sync_loop fuel dec dec2 f2) (length es1)
      (joinEpochs es1 (olist f2 ++ es2)).
Proof.
  induction es1 as [|e1 r1 IH]; intros fuel dec dec2 es2 f2 HY HY2 Ha1 Ha2 Hfuel.
  - destruct fuel as [|fuel]; [cbn in Hfuel; lia|].
    apply Yields_inv_nil in HY as (d' & Hn & He).
    cbn [sync_loop joinEpochs flat_map sync_post]. rewrite Hn. cbn [bind].
    unfold sync_end, Err. rewrite (Yields_err _ _ HY2).
    exists d', dec2. split; [done|]. split; [done|]. by apply (Yields_err _ _ HY2).
  - destruct fuel as [|fuel]; [cbn in Hfuel; lia|]. cbn [length] in Hfuel.
    apply Yields_inv_cons in HY as (d1 & Hn & He & HY1).
    apply ascending_cons in Ha1 as [Ha1 Hlt1].
    cbn [sync_loop]. rewrite Hn. cbn [bind]. unfold Epoch_. rewrite He.
    assert (Hinner : forall (es2 : list Epoch) (f2' : option Epoch),
      Yields dec2 es2 -> ascending es2 -> staleFor f2' e1 ->
      sync_post
        (let* i := sync_inner (S (length (pending (sc dec2)))) dec2 (Some e1) f2' in
         match i with
         | (InnerFound, dec2, epoF2) => Ret (true, set_syncEpo epoF2 d1, dec2)
         | (_, dec2, epoF2) => sync_loop fuel d1 dec2 epoF2
         end)
        (length (e1 :: r1)) (joinEpochs (e1 :: r1) es2)).
    { clear es2 f2 HY2 Ha2. intros es2 f2 HY2 Ha2 Hst.
      destruct (sync_inner_spec es2 (S (length (pending (sc dec2)))) dec2 e1 f2
                  HY2 Ha2) as (skip & rest & d2' & f2' & Hes & Hskip & HYr & Hres);
        [pose proof (Yields_length _ _ HY2); lia|done|].
      subst es2. destruct rest as [|e2 r].
      - destruct Hres as [-> Hst']. cbn [bind].
        cbn [tl] in HYr.
        rewrite (joinEpochs_cons_none e1 r1 skip []) by (done || constructor).
        apply (sync_post_mono _ (length r1)); [cbn; lia|].
        assert (Hj : joinEpochs r1 (olist f2' ++ []) = joinEpochs r1 []).
        { apply join_skip. eapply Forall_impl; [exact Hlt1|]. cbn. intros a Hlt.
          destruct f2' as [x|]; [|constructor]. repeat constructor.
          specialize (Hst' x eq_refl). lia. }
        rewrite <- Hj. apply IH; [done|done|done| |lia].
        rewrite app_nil_r. destruct f2'; repeat constructor.
      - destruct Hres as [Hle ->]. cbn [bind]. cbn [tl] in HYr.
        pose proof (ascending_app _ _ Ha2) as Har.
        apply ascending_cons in Har as [Har Hltr].
        destruct (Time e2 =? Time e1)%Z eqn:Heq.
        + apply Z.eqb_eq in Heq.
          rewrite (joinEpochs_cons_found e1 e2 r1 skip r) by done.
          cbn [sync_post]. exists (set_syncEpo (Some e2) d1), d2', r1, r.
          split; [done|]. split; [done|]. split; [done|].
          split; [by apply Yields_syncEpo|]. split; [done|].
          split; [done|]. split; [done|]. split; [cbn; lia|done].
        + apply Z.eqb_neq in Heq.
          rewrite (joinEpochs_cons_none e1 r1 skip (e2 :: r)); [|done| |done].
          2:{ constructor; [lia|]. eapply Forall_impl; [exact Hltr|cbn; intros; lia]. }
          apply (sync_post_mono _ (length r1)); [cbn; lia|].
          apply (IH fuel d1 d2' r (Some e2)); [done|done|done| |lia].
          cbn. unfold ascending in *. cbn. constructor; [done|].
          by rewrite List.Forall_map. }
    destruct f2 as [e2|]; cbn [sync_test olist app].
    + cbn [deref bind]. unfold time_Equal, time_After.
      cbn [olist app] in Ha2. apply ascending_cons in Ha2 as [Ha2 Hlt2].
      destruct (Time e1 =? Time e2)%Z eqn:Heq.
      * apply Z.eqb_eq in Heq. cbn [bind].
        change (e2 :: es2) with ([] ++ e2 :: es2).
        rewrite (joinEpochs_cons_found e1 e2 r1 [] es2) by (done || constructor).
        cbn [sync_post]. exists (set_syncEpo (Some e2) d1), dec2, r1, es2.
        split; [done|]. split; [done|]. split; [done|].
        split; [by apply Yields_syncEpo|]. split; [done|].
        split; [done|]. split; [done|]. split; [cbn; lia|done].
      * apply Z.eqb_neq in Heq.
        destruct (Z.ltb_spec (Time e1) (Time e2)) as [Hgt|Hle]; cbn [bind].
        -- change (e2 :: es2) with ([] ++ e2 :: es2).
           rewrite (joinEpochs_cons_none e1 r1 [] (e2 :: es2)); [|constructor| |done].
           2:{ constructor; [lia|]. eapply Forall_impl; [exact Hlt2|cbn; intros; lia]. }
           apply (sync_post_mono _ (length r1)); [cbn; lia|].
           apply (IH fuel d1 dec2 es2 (Some e2)); [done|done|done| |lia].
           cbn. unfold ascending in *. cbn. constructor; [done|].
           by rewrite List.Forall_map.
        -- assert (Hj : joinEpochs (e1 :: r1) (e2 :: es2) = joinEpochs (e1 :: r1) es2).
           { change (e2 :: es2) with ([e2] ++ es2). apply join_skip.
             constructor; [repeat constructor; lia|].
             eapply Forall_impl; [exact Hlt1|]. cbn. intros a Hlt.
             repeat constructor. lia. }
           rewrite Hj. apply Hinner; [done|done|]. intros x [= <-]. lia.
    + cbn [bind]. apply Hinner; [done|done|]. intros x Hx. discriminate.
Qed.

(** The loop of [Diff] collects all pairs. *)
Lemma Diff_loop_spec (n : nat) :
  forall (es1 es2 : list Epoch) (fuel : nat) (dec dec2 : ObsDecoder),
    (length es1 <= n)%nat -> (n < fuel)%nat ->
    Yields dec es1 -> Yields dec2 es2 -> ascending es1 -> ascending es2 ->
    exists d d2,
      Diff_loop fuel dec dec2 = Ret (map syncPair (joinEpochs es1 es2), d, d2) /\
      err d = None /\ err d2 = None.
Proof.
  induction n as [|n IH]; intros es1 es2 fuel dec dec2 Hn Hfuel HY HY2 Ha1 Ha2;
    (destruct fuel as [|fuel]; [lia|]); cbn [Diff_loop]; unfold sync;
    pose proof (sync_loop_spec es1 (S (length (pending (sc dec)))) dec dec2 es2 None
                  HY HY2 Ha1 Ha2) as Hs;
    (lapply Hs; [clear Hs; intros Hs|pose proof (Yields_length _ _ HY); lia]);
    cbn [olist app] in Hs; unfold sync_post in Hs;
    destruct (joinEpochs es1 es2) as [|[a b] rest] eqn:Hj.
  - destruct Hs as (d & d2 & -> & He & He2). cbn. eauto.
  - destruct Hs as (d & d2 & es1' & es2' & _ & _ & _ & _ & _ & _ & _ & Hl & _). lia.
  - destruct Hs as (d & d2 & -> & He & He2). cbn. eauto.
  - destruct Hs as (d & d2 & es1' & es2' & -> & Hepo & Hsync & HY' & HY2' & Ha1' & Ha2'
                    & Hl & Hrest).
    cbn [bind].
    destruct (IH es1' es2' fuel d d2) as (d' & d2' & -> & He & He2);
      [lia|lia|done|done|done|done|].
    cbn [bind]. exists d', d2'. split; [|done].
    unfold SyncEpoch. rewrite Hepo, Hsync, Hrest. reflexivity.
Qed.

(** What the search for a partner finds. *)
Lemma find_sameTime (e1 : Epoch) (es2 : list Epoch) :
  match List.find (sameTime e1) es2 with
  | Some e2 => In e2 es2 /\ Time e2 = Time e1
  | None => ~ In (Time e1) (map Time es2)
  end.
Proof.
  induction es2 as [|x es2 IH]; cbn; [tauto|].
  unfold sameTime at 1, time_Equal. destruct (Z.eqb_spec (Time x) (Time e1)).
  - auto.
  - destruct (List.find (sameTime e1) es2); [tauto|]. intros [?|?]; tauto.
Qed.

(** The times of the pairs are the times of the first list that occur
    in the second, in the order of the first list. *)
Lemma joinEpochs_times (es1 es2 : list Epoch) :
  map (fun p => Time (fst p)) (joinEpochs es1 es2) =
    List.filter (fun t => existsb (Z.eqb t) (map Time es2)) (map Time es1).
Proof.
  induction es1 as [|e1 es1 IH]; [done|].
  unfold joinEpochs in *. cbn [flat_map map List.filter].
  rewrite map_app, IH. pose proof (find_sameTime e1 es2) as H.
  destruct (List.find (sameTime e1) es2) as [e2|].
  - destruct H as [Hin Ht].
    assert (existsb (Z.eqb (Time e1)) (map Time es2) = true) as ->; [|done].
    apply existsb_exists. exists (Time e2). split; [by apply in_map|].
    apply Z.eqb_eq. done.
  - assert (existsb (Z.eqb (Time e1)) (map Time es2) = false) as ->; [|done].
    apply not_true_is_false. intros Hex. apply existsb_exists in Hex as (t & Hin & Ht).
    apply Z.eqb_eq in Ht. subst t. done.
Qed.

(** Each pair is made of an epoch of each list, of equal time. *)
Lemma joinEpochs_pairs (es1 es2 : list Epoch) :
  Forall (fun p => Time (fst p) = Time (snd p) /\ In (fst p) es1 /\ In (snd p) es2)
    (joinEpochs es1 es2).
Proof.
  induction es1 as [|e1 es1 IH]; [constructor|].
  unfold joinEpochs in *. cbn [flat_map]. apply Forall_app. split.
  - pose proof (find_sameTime e1 es2) as H.
    destruct (List.find (sameTime e1) es2) as [e2|]; [|constructor].
    destruct H as [Hin Ht]. repeat constructor; cbn; auto.
  - eapply Forall_impl; [exact IH|]. cbn. intros p (H1 & H2 & H3). auto.
Qed.

(** A selection from an ascending list is ascending. *)
Lemma StronglySorted_filter (f : Z -> bool) (l : list Z) :
  StronglySorted Z.lt l -> StronglySorted Z.lt (List.filter f l).
Proof.
  induction 1 as [|a l Hl IH Ha]; cbn; [constructor|].
  destruct (f a); [|done]. constructor; [done|].
  rewrite List.Forall_forall in *. intros x Hx. apply List.filter_In in Hx as [Hx _]. auto.
Qed.

(** C5.  When both decoders yield their epochs in strictly ascending
    order of time, the calls of [sync] give exactly the pairs of epochs
    of equal time: their times are the times of the first stream that
    occur in the second, ascending, each once; epochs without a partner
    are passed over, and no error is recorded. *)
Theorem sync_sorted_intersection (dec dec2 : ObsDecoder) (es1 es2 : list Epoch) :
  Yields dec es1 -> Yields dec2 es2 ->
  Sorted Z.lt (map Time es1) -> Sorted Z.lt (map Time es2) ->
  exists d d2,
    syncAll dec dec2 = Ret (map syncPair (joinEpochs es1 es2), d, d2) /\
    Err d = None /\ Err d2 = None /\
    map (fun p => Time (fst p)) (joinEpochs es1 es2) =
      List.filter (fun t => existsb (Z.eqb t) (map Time es2)) (map Time es1) /\
    Forall (fun p => Time (fst p) = Time (snd p) /\ In (fst p) es1 /\ In (snd p) es2)
      (joinEpochs es1 es2) /\
    Sorted Z.lt (map (fun p => Time (fst p)) (joinEpochs es1 es2)).
Proof.
  intros HY HY2 Hs1 Hs2.
  apply Sorted_StronglySorted in Hs1; [|intros x y z; lia].
  apply Sorted_StronglySorted in Hs2; [|intros x y z; lia].
  destruct (Diff_loop_spec (length es1) es1 es2 (S (length (pending (sc dec)))) dec dec2)
    as (d & d2 & Hd & He & He2); try done.
  { pose proof (Yields_length _ _ HY). lia. }
  exists d, d2. unfold syncAll, Err. rewrite Hd, He, He2.
  split; [done|]. split; [done|]. split; [done|].
  split; [apply joinEpochs_times|]. split; [apply joinEpochs_pairs|].
  rewrite joinEpochs_times. apply StronglySorted_Sorted. by apply StronglySorted_filter.
Qed.
End SyncFacts.

Lemma sync_sorted_intersection_witness :
  exists dec dec2 d d2,
    Sample.decoderOf Sample.stream1 = Ret dec /\
    Sample.decoderOf Sample.stream2 = Ret dec2 /\
    syncAll dec dec2 =
      Ret (map syncPair (joinEpochs Sample.epochs1 Sample.epochs2), d, d2) /\
    Err d = None /\ Err d2 = None /\
    map (fun p => Time (fst p)) (joinEpochs Sample.epochs1 Sample.epochs2) =
      List.filter (fun t => existsb (Z.eqb t) (map Time Sample.epochs2))
        (map Time Sample.epochs1) /\
    Forall (fun p => Time (fst p) = Time (snd p) /\
                     In (fst p) Sample.epochs1 /\ In (snd p) Sample.epochs2)
      (joinEpochs Sample.epochs1 Sample.epochs2) /\
    Sorted Z.lt (map (fun p => Time (fst p)) (joinEpochs Sample.epochs1 Sample.epochs2)).
Proof.
  let r1 := eval vm_compute in (Sample.decoderOf Sample.stream1) in
  let r2 := eval vm_compute in (Sample.decoderOf Sample.stream2) in
  lazymatch r1 with
  | Ret ?dec =>
      lazymatch r2 with
      | Ret ?dec2 =>
          assert (H1 : Yields dec Sample.epochs1)
            by (repeat (eapply Yields_next; [vm_compute; reflexivity|reflexivity|]);
                eapply Yields_end; [vm_compute; reflexivity|reflexivity]);
          assert (H2 : Yields dec2 Sample.epochs2)
            by (repeat (eapply Yields_next; [vm_compute; reflexivity|reflexivity|]);
                eapply Yields_end; [vm_compute; reflexivity|reflexivity]);
          destruct (sync_sorted_intersection dec dec2 Sample.epochs1 Sample.epochs2 H1 H2)
            as (d & d2 & H);
            [repeat constructor|repeat constructor|];
          exists dec, dec2, d, d2;
          split; [vm_compute; reflexivity|];
          split; [vm_compute; reflexivity|];
          exact H
      end
  end.
Defined.


(** * Further properties of the readers *)

(** ** The header reader never aborts *)

Section HeaderMore.

Context {RT : Runtime}.


Lemma pending_scanLines (ls rest : list string) (dec : ObsDecoder) :
  pending (sc dec) = ls ++ rest -> pending (sc (scanLines ls rest dec)) = rest.
Proof.
  revert dec. induction ls as [|l ls IH]; intros dec H; cbn [scanLines]; [done|].
  apply IH. reflexivity.
Qed.

Lemma err_scanLines (ls rest : list string) (dec : ObsDecoder) :
  err (scanLines ls rest dec) = err dec.
Proof.
  revert dec. induction ls as [|l ls IH]; intros dec; cbn [scanLines]; [done|].
  by rewrite IH.
Qed.

Lemma scErr_scanLines (ls rest : list string) (dec : ObsDecoder) :
  scErr (sc (scanLines ls rest dec)) = scErr (sc dec) /\
  rdErr (sc (scanLines ls rest dec)) = rdErr (sc dec).
Proof.
  revert dec. induction ls as [|l ls IH]; intros dec; cbn [scanLines]; [done|].
  destruct (IH (set_lineNum (S (lineNum dec)) (set_sc (scanned l (ls ++ rest) (sc dec)) dec)))
    as [-> ->]. done.
Qed.

(** Every slice the header loop takes of a line of 60 bytes or more is
    within the line. *)
Lemma headerLine_returns (ln : nat) (line r : string) (hdr : ObsHeader) :
  (60 <= len line)%nat -> exists st, headerLine ln line r hdr = Ret st.
Proof.
  intros Hl. unfold headerLine.
  destruct (headerLine_split ln line r hdr Hl) as [-> ->]. cbn [bind].
  pose proof (len_lineVal line Hl) as Hv.
  unfold slice_to, slice_from. rewrite Hv.
  rewrite !slice_ok by (rewrite ?Hv; lia). cbn [bind].
  repeat first
    [ by eexists
    | match goal with
      | |- context [if ?b then _ else _] => destruct b
      | |- context [match ?x with _ => _ end] => destruct x
      end ].
Qed.

Lemma readHeader_loop_returns (pend : list string) :
  forall dec r hdr, exists res, readHeader_loop pend dec r hdr = Ret res.
Proof.
  induction pend as [|line rest IH]; intros dec r hdr; cbn [readHeader_loop].
  - by eexists.
  - destruct (_ <? _)%nat; [by eexists|].
    destruct (Nat.ltb_spec (len line) 60); [apply IH|].
    destruct (headerLine_returns
      (lineNum (set_lineNum (S (lineNum dec)) (set_sc (scanned line rest (sc dec)) dec)))
      line r hdr) as [st ->]; [done|].
    cbn [bind]. destruct st; [apply IH|by eexists|by eexists].
Qed.

(** X1.  [NewObsDecoder] returns for every input: reading the header
    never aborts, whatever the lines hold, because the header loop only
    slices lines of 60 bytes or more, within their first 60 bytes.  The
    error it returns is the one it stores in the decoder. *)
Theorem NewObsDecoder_returns (lines : list string) (rerr : option error) :
  exists (dec : ObsDecoder) (e : option error),
    NewObsDecoder lines rerr = Ret (dec, e) /\ err dec = e.
Proof.
  unfold NewObsDecoder, readHeader.
  destruct (readHeader_loop_returns (pending (sc
    {| Header := emptyHeader; sc := NewScanner lines rerr; epo := None;
       syncEpo := None; lineNum := 0; err := None |}))
    {| Header := emptyHeader; sc := NewScanner lines rerr; epo := None;
       syncEpo := None; lineNum := 0; err := None |} "" emptyHeader)
    as [[[h e] d] ->].
  cbn [bind]. eexists _, _. split; reflexivity.
Qed.

(** ** What the header reader consumes *)






End HeaderMore.



(** ** What the epoch reader passes over, takes and leaves *)

Lemma Atoi_char (f : string) (n : Z) :
  len f = 1 -> Atoi f = Some n -> (0 <= n <= 9)%Z.
Proof.
  destruct f as [|c [|c' f]]; cbn; try discriminate. intros _.
  destruct c as [[] [] [] [] [] [] [] []]; vm_compute; intros H; inversion H; split; discriminate.
Qed.

Lemma parseFlag_char (f : string) (n : Z) :
  len f = 1 -> parseFlag f = Some n -> (0 <= n <= 9)%Z.
Proof.
  unfold parseFlag. destruct (String.eqb f " ").
  - intros _ [= <-]. lia.
  - apply Atoi_char.
Qed.

Lemma int8_small (n : Z) : (0 <= n <= 9)%Z -> int8 n = n.
Proof. intros H. unfold int8. rewrite Z.mod_small; lia. Qed.

Lemma slice_len (s : string) (lo hi : nat) (r : string) :
  slice s lo hi = Ret r -> len r = (hi - lo)%nat.
Proof.
  intros H. apply slice_inv in H as (H1 & H2 & ->). apply len_substring. lia.
Qed.

Section EpochMore.

Context {RT : Runtime}.

Lemma NextEpoch_loop_skip (pre rest : list string) (dec : ObsDecoder) :
  Forall notEpochLine pre ->
  NextEpoch_loop (pre ++ rest) dec = NextEpoch_loop rest (scanLines pre rest dec).
Proof.
  intros H. revert dec. induction H as [|l pre Hl _ IH]; intros dec; [done|].
  cbn [app NextEpoch_loop scanLines].
  destruct Hl as [Hl|Hl].
  - rewrite Hl. cbn [Nat.ltb Nat.leb]. apply IH.
  - rewrite Hl. cbn [negb]. destruct (_ <? _)%nat; apply IH.
Qed.

(** X4.  [NextEpoch] passes over empty lines and lines that do not begin
    with "> ": its result is the one it gives once the scanner has
    delivered them, the line counter advanced by their number. *)
Theorem NextEpoch_skips (pre rest : list string) (dec : ObsDecoder) :
  pending (sc dec) = pre ++ rest ->
  Forall notEpochLine pre ->
  NextEpoch dec = NextEpoch (scanLines pre rest dec) /\
  pending (sc (scanLines pre rest dec)) = rest /\
  lineNum (scanLines pre rest dec) = (lineNum dec + length pre)%nat.
Proof.
  intros Hp Hf. unfold NextEpoch at 1 2. rewrite pending_scanLines by done.
  rewrite Hp. split; [by apply NextEpoch_loop_skip|].
  split; [done|apply lineNum_scanLines].
Qed.

(** X5.  When no line that is left begins with "> ", [NextEpoch] returns
    false with the input used up and every line counted; the epoch held
    stays; the error field stays too when the reader ended cleanly, and
    otherwise takes the scanner error, unless it holds an error other
    than [io.EOF] already. *)
Theorem NextEpoch_end_of_input (dec : ObsDecoder) :
  Forall notEpochLine (pending (sc dec)) ->
  exists dec' : ObsDecoder,
    NextEpoch dec = Ret (false, dec') /\
    pending (sc dec') = [] /\
    lineNum dec' = (lineNum dec + length (pending (sc dec)))%nat /\
    epo dec' = epo dec /\
    err dec' = match rdErr (sc dec) with
               | Some e => match err dec with
                           | None | Some EOF => Some (ErrScanner e)
                           | Some x => Some x
                           end
               | None => err dec
               end.
Proof.
  intros Hf. unfold NextEpoch.
  pose proof (NextEpoch_loop_skip (pending (sc dec)) [] dec Hf) as Hs.
  rewrite app_nil_r in Hs. rewrite Hs. cbn [NextEpoch_loop].
  cbn [sc set_sc scErr scanEnd].
  destruct (scErr_scanLines (pending (sc dec)) [] dec) as [_ Hr]. rewrite Hr.
  pose proof (lineNum_scanLines (pending (sc dec)) [] dec) as Hl.
  pose proof (epo_scanLines (pending (sc dec)) [] dec) as He.
  pose proof (err_scanLines (pending (sc dec)) [] dec) as Hx.
  destruct (rdErr (sc dec)) as [e|]; eexists; (split; [reflexivity|]).
  - unfold setErr. cbn [err set_sc]. rewrite Hx.
    destruct (err dec) as [[]|]; cbn; rewrite ?Hx; done.
  - cbn. done.
Qed.

Lemma satLoop_frame (n : nat) :
  forall (dec dec' : ObsDecoder),
    satLoop n dec = Ret (true, dec') ->
    exists sats : list string,
      pending (sc dec) = sats ++ pending (sc dec') /\ length sats = n /\
      lineNum dec' = (lineNum dec + n)%nat /\
      err dec' = err dec /\ syncEpo dec' = syncEpo dec /\
      rdErr (sc dec') = rdErr (sc dec) /\ Header dec' = Header dec.
Proof.
  induction n as [|n IH]; intros dec dec' H; cbn [satLoop] in H.
  - inversion H; subst. exists []. cbn. repeat split; auto.
  - destruct (scErr _); [discriminate|].
    apply bind_Ret in H as (c & Ec & H).
    assert (Hp : exists l rest, pending (sc dec) = l :: rest /\
              snd (Scan (sc dec)) = scanned l rest (sc dec)).
    { unfold Scan in *. destruct (pending (sc dec)) as [|l rest]; [|eauto].
      cbn in Ec. discriminate. }
    destruct Hp as (l & rest & Hp & Hscan). rewrite Hscan in *.
    assert (Hgo : forall d,
      lineNum d = S (lineNum dec) -> pending (sc d) = rest ->
      err d = err dec -> syncEpo d = syncEpo dec -> rdErr (sc d) = rdErr (sc dec) ->
      Header d = Header dec ->
      satLoop n d = Ret (true, dec') ->
      exists sats : list string,
        pending (sc dec) = sats ++ pending (sc dec') /\ length sats = S n /\
        lineNum dec' = (lineNum dec + S n)%nat /\
        err dec' = err dec /\ syncEpo dec' = syncEpo dec /\
        rdErr (sc dec') = rdErr (sc dec) /\ Header dec' = Header dec).
    { intros d H1 H2 H3 H4 H5 H6 Hd.
      apply IH in Hd as (sats & G1 & G2 & G3 & G4 & G5 & G6 & G7).
      exists (l :: sats). rewrite Hp. cbn [app length]. rewrite <- G1, H2.
      repeat split; try congruence. lia. }
    destruct (sysPerAbbr c) as [sys|]; [|discriminate].
    apply bind_Ret in H as (ns & Ens & H).
    destruct (Atoi ns) as [snum|]; [|discriminate].
    destruct (newPRN sys (int8 snum)) as [prn|]; [|discriminate].
    apply bind_Ret in H as (r & Er & H).
    destruct (String.eqb (TrimSpace r) "").
    { apply Hgo in H; done. }
    apply bind_Ret in H as (o & Eo & H).
    destruct o as [er|obsPerTyp]; [discriminate|].
    apply bind_Ret in H as (d1 & Ed & H).
    unfold appendObs in Ed. destruct (epo _); [|discriminate].
    inversion Ed; subst d1; clear Ed.
    apply Hgo in H; done.
Qed.

Lemma NextEpoch_loop_frame (pend : list string) :
  forall (dec dec' : ObsDecoder),
    NextEpoch_loop pend dec = Ret (true, dec') ->
    exists consumed : list string,
      pend = consumed ++ pending (sc dec') /\ consumed <> [] /\
      lineNum dec' = (lineNum dec + length consumed)%nat /\
      Header dec' = Header dec /\ err dec' = err dec /\
      syncEpo dec' = syncEpo dec /\ rdErr (sc dec') = rdErr (sc dec).
Proof.
  induction pend as [|line rest IH]; intros dec dec' H; cbn [NextEpoch_loop] in H.
  - destruct (scErr _); discriminate.
  - assert (Hgo :
      NextEpoch_loop rest
        (set_lineNum (S (lineNum dec)) (set_sc (scanned line rest (sc dec)) dec)) =
        Ret (true, dec') ->
      exists consumed : list string,
        line :: rest = consumed ++ pending (sc dec') /\ consumed <> [] /\
        lineNum dec' = (lineNum dec + length consumed)%nat /\
        Header dec' = Header dec /\ err dec' = err dec /\
        syncEpo dec' = syncEpo dec /\ rdErr (sc dec') = rdErr (sc dec)).
    { intros Hd. apply IH in Hd as (c & G1 & _ & G3 & G4 & G5 & G6 & G7).
      cbn in G3, G4, G5, G6, G7.
      exists (line :: c). cbn [app length]. rewrite <- G1.
      repeat split; try done. lia. }
    destruct (len line <? 1)%nat; [auto|].
    destruct (negb _); [auto|]. clear Hgo.
    apply bind_Ret in H as (ts & Ets & H).
    destruct (time_Parse _ _) as [epTime|]; [|discriminate].
    apply bind_Ret in H as (fs & Efs & H).
    destruct (Atoi fs) as [epochFlag|]; [|discriminate].
    apply bind_Ret in H as (ns & Ens & H).
    destruct (Atoi (TrimSpace ns)) as [numSat|]; [|discriminate].
    destruct (numSat <? 0)%Z; [discriminate|].
    apply satLoop_frame in H as (sats & G1 & G2 & G3 & G4 & G5 & G6 & G7).
    cbn in G1, G3, G4, G5, G6, G7.
    exists (line :: sats). cbn [app length]. rewrite <- G1.
    repeat split; try done. lia.
Qed.

(** X6.  A call of [NextEpoch] that returns true has taken one line or
    more from the scanner and counted each of them; it has changed
    neither the header nor the error field nor the epoch of the other
    stream. *)
Theorem NextEpoch_consumes (dec dec' : ObsDecoder) :
  NextEpoch dec = Ret (true, dec') ->
  exists consumed : list string,
    pending (sc dec) = consumed ++ pending (sc dec') /\ consumed <> [] /\
    lineNum dec' = (lineNum dec + length consumed)%nat /\
    Header dec' = Header dec /\ err dec' = err dec /\
    syncEpo dec' = syncEpo dec.
Proof.
  unfold NextEpoch. intros H.
  apply NextEpoch_loop_frame in H as (c & H1 & H2 & H3 & H4 & H5 & H6 & _).
  exists c. done.
Qed.

Lemma obsLoop_keys (typs : list string) :
  forall (line : string) (ln col : nat) (m m' : gmap string Obs),
    obsLoop typs line ln col m = Ret (inr m') ->
    (exists j : nat,
       (j <= length typs)%nat /\ (typs <> [] -> (1 <= j)%nat) /\
       forall k, is_Some (m' !! k) <-> is_Some (m !! k) \/ In k (firstn j typs)) /\
    (forall k o, m' !! k = Some o ->
       m !! k = Some o \/ ((0 <= LLI o <= 9)%Z /\ (0 <= SNR o <= 9)%Z)).
Proof.
  induction typs as [|typ typs IH]; intros line ln col m m' H; cbn [obsLoop] in H.
  - inversion H; subst. split; [|auto]. exists 0%nat. cbn. split; [lia|].
    split; [done|]. intros k. tauto.
  - assert (Hins : forall (o : Obs),
      (0 <= LLI o <= 9)%Z /\ (0 <= SNR o <= 9)%Z ->
      (exists j : nat,
         (j <= length (typ :: typs))%nat /\ (typ :: typs <> [] -> (1 <= j)%nat) /\
         forall k, is_Some (<[typ:=o]> m !! k) <->
                   is_Some (m !! k) \/ In k (firstn j (typ :: typs))) /\
      (forall k o', <[typ:=o]> m !! k = Some o' ->
         m !! k = Some o' \/ ((0 <= LLI o' <= 9)%Z /\ (0 <= SNR o' <= 9)%Z))).
    { intros o Ho. split.
      - exists 1%nat. cbn. split; [lia|]. split; [lia|]. intros k.
        destruct (decide (typ = k)) as [->|Hne].
        + rewrite lookup_insert_eq. split; [auto|]. intros _. by eexists.
        + rewrite lookup_insert_ne by done.
          split; [auto|intros [?|[?|[]]]; [done|contradiction]].
      - intros k o'. destruct (decide (typ = k)) as [->|Hne].
        + rewrite lookup_insert_eq. intros [= <-]. auto.
        + rewrite lookup_insert_ne by done. auto. }
    destruct (len line <? col + 14)%nat; [discriminate|].
    apply bind_Ret in H as (f & Ef & H).
    destruct (if String.eqb (TrimSpace f) "" then Some 0%float
              else ParseFloat (TrimSpace f) 64) as [val|]; [|discriminate].
    destruct (len line <? col + 14 + 1)%nat.
    { inversion H; subst. apply Hins. cbn. lia. }
    apply bind_Ret in H as (fl & Efl & H).
    destruct (parseFlag fl) as [lli|] eqn:Hl; [|discriminate].
    apply slice_len in Efl. apply parseFlag_char in Hl; [|lia].
    destruct (len line <? S (col + 14) + 1)%nat.
    { inversion H; subst. apply Hins. cbn. rewrite int8_small by done. lia. }
    apply bind_Ret in H as (fs & Efs & H).
    destruct (parseFlag fs) as [snr|] eqn:Hs; [|discriminate].
    apply slice_len in Efs. apply parseFlag_char in Hs; [|lia].
    apply IH in H as [(j & Hj & _ & Hk) Hv]. split.
    + exists (S j). cbn [length firstn]. split; [lia|]. split; [lia|]. intros k.
      rewrite Hk. cbn [In]. destruct (decide (typ = k)) as [->|Hne].
      * rewrite lookup_insert_eq. split; [auto|]. intros _. left. by eexists.
      * rewrite lookup_insert_ne by done.
        split; [intros [?|?]; auto|intros [?|[?|?]]; [auto|contradiction|auto]].
    + intros k o Hko. apply Hv in Hko as [Hko|Hko]; [|auto].
      destruct (decide (typ = k)) as [->|Hne].
      * rewrite lookup_insert_eq in Hko. inversion Hko; subst. cbn.
        rewrite !int8_small by done. auto.
      * rewrite lookup_insert_ne in Hko by done. auto.
Qed.

(** The satellite loop appends records that are [wellRead] and leaves
    the header and the head of the epoch as they are. *)
Lemma satLoop_wellRead (n : nat) :
  forall (dec dec' : ObsDecoder) (e : Epoch),
    satLoop n dec = Ret (true, dec') -> epo dec = Some e ->
    Header dec' = Header dec /\
    exists (e' : Epoch) (news : list SatObs),
      epo dec' = Some e' /\ Flag e' = Flag e /\ NumSat e' = NumSat e /\
      Time e' = Time e /\
      ObsList e' = ObsList e ++ news /\ Forall (wellRead (Header dec)) news.
Proof.
  induction n as [|n IH]; intros dec dec' e H He; cbn [satLoop] in H.
  - inversion H; subst. split; [done|]. exists e, []. rewrite app_nil_r.
    repeat split; auto.
  - destruct (scErr _); [discriminate|].
    apply bind_Ret in H as (c & Ec & H).
    destruct (sysPerAbbr c) as [sys|]; [|discriminate].
    apply bind_Ret in H as (ns & Ens & H).
    destruct (Atoi ns) as [snum|]; [|discriminate].
    destruct (newPRN sys (int8 snum)) as [prn|] eqn:Hprn; [|discriminate].
    apply bind_Ret in H as (r & Er & H).
    destruct (String.eqb (TrimSpace r) "").
    { apply (IH _ _ e) in H; [|exact He]. exact H. }
    apply bind_Ret in H as (o & Eo & H).
    destruct o as [er|obsPerTyp]; [discriminate|].
    apply bind_Ret in H as (d1 & Ed & H).
    unfold appendObs in Ed. cbn [epo set_lineNum set_sc] in Ed.
    rewrite He in Ed. inversion Ed; subst d1; clear Ed.
    eapply IH in H; [|reflexivity].
    destruct H as (Hh & e' & news & H1 & H2 & H3 & H4 & H5 & H6).
    cbn [Header set_epo set_lineNum set_sc] in Hh, H6. split; [done|].
    cbn [Flag NumSat Time ObsList] in H2, H3, H4, H5.
    exists e', ({| Prn := prn; Obss := obsPerTyp |} :: news).
    split; [done|]. split; [done|]. split; [done|]. split; [done|].
    split; [by rewrite H5, <- app_assoc|].
    constructor; [|done].
    unfold newPRN in Hprn.
    destruct ((int8 snum <? 1) || (60 <? int8 snum))%Z eqn:Hr; [discriminate|].
    inversion Hprn; subst prn; clear Hprn.
    apply orb_false_iff in Hr as [Hr1 Hr2].
    apply Z.ltb_ge in Hr1, Hr2.
    cbn [Header set_lineNum set_sc] in Eo.
    apply obsLoop_keys in Eo as [(j & Hj & _ & Hk) Hv].
    unfold wellRead. cbn [Prn Obss Num Sys]. split; [lia|]. split.
    + exists j. split; [done|]. intros k. rewrite Hk, lookup_empty.
      split; [intros [[? ?]|?]; [discriminate|done]|auto].
    + intros k o Hko. apply Hv in Hko as [Hko|Hko]; [|done].
      by rewrite lookup_empty in Hko.
Qed.

(** The loop of [NextEpoch], when it ends well. *)
Lemma NextEpoch_loop_wellRead (pend : list string) :
  forall (dec dec' : ObsDecoder),
    NextEpoch_loop pend dec = Ret (true, dec') ->
    Header dec' = Header dec /\
    exists e : Epoch,
      epo dec' = Some e /\ (0 <= Flag e <= 9)%Z /\ (0 <= NumSat e <= 255)%Z /\
      Forall (wellRead (Header dec)) (ObsList e).
Proof.
  induction pend as [|line rest IH]; intros dec dec' H; cbn [NextEpoch_loop] in H.
  - destruct (scErr _); discriminate.
  - destruct (len line <? 1)%nat; [apply IH in H; exact H|].
    destruct (negb _); [apply IH in H; exact H|].
    apply bind_Ret in H as (ts & Ets & H).
    destruct (time_Parse _ _) as [epTime|]; [|discriminate].
    apply bind_Ret in H as (fs & Efs & H).
    destruct (Atoi fs) as [epochFlag|] eqn:Hf; [|discriminate].
    apply bind_Ret in H as (ns & Ens & H).
    destruct (Atoi (TrimSpace ns)) as [numSat|]; [|discriminate].
    destruct (numSat <? 0)%Z; [discriminate|].
    eapply satLoop_wellRead in H; [|reflexivity].
    destruct H as (Hh & e' & news & H1 & H2 & H3 & H4 & H5 & H6).
    cbn in Hh, H2, H3, H5, H6. split; [done|]. exists e'.
    split; [done|]. rewrite H2, H3, H5.
    apply slice_len in Efs. apply Atoi_char in Hf; [|done].
    rewrite int8_small by done. split; [done|]. split; [|done].
    unfold uint8. pose proof (Z.mod_pos_bound numSat 256). lia.
Qed.

(** X7.  Every satellite of an epoch [NextEpoch] has read has a number
    from 1 to 60: a two-digit field outside this range ends the call
    with an error. *)
Theorem NextEpoch_prn_range (dec dec' : ObsDecoder) (e : Epoch) :
  NextEpoch dec = Ret (true, dec') -> epo dec' = Some e ->
  Forall (fun so => (1 <= Num (Prn so) <= 60)%Z) (ObsList e).
Proof.
  intros H He. unfold NextEpoch in H. apply NextEpoch_loop_wellRead in H.
  destruct H as (_ & e0 & He0 & _ & _ & Hw). rewrite He in He0. inversion He0; subst e0.
  eapply Forall_impl; [exact Hw|]. intros so Hso. apply Hso.
Qed.

(** X8.  The observations [NextEpoch] has read for a satellite are keyed
    by the first [j] observation types the header declares for the
    system of that satellite, for some [j]: no other key occurs, and no
    declared type is left out before one that is present. *)
Theorem NextEpoch_obs_types (dec dec' : ObsDecoder) (e : Epoch) :
  NextEpoch dec = Ret (true, dec') -> epo dec' = Some e ->
  Header dec' = Header dec /\
  Forall (fun so =>
            exists j : nat,
              (j <= length (default [] (ObsTypes (Header dec) !! Sys (Prn so))))%nat /\
              forall k : string,
                is_Some (Obss so !! k) <->
                In k (firstn j (default [] (ObsTypes (Header dec) !! Sys (Prn so)))))
    (ObsList e).
Proof.
  intros H He. unfold NextEpoch in H. apply NextEpoch_loop_wellRead in H.
  destruct H as (Hh & e0 & He0 & _ & _ & Hw). rewrite He in He0. inversion He0; subst e0.
  split; [done|]. eapply Forall_impl; [exact Hw|]. intros so Hso. apply Hso.
Qed.

(** X9.  In an epoch [NextEpoch] has read the epoch flag, the
    loss-of-lock indicators and the signal strengths are from 0 to 9,
    each read from one column, and the satellite count is from 0 to
    255. *)
Theorem NextEpoch_flag_ranges (dec dec' : ObsDecoder) (e : Epoch) :
  NextEpoch dec = Ret (true, dec') -> epo dec' = Some e ->
  (0 <= Flag e <= 9)%Z /\ (0 <= NumSat e <= 255)%Z /\
  Forall (fun so => forall (k : string) (o : Obs),
            Obss so !! k = Some o -> (0 <= LLI o <= 9)%Z /\ (0 <= SNR o <= 9)%Z)
    (ObsList e).
Proof.
  intros H He. unfold NextEpoch in H. apply NextEpoch_loop_wellRead in H.
  destruct H as (_ & e0 & He0 & Hf & Hn & Hw). rewrite He in He0. inversion He0; subst e0.
  split; [done|]. split; [done|].
  eapply Forall_impl; [exact Hw|]. intros so Hso. apply Hso.
Qed.

End EpochMore.

(** The first epoch of a file, with the decoder before and after it. *)
Ltac first_epoch lines tac :=
  let r := eval vm_compute in (Sample.decoderOf lines) in
  lazymatch r with
  | Ret ?dec =>
      let r2 := eval vm_compute in (NextEpoch dec) in
      lazymatch r2 with
      | Ret (true, ?dec') =>
          let oe := eval vm_compute in (epo dec') in
          lazymatch oe with
          | Some ?e =>
              assert (H0 : Sample.decoderOf lines = Ret dec) by (vm_compute; reflexivity);
              assert (H1 : NextEpoch dec = Ret (true, dec')) by (vm_compute; reflexivity);
              assert (H2 : epo dec' = Some e) by reflexivity;
              tac dec dec' e
          end
      end
  end.

Lemma NextEpoch_skips_witness :
  NextEpoch (Sample.newDecoder (Inputs.noise ++ [Inputs.epochLine])) =
    NextEpoch (scanLines Inputs.noise [Inputs.epochLine]
                 (Sample.newDecoder (Inputs.noise ++ [Inputs.epochLine]))) /\
  pending (sc (scanLines Inputs.noise [Inputs.epochLine]
                 (Sample.newDecoder (Inputs.noise ++ [Inputs.epochLine])))) =
    [Inputs.epochLine] /\
  lineNum (scanLines Inputs.noise [Inputs.epochLine]
             (Sample.newDecoder (Inputs.noise ++ [Inputs.epochLine]))) = 2.
Proof.
  apply (NextEpoch_skips Inputs.noise [Inputs.epochLine]
           (Sample.newDecoder (Inputs.noise ++ [Inputs.epochLine]))).
  - reflexivity.
  - constructor; [left; reflexivity|].
    constructor; [right; reflexivity|constructor].
Defined.

Lemma NextEpoch_end_of_input_witness :
  exists dec' : ObsDecoder,
    NextEpoch (Sample.newDecoder Inputs.noise) = Ret (false, dec') /\
    pending (sc dec') = [] /\
    lineNum dec' = 2 /\
    epo dec' = None /\
    err dec' = None.
Proof.
  apply (NextEpoch_end_of_input (Sample.newDecoder Inputs.noise)).
  constructor; [left; reflexivity|].
  constructor; [right; reflexivity|constructor].
Defined.

Lemma NextEpoch_consumes_witness :
  exists (dec dec' : ObsDecoder) (consumed : list string),
    Sample.decoderOf Inputs.file1 = Ret dec /\
    pending (sc dec) = consumed ++ pending (sc dec') /\ consumed <> [] /\
    lineNum dec' = (lineNum dec + length consumed)%nat /\
    Header dec' = Header dec /\ err dec' = err dec /\
    syncEpo dec' = syncEpo dec.
Proof.
  first_epoch Inputs.file1 ltac:(fun dec dec' e =>
    destruct (NextEpoch_consumes dec dec' H1) as (c & Hc);
    exists dec, dec', c; split; [exact H0|exact Hc]).
Defined.

Lemma NextEpoch_prn_range_witness :
  exists (dec dec' : ObsDecoder) (e : Epoch),
    Sample.decoderOf Inputs.file2 = Ret dec /\
    NextEpoch dec = Ret (true, dec') /\ epo dec' = Some e /\
    Forall (fun so => (1 <= Num (Prn so) <= 60)%Z) (ObsList e).
Proof.
  first_epoch Inputs.file2 ltac:(fun dec dec' e =>
    exists dec, dec', e;
    split; [exact H0|]; split; [exact H1|]; split; [exact H2|];
    exact (NextEpoch_prn_range dec dec' e H1 H2)).
Defined.

Lemma NextEpoch_obs_types_witness :
  exists (dec dec' : ObsDecoder) (e : Epoch),
    Sample.decoderOf Inputs.file1 = Ret dec /\
    NextEpoch dec = Ret (true, dec') /\ epo dec' = Some e /\
    Header dec' = Header dec /\
    Forall (fun so =>
              exists j : nat,
                (j <= length (default [] (ObsTypes (Header dec) !! Sys (Prn so))))%nat /\
                forall k : string,
                  is_Some (Obss so !! k) <->
                  In k (firstn j (default [] (ObsTypes (Header dec) !! Sys (Prn so)))))
      (ObsList e).
Proof.
  first_epoch Inputs.file1 ltac:(fun dec dec' e =>
    exists dec, dec', e;
    split; [exact H0|]; split; [exact H1|]; split; [exact H2|];
    exact (NextEpoch_obs_types dec dec' e H1 H2)).
Defined.

Lemma NextEpoch_flag_ranges_witness :
  exists (dec dec' : ObsDecoder) (e : Epoch),
    Sample.decoderOf Inputs.file2 = Ret dec /\
    NextEpoch dec = Ret (true, dec') /\ epo dec' = Some e /\
    (0 <= Flag e <= 9)%Z /\ (0 <= NumSat e <= 255)%Z /\
    Forall (fun so => forall (k : string) (o : Obs),
              Obss so !! k = Some o -> (0 <= LLI o <= 9)%Z /\ (0 <= SNR o <= 9)%Z)
      (ObsList e).
Proof.
  first_epoch Inputs.file2 ltac:(fun dec dec' e =>
    exists dec, dec', e;
    split; [exact H0|]; split; [exact H1|]; split; [exact H2|];
    exact (NextEpoch_flag_ranges dec dec' e H1 H2)).
Defined.

(** ** What [sync] and [Stat] return *)

Lemma last_cons {A} (l : list A) (x d : A) : List.last (x :: l) d = List.last l x.
Proof.
  revert x d. induction l as [|y l IH]; intros x d; [done|].
  change (List.last (x :: y :: l) d) with (List.last (y :: l) d). by rewrite !IH.
Qed.

Section SyncMore.

Context {RT : Runtime}.

Lemma sync_inner_found (fuel : nat) :
  forall (dec2 d2 : ObsDecoder) (f1 f2 f2' : option Epoch),
    sync_inner fuel dec2 f1 f2 = Ret (InnerFound, d2, f2') ->
    exists e1 e2, f1 = Some e1 /\ f2' = Some e2 /\ epo d2 = Some e2 /\
                  Time e2 = Time e1.
Proof.
  induction fuel as [|fuel IH]; intros dec2 d2 f1 f2 f2' H; [discriminate|].
  cbn [sync_inner] in H.
  apply bind_Ret in H as ([b d] & Hn & H).
  destruct b; [|discriminate].
  apply bind_Ret in H as (e2 & He2 & H).
  apply bind_Ret in H as (e1 & He1 & H).
  unfold Epoch_ in *.
  destruct (epo d) as [x|] eqn:Hx; [|discriminate]. inversion He2; subst x.
  destruct f1 as [y|]; [|discriminate]. inversion He1; subst y.
  unfold time_Equal, time_After in H.
  destruct (Z.eqb_spec (Time e2) (Time e1)).
  - inversion H; subst. eauto 10.
  - destruct (_ <? _)%Z; [discriminate|]. by apply IH in H.
Qed.

Lemma sync_loop_found (fuel : nat) :
  forall (dec dec2 d d2 : ObsDecoder) (f2 : option Epoch),
    sync_loop fuel dec dec2 f2 = Ret (true, d, d2) ->
    exists e1 e2, epo d = Some e1 /\ syncEpo d = Some e2 /\ Time e1 = Time e2 /\
                  (length (pending (sc d)) < length (pending (sc dec)))%nat.
Proof.
  induction fuel as [|fuel IH]; intros dec dec2 d d2 f2 H; [discriminate|].
  cbn [sync_loop] in H.
  apply bind_Ret in H as ([b d1] & Hn & H).
  destruct b; [|unfold sync_end in H; destruct (Err dec2); discriminate].
  unfold NextEpoch in Hn. apply NextEpoch_loop_shorter in Hn.
  apply bind_Ret in H as (t & Ht & H).
  unfold sync_test, Epoch_ in Ht.
  destruct t.
  - destruct f2 as [e2|]; [|discriminate].
    apply bind_Ret in Ht as (e1 & He1 & Ht).
    destruct (epo d1) as [x|] eqn:Hx; [|discriminate]. inversion He1; subst x.
    unfold time_Equal in Ht. destruct (Z.eqb_spec (Time e1) (Time e2)).
    + inversion H; subst. exists e1, e2. cbn. done.
    + destruct (time_After _ _); discriminate.
  - apply IH in H as (e1 & e2 & ? & ? & ? & ?). exists e1, e2.
    repeat split; try done. lia.
  - apply bind_Ret in H as ([[i d2'] f2'] & Hi & H).
    destruct i.
    + inversion H; subst. apply sync_inner_found in Hi as (e1 & e2 & H1 & H2 & _ & Ht').
      unfold Epoch_ in H1. exists e1, e2. cbn. done.
    + apply IH in H as (e1 & e2 & ? & ? & ? & ?). exists e1, e2.
      repeat split; try done. lia.
    + apply IH in H as (e1 & e2 & ? & ? & ? & ?). exists e1, e2.
      repeat split; try done. lia.
Qed.

(** X10.  When [sync] returns true, [SyncEpoch] gives two epochs, none
    nil, of equal time, whatever the order of the epochs in the two
    streams; and the first decoder has taken at least one line. *)
Theorem sync_equal_times (dec dec2 d d2 : ObsDecoder) :
  sync dec dec2 = Ret (true, d, d2) ->
  exists e1 e2 : Epoch,
    SyncEpoch d = {| Epo1 := Some e1; Epo2 := Some e2 |} /\
    Time e1 = Time e2 /\
    (length (pending (sc d)) < length (pending (sc dec)))%nat.
Proof.
  unfold sync. intros H. apply sync_loop_found in H as (e1 & e2 & H1 & H2 & Ht & Hl).
  exists e1, e2. unfold SyncEpoch. rewrite H1, H2. done.
Qed.

Lemma sync_loop_false (fuel : nat) :
  forall (dec dec2 d d2 : ObsDecoder) (f2 : option Epoch),
    sync_loop fuel dec dec2 f2 = Ret (false, d, d2) ->
    exists d0 d1, NextEpoch d0 = Ret (false, d1) /\ (false, d, d2) = sync_end d1 d2.
Proof.
  induction fuel as [|fuel IH]; intros dec dec2 d d2 f2 H; [discriminate|].
  cbn [sync_loop] in H.
  apply bind_Ret in H as ([b d1] & Hn & H).
  destruct b.
  - apply bind_Ret in H as (t & Ht & H).
    destruct t; [discriminate|by apply IH in H|].
    apply bind_Ret in H as ([[i d2'] f2'] & Hi & H).
    destruct i; [discriminate|by apply IH in H|by apply IH in H].
  - exists dec, d1. split; [done|]. unfold sync_end in *.
    destruct (Err dec2) eqn:E; inversion H; subst; by rewrite E.
Qed.

Lemma Err_setErr (e : error) (dec : ObsDecoder) :
  e <> EOF -> Err (setErr e dec) <> None.
Proof.
  intros He. unfold Err, setErr.
  destruct (err dec) as [x|] eqn:E.
  - destruct x; cbn [err set_err]; rewrite ?E; try discriminate;
      destruct e; try discriminate; contradiction.
  - cbn [err set_err]. destruct e; try discriminate; contradiction.
Qed.

(** X11.  When [sync] returns false and the second decoder reports an
    error, the first decoder reports an error too, so that the caller,
    who asks the first decoder only, sees it.  When [sync] returns false
    and the first decoder holds no error, its input is used up and the
    second decoder reports none. *)
Theorem sync_false (dec dec2 d d2 : ObsDecoder) :
  sync dec dec2 = Ret (false, d, d2) ->
  (Err d2 <> None -> Err d <> None) /\
  (err d = None -> pending (sc d) = [] /\ Err d2 = None).
Proof.
  unfold sync. intros H. apply sync_loop_false in H as (d0 & d1 & Hn & He).
  unfold sync_end in He. destruct (Err d2) as [e|] eqn:E.
  - inversion He; subst. split.
    + intros _. by apply Err_setErr.
    + intros Hx. by apply setErr_not_None in Hx.
  - inversion He; subst. split; [done|]. intros Hx.
    unfold NextEpoch in Hn. apply NextEpoch_loop_false in Hn as (Hp & _); done.
Qed.

Lemma Diff_loop_fuel (fuel : nat) :
  forall dec dec2 : ObsDecoder,
    (length (pending (sc dec)) < fuel)%nat -> Diff_loop fuel dec dec2 <> OutOfFuel.
Proof.
  induction fuel as [|fuel IH]; intros dec dec2 Hf; [lia|].
  cbn [Diff_loop]. pose proof (sync_terminates dec dec2) as Hn.
  destruct (sync dec dec2) as [[[[] d] d2]| |] eqn:E; cbn [bind];
    [|discriminate|discriminate|contradiction].
  unfold sync in E. apply sync_loop_found in E as (e1 & e2 & _ & _ & _ & Hl).
  apply bind_fuel; [apply IH; lia|]. intros [[l a] b]. discriminate.
Qed.

Lemma Stat_loop_yields (es : list Epoch) :
  forall (fuel : nat) (dec : ObsDecoder) (v : statVars),
    Yields dec es -> (length es < fuel)%nat -> (0 <= numOfEpochs v)%Z ->
    exists (d : ObsDecoder) (v' : statVars),
      Stat_loop fuel dec v = Ret (d, v') /\ err d = None /\
      numOfEpochs v' = (numOfEpochs v + Z.of_nat (length es))%Z /\
      epoPrev v' = List.last (map Some es) (epoPrev v) /\
      NumEpochs (stat v') = NumEpochs (stat v) /\
      Sampling (stat v') = Sampling (stat v) /\
      StatTimeOfFirstObs (stat v') =
        match es with
        | e :: _ => if (numOfEpochs v =? 0)%Z then Time e
                    else StatTimeOfFirstObs (stat v)
        | [] => StatTimeOfFirstObs (stat v)
        end.
Proof.
  induction es as [|e es IH]; intros fuel dec v Hy Hf Hv.
  - apply Yields_inv_nil in Hy as (d & Hn & He).
    destruct fuel as [|fuel]; [cbn in Hf; lia|].
    cbn [Stat_loop]. rewrite Hn. cbn [bind]. exists d, v.
    cbn [length map List.last]. repeat split; try done. lia.
  - apply Yields_inv_cons in Hy as (d & Hn & He & Hy).
    destruct fuel as [|fuel]; [cbn in Hf; lia|].
    cbn [Stat_loop]. rewrite Hn. cbn [bind]. unfold Epoch_. rewrite He.
    cbn [deref bind].
    edestruct (IH fuel d) as (d' & v' & -> & Hd & H1 & H2 & H3 & H4 & H5);
      [exact Hy|cbn [length] in Hf; lia| |].
    { cbn [numOfEpochs]. lia. }
    cbn [numOfEpochs epoPrev stat] in H1, H2, H3, H4, H5.
    exists d', v'. split; [done|]. split; [done|].
    split; [rewrite H1; cbn [length]; lia|].
    split.
    { rewrite H2. cbn [map]. by rewrite last_cons. }
    destruct (Z.eqb_spec (numOfEpochs v) 0) as [Hz|Hz].
    + rewrite Hz in *. cbn [Z.add Z.eqb Pos.eqb] in H3, H4, H5.
      cbn [NumEpochs Sampling StatTimeOfFirstObs] in H3, H4, H5.
      split; [done|]. split; [done|]. rewrite H5. by destruct es.
    + destruct (Z.eqb_spec (numOfEpochs v + 1) 1) as [Hz'|Hz']; [lia|].
      split; [done|]. split; [done|]. rewrite H5.
      destruct es; [done|].
      destruct (Z.eqb_spec (numOfEpochs v + 1) 0); [lia|done].
Qed.

(** X12.  For a file whose header reads without error and whose decoder
    yields the epochs [e :: es] and then ends cleanly, [Stat] returns
    no error, the number of epochs, the time of the first epoch and the
    time of the last one; the sampling field stays zero. *)
Theorem Stat_clean (lines : list string) (rerr : option error)
    (dec : ObsDecoder) (e : Epoch) (es : list Epoch) :
  NewObsDecoder lines rerr = Ret (dec, None) ->
  Yields dec (e :: es) ->
  Stat (inr (lines, rerr)) =
    Ret ({| NumEpochs := Z.of_nat (length (e :: es)); Sampling := 0;
            StatTimeOfFirstObs := Time e;
            StatTimeOfLastObs := Time (List.last es e) |}, None).
Proof.
  intros Hd Hy. unfold Stat. rewrite Hd. cbn [bind].
  pose proof (Yields_length _ _ Hy) as Hl.
  edestruct (Stat_loop_yields (e :: es) (S (length (pending (sc dec)))) dec
    {| numOfEpochs := 0; intervals := []; epoPrev := None; stat := zeroStat |})
    as (d & v & -> & He & H1 & H2 & H3 & H4 & H5); [exact Hy|lia|cbn; lia|].
  cbn [bind]. unfold Err. rewrite He.
  cbn [numOfEpochs epoPrev stat zeroStat NumEpochs Sampling StatTimeOfFirstObs Z.eqb] in *.
  rewrite H2.
  assert (Hlast : List.last (map Some (e :: es)) None = Some (List.last es e)).
  { clear. cbn [map]. rewrite last_cons. revert e.
    induction es as [|x es IH]; intros e; [done|].
    cbn [map]. rewrite !last_cons. apply IH. }
  rewrite Hlast. cbn [deref bind]. rewrite H1, H4, H5. reflexivity.
Qed.

Lemma Stat_loop_count (fuel : nat) :
  forall (dec d : ObsDecoder) (v v' : statVars),
    Stat_loop fuel dec v = Ret (d, v') ->
    (0 <= numOfEpochs v)%Z ->
    (epoPrev v <> None -> 1 <= numOfEpochs v)%Z ->
    (0 <= numOfEpochs v')%Z /\ (epoPrev v' <> None -> 1 <= numOfEpochs v')%Z.
Proof.
  induction fuel as [|fuel IH]; intros dec d v v' H H0 H1; [discriminate|].
  cbn [Stat_loop] in H.
  apply bind_Ret in H as ([b d1] & Hn & H).
  destruct b.
  - apply bind_Ret in H as (e & He & H).
    apply IH in H; [done|cbn; lia|cbn; lia].
  - inversion H; subst. done.
Qed.

(** X13.  [Stat] never returns statistics of no epoch without an error:
    when it returns no error, the file was opened and at least one epoch
    was read. *)
Theorem Stat_success (file : error + (list string * option error)) (st : ObsStat) :
  Stat file = Ret (st, None) ->
  (1 <= NumEpochs st)%Z /\ exists lines rerr, file = inr (lines, rerr).
Proof.
  unfold Stat. intros H. destruct file as [e|[lines rerr]]; [discriminate|].
  split; [|eauto].
  apply bind_Ret in H as ([dec [e|]] & Hd & H); [discriminate|].
  apply bind_Ret in H as ([d v] & Hl & H).
  destruct (Err d); [discriminate|].
  apply bind_Ret in H as (p & Hp & H).
  apply Stat_loop_count in Hl as [_ Hc]; [|cbn; lia|cbn; done].
  inversion H; subst. cbn [NumEpochs]. apply Hc.
  destruct (epoPrev v); [done|discriminate].
Qed.

Lemma Stat_loop_stat (fuel : nat) :
  forall (dec d : ObsDecoder) (v v' : statVars),
    Stat_loop fuel dec v = Ret (d, v') ->
    NumEpochs (stat v') = NumEpochs (stat v) /\
    Sampling (stat v') = Sampling (stat v) /\
    StatTimeOfLastObs (stat v') = StatTimeOfLastObs (stat v) /\
    (numOfEpochs v' = numOfEpochs v ->
     StatTimeOfFirstObs (stat v') = StatTimeOfFirstObs (stat v)) /\
    (numOfEpochs v <= numOfEpochs v')%Z.
Proof.
  induction fuel as [|fuel IH]; intros dec d v v' H; [discriminate|].
  cbn [Stat_loop] in H.
  apply bind_Ret in H as ([b d1] & Hn & H).
  destruct b.
  - apply bind_Ret in H as (e & He & H).
    apply IH in H as (H1 & H2 & H3 & H4 & H5).
    cbn [numOfEpochs stat] in H1, H2, H3, H4, H5.
    destruct (numOfEpochs v + 1 =? 1)%Z;
      cbn [NumEpochs Sampling StatTimeOfLastObs] in H1, H2, H3;
      (split; [done|]; split; [done|]; split; [done|]; split; [lia|lia]).
  - inversion H; subst. repeat split; done.
Qed.

(** X14.  When [Stat] returns an error, the statistics it returns hold
    no count: the number of epochs and the time of the last observation
    are assigned after the test of the error only, so they are zero
    however many epochs were read before the error. *)
Theorem Stat_error (file : error + (list string * option error)) (st : ObsStat)
    (e : error) :
  Stat file = Ret (st, Some e) ->
  NumEpochs st = 0%Z /\ Sampling st = 0%Z /\ StatTimeOfLastObs st = 0%Z.
Proof.
  unfold Stat. intros H. destruct file as [e0|[lines rerr]].
  { inversion H; subst. done. }
  apply bind_Ret in H as ([dec [x|]] & Hd & H).
  { inversion H; subst. done. }
  apply bind_Ret in H as ([d v] & Hl & H).
  apply Stat_loop_stat in Hl as (H1 & H2 & H3 & _).
  cbn [stat zeroStat NumEpochs Sampling StatTimeOfLastObs] in H1, H2, H3.
  destruct (Err d).
  - inversion H; subst. done.
  - apply bind_Ret in H as (p & _ & H). discriminate.
Qed.

End SyncMore.

Lemma sync_equal_times_witness :
  exists (dec dec2 d d2 : ObsDecoder) (e1 e2 : Epoch),
    Sample.decoderOf Sample.stream1 = Ret dec /\
    Sample.decoderOf Sample.stream2 = Ret dec2 /\
    sync dec dec2 = Ret (true, d, d2) /\
    SyncEpoch d = {| Epo1 := Some e1; Epo2 := Some e2 |} /\
    Time e1 = Time e2 /\
    (length (pending (sc d)) < length (pending (sc dec)))%nat.
Proof.
  let r1 := eval vm_compute in (Sample.decoderOf Sample.stream1) in
  let r2 := eval vm_compute in (Sample.decoderOf Sample.stream2) in
  lazymatch r1 with
  | Ret ?dec =>
      lazymatch r2 with
      | Ret ?dec2 =>
          let r := eval vm_compute in (sync dec dec2) in
          lazymatch r with
          | Ret (true, ?d, ?d2) =>
              assert (H : sync dec dec2 = Ret (true, d, d2)) by (vm_compute; reflexivity);
              destruct (sync_equal_times dec dec2 d d2 H) as (e1 & e2 & He);
              exists dec, dec2, d, d2, e1, e2;
              split; [vm_compute; reflexivity|];
              split; [vm_compute; reflexivity|];
              split; [exact H|exact He]
          end
      end
  end.
Defined.

Lemma sync_false_witness :
  exists dec dec2 d d2 : ObsDecoder,
    Sample.decoderOf Sample.stream1 = Ret dec /\
    Sample.decoderOf Inputs.badStream = Ret dec2 /\
    sync dec dec2 = Ret (false, d, d2) /\
    (Err d2 <> None -> Err d <> None) /\
    (err d = None -> pending (sc d) = [] /\ Err d2 = None).
Proof.
  let r1 := eval vm_compute in (Sample.decoderOf Sample.stream1) in
  let r2 := eval vm_compute in (Sample.decoderOf Inputs.badStream) in
  lazymatch r1 with
  | Ret ?dec =>
      lazymatch r2 with
      | Ret ?dec2 =>
          let r := eval vm_compute in (sync dec dec2) in
          lazymatch r with
          | Ret (false, ?d, ?d2) =>
              assert (H : sync dec dec2 = Ret (false, d, d2)) by (vm_compute; reflexivity);
              exists dec, dec2, d, d2;
              split; [vm_compute; reflexivity|];
              split; [vm_compute; reflexivity|];
              split; [exact H|exact (sync_false dec dec2 d d2 H)]
          end
      end
  end.
Defined.

Lemma Stat_clean_witness :
  Stat (inr (Sample.stream1, None)) =
    Ret ({| NumEpochs := 3; Sampling := 0;
            StatTimeOfFirstObs := 636771276000000000%Z;
            StatTimeOfLastObs := 636771276600000000%Z |}, None).
Proof.
  let r := eval vm_compute in (NewObsDecoder Sample.stream1 None) in
  lazymatch r with
  | Ret (?dec, None) =>
      assert (Hd : NewObsDecoder Sample.stream1 None = Ret (dec, None))
        by (vm_compute; reflexivity);
      assert (Hy : Yields dec Sample.epochs1)
        by (repeat (eapply Yields_next; [vm_compute; reflexivity|reflexivity|]);
            eapply Yields_end; [vm_compute; reflexivity|reflexivity]);
      exact (Stat_clean Sample.stream1 None dec _ _ Hd Hy)
  end.
Defined.

Lemma Stat_success_witness :
  exists st : ObsStat,
    Stat (inr (Sample.stream1, None)) = Ret (st, None) /\
    (1 <= NumEpochs st)%Z /\
    exists lines rerr,
      @inr error (list string * option error) (Sample.stream1, None) = inr (lines, rerr).
Proof.
  let r := eval vm_compute in (Stat (inr (Sample.stream1, None))) in
  lazymatch r with
  | Ret (?st, None) =>
      assert (H : Stat (inr (Sample.stream1, None)) = Ret (st, None))
        by (vm_compute; reflexivity);
      exists st; split; [exact H|exact (Stat_success _ st H)]
  end.
Defined.

Lemma Stat_error_witness :
  exists (st : ObsStat) (e : error),
    Stat (inr (Sample.stream1 ++ Sample.epochBadFlag, None)) = Ret (st, Some e) /\
    NumEpochs st = 0%Z /\ Sampling st = 0%Z /\ StatTimeOfLastObs st = 0%Z.
Proof.
  let r := eval vm_compute in (Stat (inr (Sample.stream1 ++ Sample.epochBadFlag, None))) in
  lazymatch r with
  | Ret (?st, Some ?e) =>
      assert (H : Stat (inr (Sample.stream1 ++ Sample.epochBadFlag, None)) = Ret (st, Some e))
        by (vm_compute; reflexivity);
      exists st, e; split; [exact H|exact (Stat_error _ st e H)]
  end.
Defined.

(** ** What the comparison reports *)

(** Equal values never exceed the tolerance: their difference is zero,
    or NaN for values that are no numbers. *)
Lemma exceeds_same (v : float) : exceeds v v = false.
Proof.
  unfold exceeds. rewrite ltb_spec, abs_spec, sub_spec.
  assert (Hd : Prim2SF deltaPhase = S754_finite false 5764607523034235 (-60)).
  { vm_compute. reflexivity. }
  rewrite Hd. destruct (Prim2SF v) as [s|s| |s m e]; cbn.
  - by destruct s.
  - by destruct s.
  - done.
  - unfold SF64sub, SFsub. rewrite Z.sub_diag. reflexivity.
Qed.

Lemma getDecimal_finite (v : float) :
  finiteVal v = true -> exists d, getDecimal v = Ret d.
Proof.
  unfold finiteVal, getDecimal. destruct (Prim2SF v) as [s|s| |s m e]; try discriminate.
  - eauto.
  - intros _. destruct (0 <=? e)%Z; [eauto|].
    destruct (Z.pos m mod 2 ^ (- e))%Z; eauto.
Qed.

Lemma diffObs_key_same (obs2 : SatObs) (k : string) (o1 o2 : Obs) :
  Obss obs2 !! k = Some o2 -> LLI o2 = LLI o1 -> Val o2 = Val o1 ->
  (HasPrefix k "L" = true -> finiteVal (Val o1) = true) ->
  diffObs_key obs2 k o1 = Ret [].
Proof.
  intros H2 Hl Hv Hf. unfold diffObs_key. rewrite H2, Hl, Hv, Z.eqb_refl.
  destruct (HasPrefix k "L").
  - destruct (getDecimal_finite (Val o1)) as [d ->]; [auto|]. cbn [bind].
    by rewrite exceeds_same.
  - cbn [bind]. by rewrite exceeds_same.
Qed.

Lemma diffObs_fold_nil (obs2 : SatObs) (kvs : list (string * Obs)) :
  Forall (fun kv => diffObs_key obs2 (fst kv) (snd kv) = Ret []) kvs ->
  foldr (fun kv acc =>
           let* l := diffObs_key obs2 (fst kv) (snd kv) in
           let* r := acc in
           Ret (l ++ r))
        (Ret []) kvs = Ret [].
Proof.
  induction 1 as [|kv kvs H _ IH]; [done|]. cbn [foldr]. rewrite H, IH. done.
Qed.

(** X15.  [diffObs] prints nothing when every key of the first record is
    in the second with the same value and the same loss-of-lock
    indicator, the phase values being numbers: the signal strengths and
    the keys that only the second record has are not compared. *)
Theorem diffObs_same (obs1 obs2 : SatObs) :
  (forall (k : string) (o1 : Obs),
     Obss obs1 !! k = Some o1 ->
     exists o2 : Obs,
       Obss obs2 !! k = Some o2 /\ LLI o2 = LLI o1 /\ Val o2 = Val o1 /\
       (HasPrefix k "L" = true -> finiteVal (Val o1) = true)) ->
  diffObs obs1 obs2 = Ret [].
Proof.
  intros H. unfold diffObs. apply diffObs_fold_nil.
  apply List.Forall_forall. intros [k o1] Hin. cbn [fst snd].
  apply list_elem_of_In, elem_of_map_to_list in Hin.
  destruct (H k o1 Hin) as (o2 & H2 & Hl & Hv & Hf).
  by eapply diffObs_key_same.
Qed.

Lemma printDiffers_no_missing (k : string) (v1 : float) (o1 : Obs) (v2 : float)
    (o2 : Obs) (l : list report) (k' : string) :
  printDiffers k v1 o1 v2 o2 = Ret l -> KeyMissing k' ∉ l.
Proof.
  unfold printDiffers. intros H. apply bind_Ret in H as (k1 & _ & H).
  inversion H; subst. intros Hx. apply list_elem_of_singleton in Hx. discriminate.
Qed.

(** X16.  [diffObs] reports a key as missing exactly when the first
    record has it and the second has not. *)
Theorem diffObs_missing_keys (obs1 obs2 : SatObs) (l : list report) :
  diffObs obs1 obs2 = Ret l ->
  forall k : string,
    KeyMissing k ∈ l <-> is_Some (Obss obs1 !! k) /\ Obss obs2 !! k = None.
Proof.
  intros H k. rewrite (diffObs_reports obs1 obs2 l H). split.
  - intros (k' & o1 & lk & H1 & Hk & Hin). unfold diffObs_key in Hk.
    destruct (Obss obs2 !! k') as [o2|] eqn:E2.
    + exfalso. apply bind_Ret in Hk as (v1 & _ & Hk).
      apply bind_Ret in Hk as (v2 & _ & Hk).
      destruct (_ || _).
      * by apply printDiffers_no_missing with (k' := k) in Hk.
      * destruct (_ && _).
        -- by apply printDiffers_no_missing with (k' := k) in Hk.
        -- inversion Hk; subst. by apply elem_of_nil in Hin.
    + inversion Hk; subst. apply list_elem_of_singleton in Hin.
      inversion Hin; subst. eauto.
  - intros [[o1 H1] H2]. exists k, o1, [KeyMissing k].
    split; [done|]. unfold diffObs_key. rewrite H2.
    split; [done|]. by apply list_elem_of_singleton.
Qed.

Lemma getObsByPRN_split (obslist : list SatObs) (prn : PRN) :
  match getObsByPRN obslist prn with
  | Some obs =>
      exists l1 l2 : list SatObs,
        obslist = l1 ++ obs :: l2 /\ Prn obs = prn /\
        Forall (fun o => Prn o <> prn) l1
  | None => Forall (fun o => Prn o <> prn) obslist
  end.
Proof.
  induction obslist as [|o obslist IH]; cbn [getObsByPRN]; [constructor|].
  destruct (bool_decide_reflect (Prn o = prn)) as [He|He].
  - exists [], obslist. done.
  - destruct (getObsByPRN obslist prn) as [obs|].
    + destruct IH as (l1 & l2 & -> & Hp & Hf). exists (o :: l1), l2.
      split; [done|]. split; [done|]. by constructor.
    + by constructor.
Qed.

(** X17.  [getObsByPRN] returns the first record of the list that has
    the satellite, system and number, asked for, also when a later
    record has it too; it returns its error exactly when no record has
    it. *)
Theorem getObsByPRN_first (obslist : list SatObs) (prn : PRN) :
  match getObsByPRN obslist prn with
  | Some obs =>
      exists l1 l2 : list SatObs,
        obslist = l1 ++ obs :: l2 /\ Prn obs = prn /\
        Forall (fun o => Prn o <> prn) l1
  | None => Forall (fun o => Prn o <> prn) obslist
  end.
Proof. apply getObsByPRN_split. Qed.



Section DiffFacts.

Context {RT : Runtime}.

Variable Abbr : System -> string.




Lemma diffEpo_loop_lines (obslist : list SatObs) (epo2 : option Epoch)
    (t : time_Time) (opts : Options) (ls : list diffLine) :
  diffEpo_loop Abbr obslist epo2 t opts = Ret ls ->
  Forall (fun ln =>
            match ln with
            | NoObservations prn =>
                In prn (map Prn obslist) /\ printSys Abbr opts (Sys prn) = true /\
                exists e2, epo2 = Some e2 /\ ~ In prn (map Prn (ObsList e2))
            | ObsLine t' prn r =>
                t' = t /\ In prn (map Prn obslist) /\
                printSys Abbr opts (Sys prn) = true /\
                exists e2, epo2 = Some e2 /\ In prn (map Prn (ObsList e2))
            end) ls.
Proof.
  revert ls. induction obslist as [|o l IH]; intros ls H; cbn [diffEpo_loop] in H.
  - inversion H. constructor.
  - assert (Hw : forall k, Forall (fun ln =>
            match ln with
            | NoObservations prn =>
                In prn (map Prn l) /\ printSys Abbr opts (Sys prn) = true /\
                exists e2, epo2 = Some e2 /\ ~ In prn (map Prn (ObsList e2))
            | ObsLine t' prn r =>
                t' = t /\ In prn (map Prn l) /\
                printSys Abbr opts (Sys prn) = true /\
                exists e2, epo2 = Some e2 /\ In prn (map Prn (ObsList e2))
            end) k -> Forall (fun ln =>
            match ln with
            | NoObservations prn =>
                In prn (map Prn (o :: l)) /\ printSys Abbr opts (Sys prn) = true /\
                exists e2, epo2 = Some e2 /\ ~ In prn (map Prn (ObsList e2))
            | ObsLine t' prn r =>
                t' = t /\ In prn (map Prn (o :: l)) /\
                printSys Abbr opts (Sys prn) = true /\
                exists e2, epo2 = Some e2 /\ In prn (map Prn (ObsList e2))
            end) k).
    { intros k Hk. eapply Forall_impl; [exact Hk|]. cbn [map In].
      intros [prn|t' prn r]; intros; intuition. }
    destruct (printSys Abbr opts (Sys (Prn o))) eqn:Hp; cbn [negb] in H; [|auto].
    apply bind_Ret in H as (e2 & He2 & H).
    destruct epo2 as [x|]; [|discriminate]. inversion He2; subst x.
    pose proof (getObsByPRN_split (ObsList e2) (Prn o)) as Hg.
    destruct (getObsByPRN (ObsList e2) (Prn o)) as [obs2|].
    + apply bind_Ret in H as (lo & Hlo & H).
      apply bind_Ret in H as (k & Hk & H). inversion H; subst.
      apply Forall_app. split; [|auto].
      apply List.Forall_forall. intros ln Hin. apply in_map_iff in Hin as (r & <- & _).
      split; [done|]. split; [cbn; auto|]. split; [done|].
      exists e2. split; [done|].
      destruct Hg as (l1 & l2 & -> & <- & _). rewrite map_app. apply in_or_app.
      right. cbn. auto.
    + apply bind_Ret in H as (k & Hk & H). inversion H; subst.
      constructor; [|auto].
      split; [cbn; auto|]. split; [done|]. exists e2. split; [done|].
      intros Hin. apply in_map_iff in Hin as (x & Hx & Hin).
      rewrite List.Forall_forall in Hg. by apply Hg in Hin.
Qed.

(** X19.  Every line [diffEpo] prints is about a satellite of the first
    epoch whose system is selected in the options: a line of [diffObs],
    with the time of the first epoch, when the second epoch has the
    satellite, and the notice of no observations when it has not.
    Satellites that only the second epoch has are never mentioned. *)
Theorem diffEpo_selected (epochs : SyncEpochs) (opts : Options) (ls : list diffLine) :
  diffEpo Abbr epochs opts = Ret ls ->
  exists e1 : Epoch,
    Epo1 epochs = Some e1 /\
    Forall (fun ln =>
              match ln with
              | NoObservations prn =>
                  In prn (map Prn (ObsList e1)) /\
                  printSys Abbr opts (Sys prn) = true /\
                  exists e2, Epo2 epochs = Some e2 /\ ~ In prn (map Prn (ObsList e2))
              | ObsLine t prn r =>
                  t = Time e1 /\ In prn (map Prn (ObsList e1)) /\
                  printSys Abbr opts (Sys prn) = true /\
                  exists e2, Epo2 epochs = Some e2 /\ In prn (map Prn (ObsList e2))
              end) ls.
Proof.
  unfold diffEpo. intros H. apply bind_Ret in H as (e1 & He & H).
  destruct (Epo1 epochs) as [x|]; [|discriminate]. inversion He; subst x.
  exists e1. split; [done|]. by apply diffEpo_loop_lines in H.
Qed.






Lemma getDecimal_fuel (f : float) : getDecimal f <> OutOfFuel.
Proof.
  unfold getDecimal. destruct (Prim2SF f) as [s|s| |s m e]; try discriminate.
  destruct (0 <=? e)%Z; [discriminate|].
  destruct (Z.pos m mod 2 ^ (- e))%Z; discriminate.
Qed.

Lemma printDiffers_fuel (k : string) (v1 : float) (o1 : Obs) (v2 : float) (o2 : Obs) :
  printDiffers k v1 o1 v2 o2 <> OutOfFuel.
Proof.
  unfold printDiffers. apply bind_fuel; [apply slice_fuel|discriminate].
Qed.

Lemma diffObs_key_fuel (obs2 : SatObs) (k : string) (o1 : Obs) :
  diffObs_key obs2 k o1 <> OutOfFuel.
Proof.
  unfold diffObs_key. destruct (Obss obs2 !! k) as [o2|]; [|discriminate].
  apply bind_fuel; [destruct (HasPrefix k "L"); [apply getDecimal_fuel|discriminate]|].
  intros v1.
  apply bind_fuel; [destruct (HasPrefix k "L"); [apply getDecimal_fuel|discriminate]|].
  intros v2. destruct (_ || _); [apply printDiffers_fuel|].
  destruct (_ && _); [apply printDiffers_fuel|discriminate].
Qed.

Lemma diffObs_fuel (obs1 obs2 : SatObs) : diffObs obs1 obs2 <> OutOfFuel.
Proof.
  unfold diffObs. induction (map_to_list (Obss obs1)) as [|kv l IH]; cbn [foldr];
    [discriminate|].
  apply bind_fuel; [apply diffObs_key_fuel|]. intros a.
  apply bind_fuel; [exact IH|discriminate].
Qed.

Lemma diffEpo_fuel (epochs : SyncEpochs) (opts : Options) :
  diffEpo Abbr epochs opts <> OutOfFuel.
Proof.
  unfold diffEpo. apply bind_fuel; [apply deref_fuel|]. intros e1.
  induction (ObsList e1) as [|o l IH]; cbn [diffEpo_loop]; [discriminate|].
  destruct (negb _); [exact IH|].
  apply bind_fuel; [apply deref_fuel|]. intros e2.
  destruct (getObsByPRN _ _).
  - apply bind_fuel; [apply diffObs_fuel|]. intros a.
    apply bind_fuel; [exact IH|discriminate].
  - apply bind_fuel; [exact IH|discriminate].
Qed.

Lemma Diff_lines_fuel (fuel : nat) (opts : Options) :
  forall dec dec2 : ObsDecoder,
    (length (pending (sc dec)) < fuel)%nat ->
    Diff_lines Abbr fuel opts dec dec2 <> OutOfFuel.
Proof.
  induction fuel as [|fuel IH]; intros dec dec2 Hf; [lia|].
  cbn [Diff_lines]. pose proof (sync_terminates dec dec2) as Hn.
  destruct (sync dec dec2) as [[[[] d] d2]| |] eqn:E; cbn [bind];
    [|discriminate|discriminate|contradiction].
  unfold sync in E. apply sync_loop_found in E as (e1 & e2 & _ & _ & _ & Hl).
  apply bind_fuel; [apply diffEpo_fuel|]. intros l.
  apply bind_fuel; [apply IH; lia|]. intros [[k a] b]. discriminate.
Qed.

Lemma NewObsDecoder_fuel (lines : list string) (rerr : option error) :
  NewObsDecoder lines rerr <> OutOfFuel.
Proof.
  unfold NewObsDecoder. apply bind_fuel.
  - unfold readHeader. generalize (pending (sc
      {| Header := emptyHeader; sc := NewScanner lines rerr; epo := None;
         syncEpo := None; lineNum := 0; err := None |})).
    intros pend. generalize
      {| Header := emptyHeader; sc := NewScanner lines rerr; epo := None;
         syncEpo := None; lineNum := 0; err := None |}.
    intros d.
    destruct (readHeader_loop_returns pend d "" emptyHeader) as [r ->]. discriminate.
  - intros [[h e] d]. discriminate.
Qed.

(** X21.  The loops of [sync], of [Diff] and of [Stat] end: each turn
    follows a call of [NextEpoch] that took a line, so the fuel the
    model gives them, one more than the number of lines left, is never
    used up; a call returns or aborts. *)
Theorem loops_terminate :
  (forall dec dec2 : ObsDecoder, sync dec dec2 <> OutOfFuel) /\
  (forall dec dec2 : ObsDecoder, syncAll dec dec2 <> OutOfFuel) /\
  (forall (opts : Options) (file1 file2 : error + (list string * option error)),
     Diff Abbr opts file1 file2 <> OutOfFuel) /\
  (forall file : error + (list string * option error), Stat file <> OutOfFuel).
Proof.
  split; [apply sync_terminates|]. split; [|split].
  - intros dec dec2. apply Diff_loop_fuel. lia.
  - intros opts [e|[lines rerr]] file2; cbn [Diff]; [discriminate|].
    apply bind_fuel; [apply NewObsDecoder_fuel|].
    intros [d [e|]]; [discriminate|].
    destruct file2 as [e|[lines2 rerr2]]; [discriminate|].
    apply bind_fuel; [apply NewObsDecoder_fuel|].
    intros [d2 [e|]]; [discriminate|].
    apply bind_fuel; [apply Diff_lines_fuel; lia|].
    intros [[ls a] b]. destruct (Err a); discriminate.
  - intros [e|[lines rerr]]; cbn [Stat]; [discriminate|].
    apply bind_fuel; [apply NewObsDecoder_fuel|].
    intros [d [e|]]; [discriminate|].
    apply bind_fuel; [apply Stat_loop_fuel; lia|].
    intros [d' v]. destruct (Err d'); [discriminate|].
    apply bind_fuel; [apply deref_fuel|discriminate].
Qed.

End DiffFacts.

Lemma diffObs_same_witness : diffObs Inputs.sat1 Inputs.sat2 = Ret [].
Proof.
  apply (diffObs_same Inputs.sat1 Inputs.sat2).
  intros k o1 Hk. apply elem_of_map_to_list in Hk. vm_compute in Hk.
  repeat (apply elem_of_cons in Hk as [Hk|Hk];
          [inversion Hk; subst; eexists;
           split; [vm_compute; reflexivity|];
           split; [reflexivity|]; split; [reflexivity|];
           intros _; vm_compute; reflexivity|]).
  by apply elem_of_nil in Hk.
Defined.

Lemma diffObs_missing_keys_witness :
  exists l : list report,
    diffObs Inputs.sat1 Inputs.sat3 = Ret l /\
    forall k : string,
      KeyMissing k ∈ l <->
      is_Some (Obss Inputs.sat1 !! k) /\ Obss Inputs.sat3 !! k = None.
Proof.
  let r := eval vm_compute in (diffObs Inputs.sat1 Inputs.sat3) in
  lazymatch r with
  | Ret ?l =>
      assert (H : diffObs Inputs.sat1 Inputs.sat3 = Ret l) by (vm_compute; reflexivity);
      exists l; split; [exact H|exact (diffObs_missing_keys _ _ l H)]
  end.
Defined.

Lemma diffEpo_selected_witness :
  exists (dec dec' : ObsDecoder) (e1 e2 : Epoch) (ls : list diffLine),
    Sample.decoderOf Inputs.file2 = Ret dec /\ NextEpoch dec = Ret (true, dec') /\
    epo dec' = Some e1 /\
    diffEpo Inputs.Abbr {| Epo1 := Some e1; Epo2 := Some e2 |} Inputs.useGPS = Ret ls /\
    ls <> [] /\
    exists e1' : Epoch,
      Some e1 = Some e1' /\
      Forall (fun ln =>
                match ln with
                | NoObservations prn =>
                    In prn (map Prn (ObsList e1')) /\
                    printSys Inputs.Abbr Inputs.useGPS (Sys prn) = true /\
                    exists e2', Some e2 = Some e2' /\ ~ In prn (map Prn (ObsList e2'))
                | ObsLine t prn r =>
                    t = Time e1' /\ In prn (map Prn (ObsList e1')) /\
                    printSys Inputs.Abbr Inputs.useGPS (Sys prn) = true /\
                    exists e2', Some e2 = Some e2' /\ In prn (map Prn (ObsList e2'))
                end) ls.
Proof.
  first_epoch Inputs.file1 ltac:(fun dec2 dec2' e2 =>
    clear H0 H1 H2;
    first_epoch Inputs.file2 ltac:(fun dec dec' e1 =>
      let r := eval vm_compute in
        (diffEpo Inputs.Abbr {| Epo1 := Some e1; Epo2 := Some e2 |} Inputs.useGPS) in
      lazymatch r with
      | Ret ?ls =>
          assert (H : diffEpo Inputs.Abbr {| Epo1 := Some e1; Epo2 := Some e2 |}
                        Inputs.useGPS = Ret ls) by (vm_compute; reflexivity);
          exists dec, dec', e1, e2, ls;
          split; [exact H0|]; split; [exact H1|]; split; [exact H2|];
          split; [exact H|]; split; [discriminate|];
          exact (diffEpo_selected Inputs.Abbr _ Inputs.useGPS ls H)
      end)).
Defined.


